(** * Event generation and ClickHouse loading pipeline

    A shallow embedding of [data_generator.py], [clickhouse_loader.py] and
    [main.py].  Python integers are [Z]; the random source and the store
    client are oracles; every routine is a computation over an explicit
    world (random draws consumed, client calls issued, errors logged) that
    either returns a value or raises.  [config.py] is not part of the
    sources: its constants are the fields of [Config]. *)

From stdpp Require Import base numbers option list strings gmap.
From Stdlib Require Import ZArith Lia Sorted.

Local Open Scope Z_scope.

(** ** Exceptions and results *)

Inductive exn :=
| ValueError
| IndexError
| KeyError
| ZeroDivisionError
| OverflowError
| StoreError (call_index : nat)
| SystemExit (code : Z).

Inductive result (A : Type) :=
| Ok (a : A)
| Raise (e : exn).
Arguments Ok {A} a.
Arguments Raise {A} e.

(** [except Exception] does not catch [SystemExit]. *)
Definition is_Exception (e : exn) : bool :=
  match e with
  | SystemExit _ => false
  | _ => true
  end.

(** ** Data model *)

(** A date is its proleptic Gregorian ordinal ([date.toordinal()]). *)
Record datetime := mkdatetime {
  dt_date : Z;
  dt_hour : Z;
  dt_minute : Z;
  dt_second : Z
}.

(** Position of a [datetime] on the time line, in seconds; [datetime]
    values compare as their timestamps. *)
Definition timestamp (t : datetime) : Z :=
  ((dt_date t * 24 + dt_hour t) * 60 + dt_minute t) * 60 + dt_second t.

(** The textual form of a [uuid4] is modelled as its 128-bit value. *)
Abbreviation uuid := N.

Record Profile := mkProfile {
  p_city : string;
  p_device_os : string;
  created_date : Z
}.

(** One generated row: the dictionary appended to [data] / [batch_data]. *)
Record EventRecord := mkEvent {
  date : Z;
  event : string;
  device_id : uuid;
  event_time : datetime;
  city : string;
  device_os : string
}.

(** The tuple sent to the store for one record. *)
Definition Row : Type := Z * string * uuid * datetime * string * string.

Definition to_row (r : EventRecord) : Row :=
  (date r, event r, device_id r, event_time r, city r, device_os r).

(** A [pandas.DataFrame] of event records: its column labels and rows. *)
Record DataFrame := mkDataFrame {
  df_columns : list string;
  df_records : list EventRecord
}.

Definition event_columns : list string :=
  ["date"; "event"; "device_id"; "event_time"; "city"; "device_os"]%string.

(** [pd.DataFrame(data)] for a list of row dictionaries: an empty list
    gives a frame with no columns at all. *)
Definition pd_DataFrame (data : list EventRecord) : DataFrame :=
  match data with
  | [] => mkDataFrame [] []
  | _ :: _ => mkDataFrame event_columns data
  end.

Definition df_len (df : DataFrame) : Z := Z.of_nat (length (df_records df)).

Definition df_empty (df : DataFrame) : bool :=
  match df_columns df, df_records df with
  | [], _ => true
  | _, [] => true
  | _, _ => false
  end.

(** The constants of [config.py]: [DATA_GENERATION_CONFIG], [CITIES],
    [EVENTS], [DEVICE_OS] and the database entry of [CLICKHOUSE_CONFIG].
    The two date strings are held as the ordinals they parse to. *)
Record Config := mkConfig {
  cfg_num_rows : Z;
  cfg_batch_size : Z;
  cfg_start_date : Z;
  cfg_end_date : Z;
  CITIES : list string;
  EVENTS : list string;
  DEVICE_OS : list string;
  cfg_database : option string
}.

(** The command line of [main.py], once parsed. *)
Record Args := mkArgs {
  rows : Z;
  batch_size : Z;
  table : string;
  database : string;
  generate_only : bool
}.

Definition with_rows (n : Z) (args : Args) : Args :=
  mkArgs n (batch_size args) (table args) (database args) (generate_only args).

(** ** The store client *)

Inductive Sql :=
| SelectVersion
| CreateDatabaseIfNotExists (db : string)
| CreateTableIfNotExists (db tbl : string)
| DescribeTable (db tbl : string)
| InsertInto (db tbl : string)
| SelectCount (db tbl : string)
| SelectEventCounts (db tbl : string)
| RawQuery (q : string).

Inductive Call :=
| NewClient
| Execute (q : Sql) (rows : option (list Row))
| ClientDisconnect.

Definition is_schema_creation (c : Call) : bool :=
  match c with
  | Execute (CreateDatabaseIfNotExists _) _ => true
  | Execute (CreateTableIfNotExists _ _) _ => true
  | _ => false
  end.

(** ** The world *)

Record World := mkWorld {
  rng_pos : nat;                 (* random draws consumed so far *)
  calls : list (Call * bool);    (* client calls issued, with their success *)
  errors_logged : list string    (* [logger.error] records, by routine *)
}.

Definition initial_world : World := mkWorld 0 [] [].

(** Rows a bulk insert leaves in the store: all of them when the call
    succeeded, none when it raised. *)
Definition rows_of_call (db tbl : string) (c : Call * bool) : list Row :=
  match c with
  | (Execute (InsertInto db' tbl') (Some rows), true) =>
      if bool_decide (db' = db /\ tbl' = tbl) then rows else []
  | _ => []
  end.

Definition committed_rows (db tbl : string) (w : World) : list Row :=
  concat (map (rows_of_call db tbl) (calls w)).

(** ** Computations *)

Definition M (A : Type) : Type := World -> World * result A.

Definition ret {A} (a : A) : M A := fun w => (w, Ok a).

Definition raise {A} (e : exn) : M A := fun w => (w, Raise e).

Definition bind {A B} (m : M A) (f : A -> M B) : M B :=
  fun w =>
    match m w with
    | (w', Ok a) => f a w'
    | (w', Raise e) => (w', Raise e)
    end.

(** [try: m except Exception as e: h e] *)
Definition try_except {A} (m : M A) (h : exn -> M A) : M A :=
  fun w =>
    match m w with
    | (w', Ok a) => (w', Ok a)
    | (w', Raise e) => if is_Exception e then h e w' else (w', Raise e)
    end.

Notation "'let*' x ':=' m 'in' k" := (bind m (fun x => k))
  (at level 10, x pattern, m at level 100, k at level 200).
Notation "m ';;' k" := (bind m (fun _ => k))
  (at level 100, k at level 200, right associativity).

Definition logger_error (routine : string) : M unit :=
  fun w => (mkWorld (rng_pos w) (calls w) (errors_logged w ++ [routine]), Ok tt).

(** [for x in xs: body x] *)
Fixpoint for_each {A} (xs : list A) (body : A -> M unit) : M unit :=
  match xs with
  | [] => ret tt
  | x :: rest => body x;; for_each rest body
  end.

(** A loop that threads an accumulator through its body. *)
Fixpoint fold_each {A S} (xs : list A) (body : S -> A -> M S) (s : S) : M S :=
  match xs with
  | [] => ret s
  | x :: rest => let* s' := body s x in fold_each rest body s'
  end.

(** [[m for _ in range(n)]] *)
Fixpoint repeatM {A} (n : nat) (m : M A) : M (list A) :=
  match n with
  | O => ret []
  | S k => let* x := m in let* xs := repeatM k m in ret (x :: xs)
  end.

(** ** Python arithmetic *)

(** [a // b] *)
Definition floordiv (a b : Z) : M Z :=
  if b =? 0 then raise ZeroDivisionError else ret (a / b).

(** [range(n)] *)
Definition range (n : Z) : list Z := map Z.of_nat (seq 0 (Z.to_nat n)).

(** [range(start, stop, step)] *)
Definition range3 (start stop step : Z) : M (list Z) :=
  if step =? 0 then raise ValueError
  else
    let n := if 0 <? step then (stop - start + step - 1) / step
             else (start - stop - step - 1) / (- step) in
    ret (map (fun k => start + Z.of_nat k * step) (seq 0 (Z.to_nat n))).

(** [data[i:j]] for [0 <= i], the only use in the sources. *)
Definition slice {A} (data : list A) (i j : Z) : list A :=
  take (Z.to_nat (j - i)) (drop (Z.to_nat i) data).

(** *** Double-precision products

    A finite double is [mant * 2 ^ expo] with [|mant| <= 2 ^ 53]; its
    magnitude is below [2 ^ 1024].  The only doubles built here are an
    integer converted to a double and its product with [0.1], which is
    smaller in magnitude and, for a non-zero integer, not below [0.1]. *)
Record float := mkfloat { mant : Z; expo : Z }.

(** Round a non-negative integer to 53 significant bits, ties to even:
    the result [(q, s)] stands for [q * 2 ^ s]. *)
Definition round_nearest_even (x : Z) : Z * Z :=
  let s := Z.max 0 (Z.log2 x + 1 - 53) in
  let q := Z.shiftr x s in
  let r := x - Z.shiftl q s in
  let half := Z.shiftl 1 (s - 1) in
  if s =? 0 then (x, 0)
  else if (half <? r) || ((r =? half) && Z.odd q) then (q + 1, s)
  else (q, s).

(** The double nearest to [n], for an [n] that has one. *)
Definition float_of_Z (n : Z) : float :=
  let '(q, s) := round_nearest_even (Z.abs n) in
  mkfloat (Z.sgn n * q) s.

(** An integer converts to a double unless, once rounded to 53 bits, it
    reaches [2 ^ 1024]. *)
Definition fits_double (n : Z) : bool :=
  let '(q, s) := round_nearest_even (Z.abs n) in
  q * 2 ^ s <? 2 ^ 1024.

(** The least magnitude that does not convert: halfway between the
    largest double and [2 ^ 1024]. *)
Definition float_overflow_bound : Z := 2 ^ 1024 - 2 ^ 970.

(** [a * b] on doubles *)
Definition float_mul (a b : float) : float :=
  let p := mant a * mant b in
  let '(q, s) := round_nearest_even (Z.abs p) in
  mkfloat (Z.sgn p * q) (s + expo a + expo b).

(** [int(f)]: truncation toward zero *)
Definition py_int (f : float) : Z :=
  if 0 <=? expo f then mant f * 2 ^ expo f
  else Z.quot (mant f) (2 ^ (- expo f)).

(** The literal [0.1], that is [0x1.999999999999ap-4]. *)
Definition float_0_1 : float := mkfloat 3602879701896397 (-55).

(** [n * f] for an [int] and a [float]: the integer is converted first,
    and one too large for a double raises [OverflowError]. *)
Definition int_mul_float (n : Z) (f : float) : M float :=
  if fits_double n then ret (float_mul (float_of_Z n) f) else raise OverflowError.

(** The value of [max(1000, int(num_rows * 0.1))] when the product
    exists. *)
Definition unique_devices (num_rows : Z) : Z :=
  Z.max 1000 (py_int (float_mul (float_of_Z num_rows) float_0_1)).

(** *** Dates as text

    [_random_date] receives its two dates as ['%Y-%m-%d'] strings.  Such
    a string is either read by [strptime] as a date, or rejected. *)
Inductive date_text :=
| Reads (d : Z)
| Unreadable.

(** Days before January 1st of [year] ([_days_before_year] of the
    [datetime] module): the ordinal of the last day of the year before. *)
Definition days_before_year (year : Z) : Z :=
  let y := year - 1 in y * 365 + y / 4 - y / 100 + y / 400.

(** [d.strftime('%Y-%m-%d')]: the year is written without leading zeros,
    while [%Y] of [strptime] wants four digits, so the text of a date
    before year 1000 is not read back. *)
Definition strftime_ymd (d : Z) : date_text :=
  if d <=? days_before_year 1000 then Unreadable else Reads d.

(** [datetime.strptime(text, '%Y-%m-%d')] *)
Definition strptime_ymd (text : date_text) : M Z :=
  match text with
  | Reads d => ret d
  | Unreadable => raise ValueError
  end.

(** ** Sorting a frame by [event_time] *)

Fixpoint insert_by_time (r : EventRecord) (l : list EventRecord) : list EventRecord :=
  match l with
  | [] => [r]
  | x :: rest =>
      if timestamp (event_time r) <=? timestamp (event_time x)
      then r :: x :: rest
      else x :: insert_by_time r rest
  end.

Fixpoint sort_by_time (l : list EventRecord) : list EventRecord :=
  match l with
  | [] => []
  | x :: rest => insert_by_time x (sort_by_time rest)
  end.

Definition has_column (df : DataFrame) (label : string) : bool :=
  bool_decide (label ∈ df_columns df).

(** [df[label]]: a missing label raises [KeyError]. *)
Definition column (df : DataFrame) (label : string) : M unit :=
  if has_column df label then ret tt else raise KeyError.

(** [df.sort_values('event_time').reset_index(drop=True)].  Records with
    equal timestamps are left in the order they were generated in; the
    default sort of pandas promises no order among them, and no statement
    below depends on it. *)
Definition sort_values_event_time (df : DataFrame) : M DataFrame :=
  column df "event_time";;
  ret (mkDataFrame (df_columns df) (sort_by_time (df_records df))).

(** ** Vocabulary of the specifications *)

(** Every run of [m] either returns a value satisfying [Q] or raises an
    exception satisfying [E], whatever the world it starts from. *)
Definition outcome {A} (E : exn -> Prop) (Q : A -> Prop) (m : M A) : Prop :=
  forall w, match (m w).2 with
            | Ok a => Q a
            | Raise e => E e
            end.

Definition no_exn : exn -> Prop := fun _ => False.
Definition any_exn : exn -> Prop := fun _ => True.

(** Every run of [m] moves the world along the relation [R]. *)
Definition tracks {A} (R : relation World) (m : M A) : Prop :=
  forall w, R w (m w).1.

Definition same_store (w w' : World) : Prop :=
  calls w' = calls w /\ errors_logged w' = errors_logged w.

(** [m] issues no call and logs nothing, whether it returns or raises. *)
Definition quiet {A} (m : M A) : Prop := tracks same_store m.

Definition by_time (a b : EventRecord) : Prop :=
  timestamp (event_time a) <= timestamp (event_time b).

(** [ceil(n / 10)] and [floor(n / 10)] on integers. *)
Definition ceil_tenth (n : Z) : Z := (n + 9) / 10.
Definition floor_tenth (n : Z) : Z := n / 10.

(** [ceil(n / b)], as the negated floor of the negated quotient. *)
Definition ceil_div (n b : Z) : Z := - ((- n) / b).

Definition sum_list (l : list Z) : Z := foldr Z.add 0 l.

(** The sizes [B, ..., B, n mod B] of [ceil(n / B)] batches. *)
Definition batch_sizes (n B : Z) : list Z :=
  replicate (Z.to_nat (n / B)) B ++ (if n mod B =? 0 then [] else [n mod B]).

(** Queries whose failure the loader logs and drops. *)
Definition reporting_query (c : Call) : bool :=
  match c with
  | Execute (DescribeTable _ _) _ => true
  | Execute (SelectCount _ _) _ => true
  | Execute (SelectEventCounts _ _) _ => true
  | _ => false
  end.

(** No call issued since [w0] failed, apart from reporting queries. *)
Definition no_lost_failure (w0 w : World) : Prop :=
  exists tail, calls w = calls w0 ++ tail /\
               Forall (fun c => c.2 = false -> reporting_query c.1 = true) tail.

(** [m] never hides a failed call behind a normal return or behind an
    exception of another kind, reporting queries apart. *)
Definition handled {A} (m : M A) : Prop :=
  forall w, match m w with
            | (w', Ok _) => no_lost_failure w w'
            | (w', Raise e) => (exists i, e = StoreError i) \/ no_lost_failure w w'
            end.

(** Calls issued between two worlds. *)
Definition calls_since (w0 w : World) : list (Call * bool) :=
  drop (length (calls w0)) (calls w).

(** Sizes of the bulk inserts the store accepted, in order. *)
Definition inserted_batch_sizes (w : World) : list nat :=
  omap (fun c => match c with
                 | (Execute (InsertInto _ _) (Some rows), true) => Some (length rows)
                 | _ => None
                 end) (calls w).

(** [sat E Q m w]: run from [w], [m] returns a value and a world that
    satisfy [Q], or raises an exception in a world that satisfy [E]. *)
Definition sat {A} (E : exn -> World -> Prop) (Q : A -> World -> Prop)
    (m : M A) (w : World) : Prop :=
  match m w with
  | (w', Ok a) => Q a w'
  | (w', Raise e) => E e w'
  end.

Definition never_raised : exn -> World -> Prop := fun _ _ => False.

(** The calls issued from [w] to [w'] all satisfy [P]. *)
Definition appends (P : Call * bool -> Prop) (w w' : World) : Prop :=
  exists tail, calls w' = calls w ++ tail /\ Forall P tail.

(** Every call [m] issues satisfies [P], whether [m] returns or raises. *)
Definition footprint {A} (P : Call * bool -> Prop) (m : M A) : Prop :=
  tracks (appends P) m.

(** [c] is not a rejected [CREATE DATABASE] or [CREATE TABLE]. *)
Definition no_failed_schema_creation (c : Call * bool) : Prop :=
  is_schema_creation c.1 = true -> c.2 = true.

Definition failed_schema_creation (c : Call * bool) : Prop :=
  is_schema_creation c.1 = true /\ c.2 = false.

(** [m] raises nothing that [except Exception] would let through. *)
Definition exceptional {A} (m : M A) : Prop :=
  outcome (fun e => is_Exception e = true) (fun _ => True) m.

Definition is_insert_call (c : Call * bool) : bool :=
  match c.1 with
  | Execute (InsertInto _ _) _ => true
  | _ => false
  end.

Definition not_insert (c : Call * bool) : Prop := is_insert_call c = false.

Definition rejected_insert (c : Call * bool) : Prop :=
  is_insert_call c = true /\ c.2 = false.

Definition no_rejected_insert (c : Call * bool) : Prop :=
  is_insert_call c = true -> c.2 = true.

(** From [w] to [w'] one insert was rejected, and it is the last call. *)
Definition stopped_at_insert (w w' : World) : Prop :=
  exists pre c, calls w' = calls w ++ pre ++ [c] /\
                Forall no_rejected_insert pre /\ rejected_insert c.

(** [m] stops at the first insert the store rejects: it either ends
    without a rejected insert, or raises right after one. *)
Definition fail_fast {A} (m : M A) : Prop :=
  forall w, match m w with
            | (w', Ok _) => appends no_rejected_insert w w'
            | (w', Raise _) => appends no_rejected_insert w w' \/ stopped_at_insert w w'
            end.

(** The world after one more call, accepted or not. *)
Definition after_call (w : World) (c : Call) (ok : bool) : World :=
  mkWorld (rng_pos w) (calls w ++ [(c, ok)]) (errors_logged w).

Definition accepted (c : Call) : Call * bool := (c, true).

(** Seconds from the midnight that opens day [d] to the next one. *)
Definition within_day (d : Z) (t : datetime) : Prop :=
  d * 86400 <= timestamp t < (d + 1) * 86400.

(** Observations on a finished run. *)
Definition returned {A} (run : World * result A) : bool :=
  match run.2 with
  | Ok _ => true
  | Raise _ => false
  end.

Definition generated_devices {A} (run : World * result (list uuid * A)) : option nat :=
  match run.2 with
  | Ok (device_ids, _) => Some (length device_ids)
  | Raise _ => None
  end.

(** ** Sample inputs used to run the model *)

Definition sample_config : Config :=
  {| cfg_num_rows := 10;
     cfg_batch_size := 4;
     cfg_start_date := 739252;
     cfg_end_date := 739254;
     CITIES := ["Moscow"; "Kazan"; "Omsk"]%string;
     EVENTS := ["view"; "purchase"; "add_to_cart"]%string;
     DEVICE_OS := ["Android"; "iOS"]%string;
     cfg_database := Some "default"%string |}.

(** The same configuration with more rows than a double can count. *)
Definition sample_config_too_many_rows : Config :=
  {| cfg_num_rows := 2 ^ 1024;
     cfg_batch_size := 4;
     cfg_start_date := 739252;
     cfg_end_date := 739254;
     CITIES := ["Moscow"; "Kazan"; "Omsk"]%string;
     EVENTS := ["view"; "purchase"; "add_to_cart"]%string;
     DEVICE_OS := ["Android"; "iOS"]%string;
     cfg_database := Some "default"%string |}.

(** The same configuration with no row to generate. *)
Definition sample_config_without_rows : Config :=
  {| cfg_num_rows := 0;
     cfg_batch_size := 4;
     cfg_start_date := 739252;
     cfg_end_date := 739254;
     CITIES := ["Moscow"; "Kazan"; "Omsk"]%string;
     EVENTS := ["view"; "purchase"; "add_to_cart"]%string;
     DEVICE_OS := ["Android"; "iOS"]%string;
     cfg_database := Some "default"%string |}.

Definition sample_entropy (i : nat) : N :=
  (N.of_nat i * N.of_nat i * 2654435761 + N.of_nat i * 40503 + 12345)%N.

Definition never_raises (_ : nat) (_ : Call) : bool := false.

Definition raises_at (k : nat) (i : nat) (_ : Call) : bool := bool_decide (i = k).

Definition sample_event (d : Z) (s : Z) : EventRecord :=
  mkEvent d "view" 7%N (mkdatetime d 0 0 s) "Omsk" "iOS".

Definition sample_records : list EventRecord :=
  map (sample_event 739252) [5; 3; 9; 1; 7; 2; 8].

Definition sample_args (n : Z) (only : bool) : Args :=
  mkArgs n 4 "user_events" "default" only.

(** ** The pipeline *)

Section Pipeline.

(** The configuration, the raw values the random source hands out (by
    draw number) and the behaviour of the store client (does its [i]-th
    call raise?). *)
Variable cfg : Config.
Variable entropy : nat -> N.
Variable raises : nat -> Call -> bool.

(** *** Random source *)

Definition draw : M N :=
  fun w => (mkWorld (S (rng_pos w)) (calls w) (errors_logged w), Ok (entropy (rng_pos w))).

(** [random.randint(a, b)]: an empty range raises [ValueError]. *)
Definition random_randint (a b : Z) : M Z :=
  if b <? a then raise ValueError
  else let* n := draw in ret (a + Z.of_N n mod (b - a + 1)).

(** [random.choice(seq)]: an empty sequence raises [IndexError]. *)
Definition random_choice {A} (seq : list A) : M A :=
  match seq with
  | [] => raise IndexError
  | x :: _ =>
      let* n := draw in
      ret (nth (Z.to_nat (Z.of_N n mod Z.of_nat (length seq))) seq x)
  end.

(** [str(uuid.uuid4())] *)
Definition uuid4 : M uuid := let* n := draw in ret (n mod 2 ^ 128)%N.

(** Index selected by cumulative weights 7, 9, 10 (out of 10). *)
Definition weighted_index (x : Z) : nat :=
  if x <? 7 then 0%nat else if x <? 9 then 1%nat else 2%nat.

(** [random.choices(self.events, weights=[0.7, 0.2, 0.1], k=1)[0]]: the
    population must have as many members as there are weights. *)
Definition _weighted_random_event : M string :=
  if bool_decide (length (EVENTS cfg) = 3%nat) then
    let* n := draw in
    ret (nth (weighted_index (Z.of_N n mod 10)) (EVENTS cfg) EmptyString)
  else raise ValueError.

(** *** [DataGenerator] *)

Definition _random_date (start_date end_date : date_text) : M Z :=
  let* start := strptime_ymd start_date in
  let* end_ := strptime_ymd end_date in
  let delta_days := end_ - start in
  let* random_days := random_randint 0 delta_days in
  ret (start + random_days).

(** The two date strings of the configuration. *)
Definition config_start_date : date_text := Reads (cfg_start_date cfg).
Definition config_end_date : date_text := Reads (cfg_end_date cfg).

Definition _random_datetime (d : Z) : M datetime :=
  let* hour := random_randint 0 23 in
  let* minute := random_randint 0 59 in
  let* second := random_randint 0 59 in
  ret (mkdatetime d hour minute second).

(** The loop that fills [device_profiles]. *)
Fixpoint assign_profiles (device_ids : list uuid) (device_profiles : gmap uuid Profile)
  : M (gmap uuid Profile) :=
  match device_ids with
  | [] => ret device_profiles
  | device_id :: rest =>
      let* c := random_choice (CITIES cfg) in
      let* os := random_choice (DEVICE_OS cfg) in
      let* created := _random_date config_start_date config_end_date in
      assign_profiles rest (<[device_id := mkProfile c os created]> device_profiles)
  end.

(** The device population: the same statements open [generate_dataframe]
    and [generate_data_batches]. *)
Definition device_population (total_rows : Z) : M (list uuid * gmap uuid Profile) :=
  let* tenth := int_mul_float total_rows float_0_1 in
  let unique := Z.max 1000 (py_int tenth) in
  let* device_ids := repeatM (Z.to_nat unique) uuid4 in
  let* device_profiles := assign_profiles device_ids ∅ in
  ret (device_ids, device_profiles).

(** The body of the row loop, shared by both generation routines. *)
Definition generate_record (device_ids : list uuid) (device_profiles : gmap uuid Profile)
  : M EventRecord :=
  let* device_id := random_choice device_ids in
  let* profile := match device_profiles !! device_id with
                  | Some p => ret p
                  | None => raise KeyError
                  end in
  let* event_date := _random_date (strftime_ymd (created_date profile)) config_end_date in
  let* event_time := _random_datetime event_date in
  let* event := _weighted_random_event in
  ret (mkEvent event_date event device_id event_time (p_city profile) (p_device_os profile)).

(** [generate_dataframe], returning its device population next to the
    frame. *)
Definition generate_dataframe_locals (num_rows : option Z)
  : M (list uuid * gmap uuid Profile * DataFrame) :=
  let num_rows := default (cfg_num_rows cfg) num_rows in
  let* (device_ids, device_profiles) := device_population num_rows in
  let* data := repeatM (Z.to_nat num_rows) (generate_record device_ids device_profiles) in
  let df := pd_DataFrame data in
  let* df := sort_values_event_time df in
  (* the console summary reads four columns *)
  column df "date";;
  column df "event";;
  column df "city";;
  column df "device_os";;
  ret (device_ids, device_profiles, df).

Definition generate_dataframe (num_rows : option Z) : M DataFrame :=
  let* (_, _, df) := generate_dataframe_locals num_rows in ret df.

(** [generate_data_batches] is a Python generator consumed by a [for]
    loop: [yield] is the loop body, which receives each batch as soon as
    it is built and may thread a state of its own. *)
Definition generate_data_batches_locals {S} (batch_size : option Z)
    (yield : S -> DataFrame -> M S) (s0 : S)
  : M (list uuid * gmap uuid Profile * S) :=
  let batch_size := default (cfg_batch_size cfg) batch_size in
  let total_rows := cfg_num_rows cfg in
  let* num_batches := floordiv (total_rows + batch_size - 1) batch_size in
  let* (device_ids, device_profiles) := device_population total_rows in
  let* s :=
    fold_each (range num_batches)
      (fun s batch_num =>
         let current_batch_size := Z.min batch_size (total_rows - batch_num * batch_size) in
         let* batch_data :=
           repeatM (Z.to_nat current_batch_size) (generate_record device_ids device_profiles) in
         yield s (pd_DataFrame batch_data))
      s0 in
  ret (device_ids, device_profiles, s).

Definition generate_data_batches {S} (batch_size : option Z)
    (yield : S -> DataFrame -> M S) (s0 : S) : M S :=
  let* (_, _, s) := generate_data_batches_locals batch_size yield s0 in ret s.

(** The batches a consumer receives when it drains the generator. *)
Definition collect_batches_locals (batch_size : option Z)
  : M (list uuid * gmap uuid Profile * list DataFrame) :=
  generate_data_batches_locals batch_size (fun acc df => ret (acc ++ [df])) [].

Definition collect_batches (batch_size : option Z) : M (list DataFrame) :=
  generate_data_batches batch_size (fun acc df => ret (acc ++ [df])) [].

(** *** [ClickHouseLoader] *)

(** One call on the client; results of queries are only logged by the
    loader and are not represented. *)
Definition client_call (c : Call) : M unit :=
  fun w =>
    let i := length (calls w) in
    if raises i c
    then (mkWorld (rng_pos w) (calls w ++ [(c, false)]) (errors_logged w), Raise (StoreError i))
    else (mkWorld (rng_pos w) (calls w ++ [(c, true)]) (errors_logged w), Ok tt).

(** A loader holds its connected client. *)
Record ClickHouseLoader := mkLoader { client : nat }.

Definition connect : M nat :=
  try_except
    (fun w =>
       (client_call NewClient;;
        client_call (Execute SelectVersion None);;
        ret (length (calls w))) w)
    (fun e => logger_error "connect";; raise e).

(** [ClickHouseLoader()] *)
Definition new_loader : M ClickHouseLoader :=
  let* c := connect in ret (mkLoader c).

Definition disconnect (self : ClickHouseLoader) : M unit :=
  client_call ClientDisconnect.

Definition database_or_default (database_name : option string) : string :=
  default (default "default"%string (cfg_database cfg)) database_name.

Definition create_database (self : ClickHouseLoader) (database_name : string) : M unit :=
  try_except
    (client_call (Execute (CreateDatabaseIfNotExists database_name) None))
    (fun e => logger_error "create_database";; raise e).

Definition show_table_structure (self : ClickHouseLoader) (table_name : string)
    (database_name : option string) : M unit :=
  let database_name := database_or_default database_name in
  try_except
    (client_call (Execute (DescribeTable database_name table_name) None))
    (fun e => logger_error "show_table_structure").

Definition create_table (self : ClickHouseLoader) (table_name : string)
    (database_name : option string) : M unit :=
  let database_name := database_or_default database_name in
  create_database self database_name;;
  try_except
    (client_call (Execute (CreateTableIfNotExists database_name table_name) None);;
     show_table_structure self table_name (Some database_name))
    (fun e => logger_error "create_table";; raise e).

Definition verify_data_count (self : ClickHouseLoader) (table_name : string)
    (database_name : option string) : M unit :=
  let database_name := database_or_default database_name in
  try_except
    (client_call (Execute (SelectCount database_name table_name) None);;
     client_call (Execute (SelectEventCounts database_name table_name) None))
    (fun e => logger_error "verify_data_count").

(** The bulk insert of one batch, in its [try] block. *)
Definition insert_batch (routine : string) (database_name table_name : string)
    (batch : list EventRecord) : M unit :=
  try_except
    (client_call (Execute (InsertInto database_name table_name) (Some (map to_row batch))))
    (fun e => logger_error routine;; raise e).

Definition load_data (self : ClickHouseLoader) (df : DataFrame) (table_name : string)
    (database_name : option string) (batch_size : Z) : M unit :=
  let database_name := database_or_default database_name in
  if df_empty df then ret tt
  else
    let data := df_records df in
    let total_rows := Z.of_nat (length data) in
    let* num_batches := floordiv (total_rows + batch_size - 1) batch_size in
    let* starts := range3 0 total_rows batch_size in
    for_each starts
      (fun i => insert_batch "load_data" database_name table_name (slice data i (i + batch_size)));;
    verify_data_count self table_name (Some database_name).

Definition load_data_batch (self : ClickHouseLoader) (df_batch : DataFrame)
    (table_name : string) (database_name : option string) : M unit :=
  let database_name := database_or_default database_name in
  if df_empty df_batch then ret tt
  else insert_batch "load_data_batch" database_name table_name (df_records df_batch).

Definition execute_query (self : ClickHouseLoader) (query : string) : M unit :=
  try_except
    (client_call (Execute (RawQuery query) None))
    (fun e => logger_error "execute_query";; raise e).

(** *** [main] *)

Inductive Mode := WholeDataset | Streamed.

(** [if args.rows <= 1000000: ... else: ...] *)
Definition select_mode (n : Z) : Mode :=
  if n <=? 1000000 then WholeDataset else Streamed.

Definition whole_dataset_mode (args : Args) (loader : ClickHouseLoader) : M unit :=
  let* df := generate_dataframe (Some (rows args)) in
  if negb (generate_only args) then
    create_table loader (table args) (Some (database args));;
    load_data loader df (table args) (Some (database args)) (batch_size args);;
    disconnect loader
  else ret tt.

(** The streamed branch; it returns the [total_rows] counter of its loop. *)
Definition streamed_mode (args : Args) (loader : ClickHouseLoader) : M Z :=
  let* loader :=
    if negb (generate_only args) then
      let* l := new_loader in
      create_table l (table args) (Some (database args));;
      ret l
    else ret loader in
  let* total_rows :=
    generate_data_batches (Some (batch_size args))
      (fun total_rows df_batch =>
         let total_rows := total_rows + df_len df_batch in
         load_data_batch loader df_batch (table args) (Some (database args));;
         ret total_rows)
      0 in
  verify_data_count loader (table args) (Some (database args));;
  disconnect loader;;
  ret total_rows.

(** The [try] block of [main]. *)
Definition main_body (args : Args) (loader : ClickHouseLoader) : M unit :=
  match select_mode (rows args) with
  | WholeDataset => whole_dataset_mode args loader
  | Streamed => streamed_mode args loader;; ret tt
  end.

(** [main]: the loader is built before the [try]; any exception inside
    it ends the process through [sys.exit(1)]. *)
Definition main (args : Args) : M unit :=
  let* loader := new_loader in
  try_except (main_body args loader) (fun e => raise (SystemExit 1)).

(** *** Vocabulary that depends on the configuration *)

Record well_formed : Prop := {
  wf_dates : cfg_start_date cfg <= cfg_end_date cfg;
  wf_cities : CITIES cfg <> [];
  wf_os : DEVICE_OS cfg <> [];
  wf_events : length (EVENTS cfg) = 3%nat
}.

(** Every configured date lies in the years 1000 to 9999: the dates
    whose ['%Y-%m-%d'] text is read back. *)
Definition four_digit_years : Prop :=
  days_before_year 1000 < cfg_start_date cfg /\
  cfg_end_date cfg <= days_before_year 10000.

(** Nothing stops the generation for [n] rows: the lists to choose from
    are not empty, every date is read back from its text, and [n]
    converts to a double. *)
Definition generable (n : Z) : Prop :=
  well_formed /\ four_digit_years /\ fits_double n = true.

(** The record belongs to a device of the population and its date lies
    between that device's creation date and the configured end date. *)
Definition within_device_bounds (device_profiles : gmap uuid Profile) (r : EventRecord) : Prop :=
  exists p, device_profiles !! device_id r = Some p /\
            created_date p <= date r /\ date r <= cfg_end_date cfg.

(** A profile whose creation date lies in the configured date range. *)
Definition created_in_range (p : Profile) : Prop :=
  cfg_start_date cfg <= created_date p <= cfg_end_date cfg.

(** Every device of the population has a profile, created in range. *)
Definition population_ok (device_ids : list uuid) (device_profiles : gmap uuid Profile) : Prop :=
  (forall id, id ∈ device_ids -> is_Some (device_profiles !! id)) /\
  map_Forall (fun _ p => cfg_start_date cfg <= created_date p <= cfg_end_date cfg) device_profiles.

(** The slices [data[i:i + B]] that [load_data] sends, in order. *)
Definition load_batches (data : list EventRecord) (B : Z) : list (list EventRecord) :=
  map (fun k => slice data (Z.of_nat k * B) (Z.of_nat k * B + B))
      (seq 0 (Z.to_nat ((Z.of_nat (length data) + B - 1) / B))).

Definition insert_call (database_name table_name : string) (batch : list EventRecord) : Call :=
  Execute (InsertInto database_name table_name) (Some (map to_row batch)).

(** Position, among the batches sent from call number [i] on, of the
    first one whose insert the store rejects. *)
Fixpoint first_failing (i : nat) (database_name table_name : string)
    (batches : list (list EventRecord)) : option nat :=
  match batches with
  | [] => None
  | b :: rest =>
      if raises i (insert_call database_name table_name b) then Some 0%nat
      else S <$> first_failing (S i) database_name table_name rest
  end.

(** The operations of a loader, as a caller may invoke them. *)
Inductive LoaderOp :=
| OpConnect
| OpDisconnect
| OpCreateDatabase (database_name : string)
| OpCreateTable (table_name : string) (database_name : option string)
| OpShowTableStructure (table_name : string) (database_name : option string)
| OpLoadData (df : DataFrame) (table_name : string) (database_name : option string) (B : Z)
| OpLoadDataBatch (df : DataFrame) (table_name : string) (database_name : option string)
| OpVerifyDataCount (table_name : string) (database_name : option string)
| OpExecuteQuery (query : string).

Definition run_op (self : ClickHouseLoader) (op : LoaderOp) : M unit :=
  match op with
  | OpConnect => connect;; ret tt
  | OpDisconnect => disconnect self
  | OpCreateDatabase db => create_database self db
  | OpCreateTable t db => create_table self t db
  | OpShowTableStructure t db => show_table_structure self t db
  | OpLoadData df t db B => load_data self df t db B
  | OpLoadDataBatch df t db => load_data_batch self df t db
  | OpVerifyDataCount t db => verify_data_count self t db
  | OpExecuteQuery q => execute_query self q
  end.

Definition is_reporting_op (op : LoaderOp) : bool :=
  match op with
  | OpShowTableStructure _ _ => true
  | OpVerifyDataCount _ _ => true
  | _ => false
  end.

(** A profile drawn from the configured cities, systems and dates. *)
Definition profile_ok (p : Profile) : Prop :=
  p_city p ∈ CITIES cfg /\ p_device_os p ∈ DEVICE_OS cfg /\ created_in_range p.

(** What the row loop guarantees of a record, given the population. *)
Definition well_generated (device_ids : list uuid) (device_profiles : gmap uuid Profile)
    (r : EventRecord) : Prop :=
  device_id r ∈ device_ids /\
  (exists p, device_profiles !! device_id r = Some p /\
             city r = p_city p /\ device_os r = p_device_os p /\
             created_date p <= date r) /\
  date r <= cfg_end_date cfg /\
  event r ∈ EVENTS cfg /\
  dt_date (event_time r) = date r /\
  0 <= dt_hour (event_time r) <= 23 /\
  0 <= dt_minute (event_time r) <= 59 /\
  0 <= dt_second (event_time r) <= 59.

(** [records] are the records of one finished run of either generation
    routine, with the device population it built. *)
Definition generation_run (w w' : World) (device_ids : list uuid)
    (device_profiles : gmap uuid Profile) (records : list EventRecord) : Prop :=
  (exists num_rows df,
      generate_dataframe_locals num_rows w = (w', Ok (device_ids, device_profiles, df)) /\
      records = df_records df) \/
  (exists B batches,
      collect_batches_locals B w = (w', Ok (device_ids, device_profiles, batches)) /\
      records = concat (map df_records batches)).

(** The statements [create_table] and [verify_data_count] send. *)
Definition create_database_call (db : string) : Call :=
  Execute (CreateDatabaseIfNotExists db) None.
Definition create_table_call (db tbl : string) : Call :=
  Execute (CreateTableIfNotExists db tbl) None.
Definition describe_call (db tbl : string) : Call :=
  Execute (DescribeTable db tbl) None.
Definition count_call (db tbl : string) : Call :=
  Execute (SelectCount db tbl) None.
Definition event_counts_call (db tbl : string) : Call :=
  Execute (SelectEventCounts db tbl) None.
Definition version_call : Call := Execute SelectVersion None.

(** * Properties *)

(** ** The calculus of outcomes *)

Lemma outcome_ret {A} E (Q : A -> Prop) a : Q a -> outcome E Q (ret a).
Proof. intros H w. exact H. Qed.

Lemma outcome_raise {A} (E : exn -> Prop) (Q : A -> Prop) e : E e -> outcome E Q (raise e).
Proof. intros H w. exact H. Qed.

Lemma outcome_bind {A B} E (P : A -> Prop) (Q : B -> Prop) (m : M A) (f : A -> M B) :
  outcome E P m -> (forall a, P a -> outcome E Q (f a)) -> outcome E Q (bind m f).
Proof.
  intros Hm Hf w. unfold bind. specialize (Hm w).
  destruct (m w) as [w' [a|e]]; simpl in *.
  - apply (Hf a Hm).
  - exact Hm.
Qed.

Lemma outcome_weaken {A} (E E' : exn -> Prop) (Q Q' : A -> Prop) m :
  outcome E Q m -> (forall e, E e -> E' e) -> (forall a, Q a -> Q' a) -> outcome E' Q' m.
Proof.
  intros H HE HQ w. specialize (H w). destruct (m w).2; auto.
Qed.

Lemma outcome_returns {A} (Q : A -> Prop) m w :
  outcome no_exn Q m -> exists w' a, m w = (w', Ok a) /\ Q a.
Proof.
  intros H. specialize (H w). destruct (m w) as [w' [a|e]]; simpl in H.
  - eauto.
  - destruct H.
Qed.

Lemma outcome_Ok {A} E (Q : A -> Prop) m w w' a :
  outcome E Q m -> m w = (w', Ok a) -> Q a.
Proof. intros H Hrun. specialize (H w). rewrite Hrun in H. exact H. Qed.

Lemma outcome_repeatM {A} E (P : A -> Prop) (m : M A) n :
  outcome E P m ->
  outcome E (fun l => length l = n /\ Forall P l) (repeatM n m).
Proof.
  intros Hm. induction n as [|n IH]; simpl.
  - apply outcome_ret. split; [reflexivity | constructor].
  - eapply outcome_bind; [exact Hm|]. intros x Hx.
    eapply outcome_bind; [exact IH|]. intros xs [Hlen Hall].
    apply outcome_ret. split; [simpl; congruence | constructor; assumption].
Qed.

(** A loop keeps an invariant indexed by the number of iterations done. *)
Lemma outcome_fold_each {A T} E (Inv : nat -> T -> Prop) (body : T -> A -> M T) xs :
  forall k s,
    (forall i x s, xs !! i = Some x -> Inv (k + i)%nat s ->
                   outcome E (Inv (S (k + i))) (body s x)) ->
    Inv k s ->
    outcome E (Inv (k + length xs)%nat) (fold_each xs body s).
Proof.
  induction xs as [|x xs IH]; intros k s Hbody Hs; simpl.
  - apply outcome_ret. rewrite Nat.add_0_r. exact Hs.
  - eapply outcome_bind.
    + specialize (Hbody 0%nat x s eq_refl). rewrite Nat.add_0_r in Hbody. exact (Hbody Hs).
    + intros s' Hs'. replace (k + S (length xs))%nat with (S k + length xs)%nat by lia.
      apply IH; [|exact Hs'].
      intros i y t Hi Ht. replace (S k + i)%nat with (k + S i)%nat in * by lia.
      apply (Hbody (S i) y t Hi Ht).
Qed.

(** ** Double-precision product with [0.1] *)

Lemma round_nearest_even_exact x :
  0 <= x < 2 ^ 53 -> round_nearest_even x = (x, 0).
Proof.
  intros [H0 H1]. unfold round_nearest_even.
  assert (Hs : Z.max 0 (Z.log2 x + 1 - 53) = 0).
  { destruct (Z.eq_dec x 0) as [->|Hx]; [reflexivity|].
    assert (Z.log2 x < 53) by (apply Z.log2_lt_pow2; lia). lia. }
  rewrite Hs. reflexivity.
Qed.

Lemma round_nearest_even_near x :
  2 ^ 53 <= x ->
  exists q s, round_nearest_even x = (q, s) /\ 0 < s /\ 2 ^ (s + 52) <= x /\
              x / 2 ^ s <= q <= x / 2 ^ s + 1.
Proof.
  intros Hx. unfold round_nearest_even.
  assert (H53 : 53 <= Z.log2 x) by (apply Z.log2_le_pow2; lia).
  assert (Hs : Z.max 0 (Z.log2 x + 1 - 53) = Z.log2 x - 52) by lia.
  rewrite Hs. set (s := Z.log2 x - 52).
  assert (Hspos : 0 < s) by (unfold s; lia).
  assert (Hlow : 2 ^ (s + 52) <= x).
  { unfold s. replace (Z.log2 x - 52 + 52) with (Z.log2 x) by lia.
    apply Z.log2_spec. lia. }
  rewrite Z.shiftr_div_pow2 by lia.
  destruct (s =? 0) eqn:E; [lia|].
  destruct ((Z.shiftl 1 (s - 1) <? x - Z.shiftl (x / 2 ^ s) s)
            || ((x - Z.shiftl (x / 2 ^ s) s =? Z.shiftl 1 (s - 1)) && Z.odd (x / 2 ^ s)));
    eexists _, _; (split; [reflexivity|]); repeat split; auto; lia.
Qed.

(** Below [2 ^ 52] the rounding of the product never reaches the next
    integer: [int(n * 0.1)] is [n // 10]. *)
Lemma tenth_truncates n :
  0 <= n < 2 ^ 52 ->
  py_int (float_mul (float_of_Z n) float_0_1) = n / 10.
Proof.
  intros [H0 H1].
  unfold float_of_Z.
  rewrite (Z.abs_eq n) by lia.
  rewrite (round_nearest_even_exact n) by lia.
  unfold float_mul, float_0_1; cbn [mant expo].
  set (m := 3602879701896397).
  destruct (Z.eq_dec n 0) as [->|Hn]; [reflexivity|].
  assert (Hsgn : Z.sgn n = 1) by (apply Z.sgn_pos; lia).
  rewrite Hsgn. rewrite !Z.mul_1_l.
  set (x := n * m).
  assert (Hx0 : 0 < x) by (unfold x, m; lia).
  rewrite (Z.sgn_pos x), (Z.abs_eq x) by lia.
  assert (H10 : 10 * x = n * (2 ^ 55 + 2)) by (unfold x, m; lia).
  assert (Hk : 10 * (n / 10) <= n < 10 * (n / 10) + 10).
  { pose proof (Z.mul_div_le n 10). pose proof (Z.mul_succ_div_gt n 10). lia. }
  set (k := n / 10) in *.
  assert (Hlo : k * 2 ^ 55 <= x) by lia.
  assert (Hhi : x + 2 ^ 51 < (k + 1) * 2 ^ 55) by lia.
  destruct (Z_lt_le_dec x (2 ^ 53)) as [Hsmall|Hbig].
  - rewrite round_nearest_even_exact by lia.
    unfold py_int; cbn [mant expo]. rewrite Z.mul_1_l.
    change (0 <=? 0 + 0 + -55) with false. cbn iota.
    change (- (0 + 0 + -55)) with 55.
    rewrite Z.quot_div_nonneg by lia.
    symmetry. apply Z.div_unique with (x - k * 2 ^ 55); lia.
  - destruct (round_nearest_even_near x Hbig) as (q & s & -> & Hs & Hsx & Hq).
    assert (Hs51 : s <= 51).
    { assert (Hlt : 2 ^ (s + 52) < 2 ^ 104) by (unfold x, m in *; lia).
      apply Z.pow_lt_mono_r_iff in Hlt; lia. }
    unfold py_int; cbn [mant expo]. rewrite Z.mul_1_l.
    replace (0 <=? s + 0 + -55) with false by (symmetry; apply Z.leb_gt; lia).
    replace (- (s + 0 + -55)) with (55 - s) by lia.
    assert (Hsplit : 2 ^ 55 = 2 ^ s * 2 ^ (55 - s)).
    { rewrite <- Z.pow_add_r by lia. f_equal. lia. }
    assert (Hp : 0 < 2 ^ s) by (apply Z.pow_pos_nonneg; lia).
    assert (Ht : 0 < 2 ^ (55 - s)) by (apply Z.pow_pos_nonneg; lia).
    assert (Hps : 2 ^ s <= 2 ^ 51) by (apply Z.pow_le_mono_r; lia).
    set (P := 2 ^ s) in *. set (T := 2 ^ (55 - s)) in *.
    assert (Hq0 : 0 <= q).
    { assert (0 <= x / P) by (apply Z.div_pos; lia). lia. }
    rewrite Z.quot_div_nonneg by lia.
    assert (HqP : P * (x / P) <= x < P * (x / P) + P).
    { pose proof (Z.mul_div_le x P Hp). pose proof (Z.mul_succ_div_gt x P Hp). lia. }
    assert (Hq1 : k * T <= q).
    { assert (k * T <= x / P); [|lia].
      apply Z.div_le_lower_bound; [lia|]. rewrite Hsplit in Hlo. lia. }
    assert (Hq2 : q < (k + 1) * T).
    { assert (P * q < P * ((k + 1) * T)); [|nia].
      rewrite Hsplit in Hhi. nia. }
    symmetry. apply Z.div_unique with (q - k * T); lia.
Qed.

Lemma unique_devices_floor n :
  0 <= n < 2 ^ 52 -> unique_devices n = Z.max 1000 (floor_tenth n).
Proof. intros H. unfold unique_devices, floor_tenth. now rewrite tenth_truncates. Qed.

Lemma unique_devices_ge n : 1000 <= unique_devices n.
Proof. unfold unique_devices. lia. Qed.

(** ** Integers that convert to a double *)

(** The value a magnitude from [2 ^ 53] on is rounded to. *)
Lemma round_nearest_even_value x :
  2 ^ 53 <= x ->
  let s := Z.log2 x - 52 in
  let q0 := x / 2 ^ s in
  let r := x mod 2 ^ s in
  0 < s /\ 2 ^ 52 <= q0 < 2 ^ 53 /\
  round_nearest_even x
  = (if (2 ^ (s - 1) <? r) || ((r =? 2 ^ (s - 1)) && Z.odd q0) then q0 + 1 else q0, s).
Proof.
  intros Hx s q0 r.
  assert (H53 : 53 <= Z.log2 x) by (apply Z.log2_le_pow2; lia).
  assert (Hs : 0 < s) by (unfold s; lia).
  assert (Hp : 0 < 2 ^ s) by (apply Z.pow_pos_nonneg; lia).
  destruct (Z.log2_spec x ltac:(lia)) as [Hlo Hhi].
  replace (Z.log2 x) with (s + 52) in Hlo by (unfold s; lia).
  replace (Z.succ (Z.log2 x)) with (s + 53) in Hhi by (unfold s; lia).
  rewrite Z.pow_add_r in Hlo, Hhi by lia.
  split; [exact Hs|]. split.
  - unfold q0. split.
    + apply Z.div_le_lower_bound; lia.
    + apply Z.div_lt_upper_bound; lia.
  - unfold round_nearest_even.
    replace (Z.max 0 (Z.log2 x + 1 - 53)) with s by (unfold s; lia).
    replace (s =? 0) with false by (symmetry; apply Z.eqb_neq; lia).
    rewrite Z.shiftr_div_pow2, Z.shiftl_mul_pow2, Z.shiftl_mul_pow2 by lia.
    fold q0. rewrite Z.mul_1_l.
    replace (x - q0 * 2 ^ s) with r.
    2:{ unfold r, q0. rewrite Z.mod_eq by lia. lia. }
    destruct ((2 ^ (s - 1) <? r) || ((r =? 2 ^ (s - 1)) && Z.odd q0)); reflexivity.
Qed.

(** [float(n)] exists exactly for the magnitudes below
    [2 ^ 1024 - 2 ^ 970]. *)
Lemma fits_double_iff n : fits_double n = true <-> Z.abs n < float_overflow_bound.
Proof.
  unfold fits_double, float_overflow_bound. set (x := Z.abs n).
  assert (Hx0 : 0 <= x) by apply Z.abs_nonneg. clearbody x. clear n.
  destruct (Z_lt_le_dec x (2 ^ 53)) as [Hsmall|Hbig].
  { rewrite round_nearest_even_exact by lia. rewrite Z.mul_1_r, Z.ltb_lt.
    assert (2 ^ 53 < 2 ^ 1024 - 2 ^ 970) by reflexivity.
    assert (2 ^ 53 < 2 ^ 1024) by reflexivity. lia. }
  destruct (round_nearest_even_value x Hbig) as (Hs & Hq0 & ->).
  set (s := Z.log2 x - 52) in *. set (q0 := x / 2 ^ s) in *. set (r := x mod 2 ^ s) in *.
  assert (Hp : 0 < 2 ^ s) by (apply Z.pow_pos_nonneg; lia).
  assert (Hr : 0 <= r < 2 ^ s) by (apply Z.mod_pos_bound; exact Hp).
  assert (Hx : x = q0 * 2 ^ s + r).
  { unfold q0, r. rewrite Z.mod_eq by lia. lia. }
  assert (Hhalf : 2 * 2 ^ (s - 1) = 2 ^ s).
  { rewrite <- Z.pow_succ_r by lia. f_equal. lia. }
  set (h := 2 ^ (s - 1)) in *.
  set (q := if (h <? r) || ((r =? h) && Z.odd q0) then q0 + 1 else q0).
  assert (Hq : q0 <= q <= q0 + 1) by (unfold q; destruct (_ || _); lia).
  rewrite Z.ltb_lt.
  destruct (Z_lt_le_dec s 971) as [Hlow|Hs971].
  - (* below 2 ^ 1023 *)
    assert (Hle : 2 ^ s <= 2 ^ 970) by (apply Z.pow_le_mono_r; lia).
    assert (H1 : q * 2 ^ s <= 2 ^ 53 * 2 ^ 970) by nia.
    assert (H2 : x < 2 ^ 53 * 2 ^ 970) by nia.
    assert (E1 : 2 ^ 53 * 2 ^ 970 < 2 ^ 1024 - 2 ^ 970) by reflexivity.
    assert (E2 : 2 ^ 53 * 2 ^ 970 < 2 ^ 1024) by reflexivity.
    lia.
  - destruct (Z_lt_le_dec 971 s) as [Hhigh|Hs971'].
    + (* from 2 ^ 1024 on *)
      assert (Hle : 2 ^ 972 <= 2 ^ s) by (apply Z.pow_le_mono_r; lia).
      assert (H1 : 2 ^ 52 * 2 ^ 972 <= q * 2 ^ s) by nia.
      assert (H2 : 2 ^ 52 * 2 ^ 972 <= x) by nia.
      assert (E1 : 2 ^ 52 * 2 ^ 972 = 2 ^ 1024) by reflexivity.
      assert (E2 : 0 < 2 ^ 970) by reflexivity.
      lia.
    + assert (Hs' : s = 971) by lia. clearbody s q0 r. subst s.
      assert (Hh : h = 2 ^ 970) by reflexivity. clearbody h.
      assert (E : 2 ^ 1024 = 2 ^ 53 * 2 ^ 971) by reflexivity.
      assert (E' : 2 ^ 971 = 2 * 2 ^ 970) by reflexivity.
      rewrite E, E'. rewrite E' in Hx, Hr. clear E E' Hp Hhalf.
      assert (Hpos : 0 < 2 ^ 970) by reflexivity.
      set (P := 2 ^ 970) in *. clearbody P.
      destruct (Z.eq_dec q0 (2 ^ 53 - 1)) as [Hmax|Hmax].
      * unfold q. subst q0. change (Z.odd (2 ^ 53 - 1)) with true.
        rewrite andb_true_r. subst h.
        destruct (P <? r) eqn:E1; [apply Z.ltb_lt in E1 | apply Z.ltb_ge in E1];
          simpl orb.
        -- split; intros; nia.
        -- destruct (r =? P) eqn:E2; [apply Z.eqb_eq in E2 | apply Z.eqb_neq in E2].
           ++ split; intros; nia.
           ++ split; intros; nia.
      * split; intros; nia.
Qed.

Lemma float_overflow_bound_large : 2 ^ 53 < float_overflow_bound.
Proof. reflexivity. Qed.

Lemma generable_below n :
  well_formed -> four_digit_years -> Z.abs n < float_overflow_bound -> generable n.
Proof.
  intros Hwf Hyears Hn. split; [exact Hwf|]. split; [exact Hyears|].
  now apply fits_double_iff.
Qed.

(** ** The random source *)

Section Outcomes.

Context (E : exn -> Prop).

Lemma outcome_draw (Q : N -> Prop) : (forall n, Q n) -> outcome E Q draw.
Proof. intros H w. apply H. Qed.

Lemma outcome_randint (Q : Z -> Prop) a b :
  a <= b \/ (forall e, E e) ->
  (forall x, a <= x <= b -> Q x) ->
  outcome E Q (random_randint a b).
Proof.
  intros Hpre HQ. unfold random_randint.
  destruct (b <? a) eqn:Hba.
  - apply outcome_raise. destruct Hpre as [Hab|HE]; [lia | apply HE].
  - eapply outcome_bind; [apply (outcome_draw (fun _ => True)); auto|].
    intros n _. apply outcome_ret. apply HQ.
    pose proof (Z.mod_pos_bound (Z.of_N n) (b - a + 1)). lia.
Qed.

Lemma outcome_choice {A} (Q : A -> Prop) (seq : list A) :
  seq <> [] \/ (forall e, E e) ->
  (forall x, x ∈ seq -> Q x) ->
  outcome E Q (random_choice seq).
Proof.
  intros Hpre HQ. unfold random_choice. destruct seq as [|x0 rest] eqn:Hseq.
  - apply outcome_raise. destruct Hpre as [Hne|HE]; [congruence | apply HE].
  - eapply outcome_bind; [apply (outcome_draw (fun _ => True)); auto|].
    intros n _. apply outcome_ret. apply HQ.
    apply list_elem_of_In, nth_In.
    pose proof (Z.mod_pos_bound (Z.of_N n) (Z.of_nat (length (x0 :: rest)))).
    simpl length in *. lia.
Qed.

Lemma outcome_uuid4 (Q : uuid -> Prop) : (forall u, Q u) -> outcome E Q uuid4.
Proof.
  intros H. unfold uuid4.
  eapply outcome_bind; [apply (outcome_draw (fun _ => True)); auto|].
  intros n _. apply outcome_ret, H.
Qed.

Lemma outcome_weighted_random_event (Q : string -> Prop) :
  length (EVENTS cfg) = 3%nat \/ (forall e, E e) ->
  (forall x, Q x) ->
  outcome E Q _weighted_random_event.
Proof.
  intros Hpre HQ. unfold _weighted_random_event. case_bool_decide as Hlen.
  - eapply outcome_bind; [apply (outcome_draw (fun _ => True)); auto|].
    intros n _. apply outcome_ret, HQ.
  - apply outcome_raise. destruct Hpre as [H3|HE]; [congruence | apply HE].
Qed.

Lemma outcome_strptime_ymd (Q : Z -> Prop) text :
  text <> Unreadable \/ (forall x, E x) ->
  (forall d, text = Reads d -> Q d) ->
  outcome E Q (strptime_ymd text).
Proof.
  intros Hpre HQ. destruct text as [d|]; simpl.
  - apply outcome_ret, HQ. reflexivity.
  - apply outcome_raise. destruct Hpre as [H|HE]; [congruence | apply HE].
Qed.

Lemma outcome_random_date (Q : Z -> Prop) s e :
  (exists ds de, s = Reads ds /\ e = Reads de /\ ds <= de) \/ (forall x, E x) ->
  (forall ds de d, s = Reads ds -> e = Reads de -> ds <= d <= de -> Q d) ->
  outcome E Q (_random_date s e).
Proof.
  intros Hpre HQ. unfold _random_date.
  eapply outcome_bind.
  { apply (outcome_strptime_ymd (fun d => s = Reads d)); [|auto].
    destruct Hpre as [(ds & de & -> & _)|HE]; [left; discriminate | right; exact HE]. }
  intros ds Hs. eapply outcome_bind.
  { apply (outcome_strptime_ymd (fun d => e = Reads d)); [|auto].
    destruct Hpre as [(? & de & _ & -> & _)|HE]; [left; discriminate | right; exact HE]. }
  intros de He. cbv beta in Hs, He. eapply outcome_bind.
  - apply (outcome_randint (fun x => 0 <= x <= de - ds)); [|auto].
    destruct Hpre as [(ds' & de' & Hs' & He' & Hle)|HE]; [left | right; exact HE].
    assert (ds' = ds) by congruence. assert (de' = de) by congruence. lia.
  - intros x Hx. cbv beta in Hx. apply outcome_ret, (HQ ds de); auto. lia.
Qed.

Lemma strftime_ymd_Reads c d : strftime_ymd c = Reads d -> d = c.
Proof. unfold strftime_ymd. destruct (c <=? _); congruence. Qed.

Lemma strftime_ymd_year_1000 c :
  days_before_year 1000 < c -> strftime_ymd c = Reads c.
Proof.
  intros H. unfold strftime_ymd.
  now replace (c <=? days_before_year 1000) with false by (symmetry; apply Z.leb_gt; exact H).
Qed.

Lemma outcome_random_datetime (Q : datetime -> Prop) d :
  (forall t, dt_date t = d -> 0 <= dt_hour t <= 23 -> 0 <= dt_minute t <= 59 ->
             0 <= dt_second t <= 59 -> Q t) ->
  outcome E Q (_random_datetime d).
Proof.
  intros HQ. unfold _random_datetime.
  eapply outcome_bind; [apply (outcome_randint (fun x => 0 <= x <= 23)); [left; lia | auto]|].
  intros h Hh.
  eapply outcome_bind; [apply (outcome_randint (fun x => 0 <= x <= 59)); [left; lia | auto]|].
  intros mi Hmi.
  eapply outcome_bind; [apply (outcome_randint (fun x => 0 <= x <= 59)); [left; lia | auto]|].
  intros se Hse. apply outcome_ret, HQ; simpl; auto.
Qed.

(** ** The device population *)

Lemma outcome_assign_profiles device_ids :
  well_formed \/ (forall e, E e) ->
  forall profiles0,
    outcome E
      (fun profiles =>
         dom profiles = dom profiles0 ∪ list_to_set device_ids /\
         (map_Forall (fun _ => created_in_range) profiles0 ->
          map_Forall (fun _ => created_in_range) profiles))
      (assign_profiles device_ids profiles0).
Proof.
  intros Hpre. induction device_ids as [|id rest IH]; intros profiles0; simpl.
  - apply outcome_ret. split; [now rewrite (right_id_L ∅ (∪)) | auto].
  - eapply outcome_bind.
    { apply (outcome_choice (fun _ => True)); [|auto].
      destruct Hpre as [Hwf|HE]; [left; apply Hwf | right; exact HE]. }
    intros c _. eapply outcome_bind.
    { apply (outcome_choice (fun _ => True)); [|auto].
      destruct Hpre as [Hwf|HE]; [left; apply Hwf | right; exact HE]. }
    intros os _. eapply outcome_bind.
    { apply (outcome_random_date (fun d => cfg_start_date cfg <= d <= cfg_end_date cfg)).
      - destruct Hpre as [Hwf|HE]; [left | right; exact HE].
        exists (cfg_start_date cfg), (cfg_end_date cfg).
        split; [reflexivity|]. split; [reflexivity | apply Hwf].
      - unfold config_start_date, config_end_date. intros ds de d [= <-] [= <-] Hd. exact Hd. }
    intros d Hd.
    eapply outcome_weaken; [apply IH | auto |].
    intros profiles [Hdom Hall]. split.
    + rewrite Hdom, dom_insert_L.
      now rewrite (comm_L (∪) {[id]}), <- (assoc_L (∪)).
    + intros H0. apply Hall. apply map_Forall_insert_2; [exact Hd | exact H0].
Qed.

Lemma outcome_int_mul_float (Q : float -> Prop) n f :
  fits_double n = true \/ (forall e, E e) ->
  Q (float_mul (float_of_Z n) f) ->
  outcome E Q (int_mul_float n f).
Proof.
  intros Hpre HQ. unfold int_mul_float. destruct (fits_double n).
  - apply outcome_ret, HQ.
  - apply outcome_raise. destruct Hpre as [H|HE]; [discriminate | apply HE].
Qed.

Lemma outcome_device_population n :
  (well_formed /\ fits_double n = true) \/ (forall e, E e) ->
  outcome E
    (fun '(device_ids, profiles) =>
       length device_ids = Z.to_nat (unique_devices n) /\
       dom profiles = list_to_set device_ids /\
       population_ok device_ids profiles)
    (device_population n).
Proof.
  intros Hpre. unfold device_population.
  eapply outcome_bind.
  { apply (outcome_int_mul_float (fun x => x = float_mul (float_of_Z n) float_0_1));
      [|reflexivity].
    destruct Hpre as [[_ Hfits]|HE]; [left; exact Hfits | right; exact HE]. }
  intros ? ->. fold (unique_devices n).
  eapply outcome_bind.
  { apply (outcome_repeatM E (fun _ => True)). apply outcome_uuid4. auto. }
  intros ids [Hlen _]. eapply outcome_bind.
  { apply (outcome_assign_profiles ids).
    destruct Hpre as [[Hwf _]|HE]; [left; exact Hwf | right; exact HE]. }
  intros profiles [Hdom Hall]. apply outcome_ret.
  rewrite dom_empty_L, (left_id_L ∅ (∪)) in Hdom.
  split; [exact Hlen|]. split; [exact Hdom|]. split.
  - intros id Hid. apply elem_of_dom. rewrite Hdom. now apply elem_of_list_to_set.
  - apply Hall, map_Forall_empty.
Qed.

(** ** One record *)

Lemma outcome_generate_record device_ids profiles :
  (device_ids <> [] /\ population_ok device_ids profiles /\ length (EVENTS cfg) = 3%nat /\
   days_before_year 1000 < cfg_start_date cfg)
  \/ (forall e, E e) ->
  outcome E
    (fun r => device_id r ∈ device_ids /\ within_device_bounds profiles r /\
              dt_date (event_time r) = date r)
    (generate_record device_ids profiles).
Proof.
  intros Hpre. unfold generate_record.
  eapply outcome_bind.
  { apply (outcome_choice (fun id => id ∈ device_ids)); [|auto].
    destruct Hpre as [[Hne _]|HE]; [left; exact Hne | right; exact HE]. }
  intros id Hid.
  destruct (profiles !! id) as [p|] eqn:Hp.
  - eapply outcome_bind; [apply (outcome_ret E (fun q => q = p)); reflexivity|].
    intros ? ->. eapply outcome_bind.
    { apply (outcome_random_date (fun d => created_date p <= d <= cfg_end_date cfg)).
      - destruct Hpre as [(_ & [_ Hall] & _ & Hyear)|HE]; [left | right; exact HE].
        pose proof (Hall id p Hp) as Hc. cbv beta in Hc.
        exists (created_date p), (cfg_end_date cfg).
        split; [apply strftime_ymd_year_1000; lia|]. split; [reflexivity | lia].
      - unfold config_end_date. intros ds de d Hs [= <-] Hd.
        apply strftime_ymd_Reads in Hs. subst ds. exact Hd. }
    intros d Hd. eapply outcome_bind.
    { apply (outcome_random_datetime (fun t => dt_date t = d)). auto. }
    intros t Ht. eapply outcome_bind.
    { apply (outcome_weighted_random_event (fun _ => True)); [|auto].
      destruct Hpre as [(_ & _ & H3 & _)|HE]; [left; exact H3 | right; exact HE]. }
    intros ev _. cbv beta in *. apply outcome_ret. simpl. split; [exact Hid|]. split; [|exact Ht].
    exists p. simpl. split; [exact Hp | lia].
  - apply (outcome_bind E (fun _ : Profile => False)); [|intros a []].
    apply outcome_raise.
    destruct Hpre as [(_ & [Hcov _] & _)|HE]; [|apply HE].
    destruct (Hcov id Hid) as [p Hp']. congruence.
Qed.

End Outcomes.

(** ** Sorting by event time *)

Lemma insert_by_time_length r l : length (insert_by_time r l) = S (length l).
Proof.
  induction l as [|x rest IH]; simpl; [reflexivity|].
  destruct (timestamp (event_time r) <=? timestamp (event_time x)); simpl; congruence.
Qed.

Lemma sort_by_time_length l : length (sort_by_time l) = length l.
Proof.
  induction l as [|x rest IH]; simpl; [reflexivity|].
  now rewrite insert_by_time_length, IH.
Qed.

Lemma insert_by_time_perm r l : insert_by_time r l ≡ₚ r :: l.
Proof.
  induction l as [|x rest IH]; simpl; [reflexivity|].
  destruct (timestamp (event_time r) <=? timestamp (event_time x)); [reflexivity|].
  rewrite IH. apply Permutation_swap.
Qed.

Lemma sort_by_time_perm l : sort_by_time l ≡ₚ l.
Proof.
  induction l as [|x rest IH]; simpl; [reflexivity|].
  now rewrite insert_by_time_perm, IH.
Qed.

Lemma insert_by_time_HdRel x r l :
  by_time x r -> HdRel by_time x l -> HdRel by_time x (insert_by_time r l).
Proof.
  intros Hxr Hl. destruct l as [|y rest]; simpl.
  - constructor. exact Hxr.
  - destruct (timestamp (event_time r) <=? timestamp (event_time y)).
    + constructor. exact Hxr.
    + constructor. inversion Hl; assumption.
Qed.

Lemma insert_by_time_sorted r l :
  Sorted by_time l -> Sorted by_time (insert_by_time r l).
Proof.
  induction 1 as [|x rest Hsorted IH Hhd]; simpl.
  - repeat constructor.
  - destruct (timestamp (event_time r) <=? timestamp (event_time x)) eqn:Hlt.
    + constructor; [constructor; assumption|].
      constructor. unfold by_time. lia.
    + constructor; [exact IH|].
      apply insert_by_time_HdRel; [unfold by_time; lia | exact Hhd].
Qed.

Lemma sort_by_time_sorted l : Sorted by_time (sort_by_time l).
Proof.
  induction l as [|x rest IH]; simpl; [constructor|].
  now apply insert_by_time_sorted.
Qed.

Lemma sort_by_time_Forall (P : EventRecord -> Prop) l :
  Forall P l -> Forall P (sort_by_time l).
Proof. intros H. now rewrite sort_by_time_perm. Qed.

(** ** Frames *)

Lemma df_len_pd_DataFrame data : df_len (pd_DataFrame data) = Z.of_nat (length data).
Proof. destruct data; reflexivity. Qed.

Lemma df_records_pd_DataFrame data : df_records (pd_DataFrame data) = data.
Proof. destruct data; reflexivity. Qed.

Lemma outcome_column E df label :
  has_column df label = true \/ (forall e : exn, E e) ->
  outcome E (fun _ => True) (column df label).
Proof.
  intros Hpre. unfold column. destruct (has_column df label) eqn:Hc.
  - now apply outcome_ret.
  - apply outcome_raise. destruct Hpre as [H|HE]; [discriminate | apply HE].
Qed.

(** ** Whole-dataset generation *)

Lemma outcome_generate_dataframe_locals E num_rows :
  let n := default (cfg_num_rows cfg) num_rows in
  (generable n /\ 1 <= n) \/ (forall e, E e) ->
  outcome E
    (fun '(device_ids, profiles, df) =>
       length device_ids = Z.to_nat (unique_devices n) /\
       dom profiles = list_to_set device_ids /\
       population_ok device_ids profiles /\
       length (df_records df) = Z.to_nat n /\
       Sorted by_time (df_records df) /\
       Forall (within_device_bounds profiles) (df_records df))
    (generate_dataframe_locals num_rows).
Proof.
  intros n Hpre. unfold generate_dataframe_locals. fold n.
  eapply outcome_bind.
  { apply (outcome_device_population E n).
    destruct Hpre as [[(Hwf & _ & Hfits) _]|HE]; [left; auto | right; exact HE]. }
  intros [ids profiles] (Hlen & Hdom & Hpop).
  eapply outcome_bind.
  { apply outcome_repeatM. apply (outcome_generate_record E ids profiles).
    destruct Hpre as [[(Hwf & Hyears & _) _]|HE]; [left | right; exact HE].
    split; [|split; [exact Hpop | split; [apply Hwf | apply Hyears]]].
    intros ->. pose proof (unique_devices_ge n). simpl in Hlen. lia. }
  intros data [Hdata Hall].
  destruct data as [|r data'] eqn:Hd.
  - (* no rows: the frame has no columns *)
    apply (outcome_bind E (fun _ : DataFrame => False)); [|intros a []].
    unfold sort_values_event_time, column. simpl.
    apply (outcome_bind E (fun _ : unit => False)); [|intros a []].
    apply outcome_raise.
    destruct Hpre as [[_ Hn]|HE]; [|apply HE]. simpl in Hdata. lia.
  - rewrite <- Hd in *. assert (Hdf : pd_DataFrame data = mkDataFrame event_columns data)
      by (rewrite Hd; reflexivity).
    rewrite Hdf. unfold sort_values_event_time.
    eapply outcome_bind.
    { eapply outcome_bind; [apply outcome_column; left; reflexivity|].
      intros _ _. apply (outcome_ret E (fun df => df = mkDataFrame event_columns (sort_by_time data))).
      reflexivity. }
    intros df ->.
    do 4 (eapply outcome_bind; [apply outcome_column; left; reflexivity | intros _ _]).
    apply outcome_ret. cbn [df_records].
    split; [exact Hlen|]. split; [exact Hdom|]. split; [exact Hpop|].
    split; [now rewrite sort_by_time_length|].
    split; [apply sort_by_time_sorted|].
    apply sort_by_time_Forall. eapply Forall_impl; [exact Hall|].
    intros x Hx. apply Hx.
Qed.

(** ** Streamed generation *)

Lemma range_lookup n i x : range n !! i = Some x -> x = Z.of_nat i /\ (i < Z.to_nat n)%nat.
Proof.
  unfold range. rewrite list_lookup_fmap. intros H.
  destruct (seq 0 (Z.to_nat n) !! i) as [j|] eqn:Hj; [|discriminate].
  apply lookup_seq in Hj as [-> Hlt]. simpl in H. split; [congruence | exact Hlt].
Qed.

Lemma range_length n : length (range n) = Z.to_nat n.
Proof. unfold range. now rewrite length_map, length_seq. Qed.

Lemma outcome_generate_data_batches_locals {T} E (B : option Z)
    (yield : T -> DataFrame -> M T) (s0 : T)
    (Inv : list uuid -> gmap uuid Profile -> nat -> T -> Prop) :
  let Bv := default (cfg_batch_size cfg) B in
  let n := cfg_num_rows cfg in
  (generable n /\ Bv <> 0) \/ (forall e, E e) ->
  (forall ids profiles, Inv ids profiles 0%nat s0) ->
  (forall ids profiles k s data,
      population_ok ids profiles ->
      Z.of_nat k < (n + Bv - 1) / Bv ->
      Inv ids profiles k s ->
      length data = Z.to_nat (Z.min Bv (n - Z.of_nat k * Bv)) ->
      Forall (within_device_bounds profiles) data ->
      outcome E (Inv ids profiles (S k)) (yield s (pd_DataFrame data))) ->
  outcome E
    (fun '(device_ids, profiles, s) =>
       length device_ids = Z.to_nat (unique_devices n) /\
       dom profiles = list_to_set device_ids /\
       population_ok device_ids profiles /\
       Inv device_ids profiles (Z.to_nat ((n + Bv - 1) / Bv)) s)
    (generate_data_batches_locals B yield s0).
Proof.
  intros Bv n Hpre H0 Hyield. unfold generate_data_batches_locals. fold Bv n.
  unfold floordiv. destruct (Bv =? 0) eqn:HB.
  { apply (outcome_bind E (fun _ : Z => False)); [|intros a []].
    apply outcome_raise. destruct Hpre as [[_ Hne]|HE]; [lia | apply HE]. }
  eapply outcome_bind; [apply (outcome_ret E (fun q => q = (n + Bv - 1) / Bv)); reflexivity|].
  intros ? ->.
  eapply outcome_bind.
  { apply (outcome_device_population E n).
    destruct Hpre as [[(Hwf & _ & Hfits) _]|HE]; [left; auto | right; exact HE]. }
  intros [ids profiles] (Hlen & Hdom & Hpop).
  eapply outcome_bind.
  { pose proof (outcome_fold_each E (Inv ids profiles)
      (fun s batch_num =>
         let* batch_data :=
           repeatM (Z.to_nat (Z.min Bv (n - batch_num * Bv))) (generate_record ids profiles) in
         yield s (pd_DataFrame batch_data))
      (range ((n + Bv - 1) / Bv)) 0%nat s0) as Hloop.
    simpl in Hloop. apply Hloop; [|apply H0].
    intros i x s Hi Hs. apply range_lookup in Hi as [-> Hi].
    eapply outcome_bind.
    { apply outcome_repeatM. apply (outcome_generate_record E ids profiles).
      destruct Hpre as [[(Hwf & Hyears & _) _]|HE]; [left | right; exact HE].
      split; [|split; [exact Hpop | split; [apply Hwf | apply Hyears]]].
      intros ->. pose proof (unique_devices_ge n). simpl in Hlen. lia. }
    intros data [Hdata Hall]. apply Hyield; auto; [lia|].
    eapply Forall_impl; [exact Hall|]. intros r Hr. apply Hr. }
  intros s Hs. apply outcome_ret. rewrite range_length in Hs. auto.
Qed.

(** ** Batch arithmetic *)

Lemma ceil_div_eq n b : 0 < b -> (n + b - 1) / b = ceil_div n b.
Proof.
  intros Hb. unfold ceil_div.
  pose proof (Z.mul_div_le (n + b - 1) b Hb) as Hlo.
  pose proof (Z.mul_succ_div_gt (n + b - 1) b Hb) as Hhi.
  set (q := (n + b - 1) / b) in *.
  assert (Hq : - q = (- n) / b); [|lia].
  apply Z.div_unique with (b * q - n); lia.
Qed.

Lemma map_seq_const {A} (f : nat -> A) c s len :
  (forall k, (s <= k < s + len)%nat -> f k = c) ->
  map f (seq s len) = replicate len c.
Proof.
  revert s. induction len as [|len IH]; intros s Hf; simpl; [reflexivity|].
  rewrite Hf by lia. f_equal. apply IH. intros k Hk. apply Hf. lia.
Qed.

Lemma batch_lengths n B :
  0 <= n -> 1 <= B ->
  map (fun k => Z.min B (n - Z.of_nat k * B)) (seq 0 (Z.to_nat ((n + B - 1) / B)))
  = batch_sizes n B.
Proof.
  intros Hn HB. unfold batch_sizes.
  pose proof (Z.div_mod n B ltac:(lia)) as Hdm.
  pose proof (Z.mod_pos_bound n B ltac:(lia)) as Hr.
  assert (Ha : 0 <= n / B) by (apply Z.div_pos; lia).
  set (a := n / B) in *. set (r := n mod B) in *.
  assert (Hnb : (n + B - 1) / B = a + (if r =? 0 then 0 else 1)).
  { symmetry. destruct (r =? 0) eqn:Hr0.
    - apply Z.div_unique with (B - 1); lia.
    - apply Z.div_unique with (r - 1); lia. }
  rewrite Hnb.
  replace (Z.to_nat (a + (if r =? 0 then 0 else 1)))
    with (Z.to_nat a + (if Z.eqb r 0 then 0 else 1))%nat by (destruct (r =? 0); lia).
  rewrite seq_app, map_app. f_equal.
  - apply map_seq_const. intros k Hk. nia.
  - destruct (r =? 0) eqn:Hr0; simpl; [reflexivity|].
    f_equal. rewrite Z2Nat.id by lia. lia.
Qed.

Lemma sum_list_app l1 l2 : sum_list (l1 ++ l2) = sum_list l1 + sum_list l2.
Proof. unfold sum_list. induction l1 as [|x l1 IH]; simpl; lia. Qed.

Lemma sum_list_replicate k x : sum_list (replicate k x) = Z.of_nat k * x.
Proof. unfold sum_list. induction k as [|k IH]; simpl; lia. Qed.

Lemma batch_sizes_sum n B : 0 <= n -> 1 <= B -> sum_list (batch_sizes n B) = n.
Proof.
  intros Hn HB. unfold batch_sizes.
  pose proof (Z.div_mod n B ltac:(lia)) as Hdm.
  assert (Ha : 0 <= n / B) by (apply Z.div_pos; lia).
  rewrite sum_list_app, sum_list_replicate, Z2Nat.id by lia.
  destruct (n mod B =? 0) eqn:Hr0; unfold sum_list; simpl; lia.
Qed.

Lemma batch_sizes_length n B :
  0 <= n -> 1 <= B -> Z.of_nat (length (batch_sizes n B)) = ceil_div n B.
Proof.
  intros Hn HB. rewrite <- batch_lengths, length_map, length_seq by lia.
  rewrite <- ceil_div_eq by lia.
  assert (0 <= (n + B - 1) / B) by (apply Z.div_pos; lia). lia.
Qed.

Lemma batch_sizes_lookup n B i x :
  0 <= n -> 1 <= B ->
  batch_sizes n B !! i = Some x ->
  x = Z.min B (n - Z.of_nat i * B) /\ Z.of_nat i * B < n.
Proof.
  intros Hn HB. rewrite <- batch_lengths by lia.
  rewrite list_lookup_fmap. intros H.
  destruct (seq 0 (Z.to_nat ((n + B - 1) / B)) !! i) as [j|] eqn:Hj; [|discriminate].
  apply lookup_seq in Hj as [-> Hlt]. simpl in H. injection H as <-.
  split; [reflexivity|].
  pose proof (Z.mul_succ_div_gt (n + B - 1) B ltac:(lia)).
  pose proof (Z.mul_div_le (n + B - 1) B ltac:(lia)). nia.
Qed.

Lemma batch_sizes_full n B i x :
  0 <= n -> 1 <= B ->
  batch_sizes n B !! i = Some x -> (S i < length (batch_sizes n B))%nat -> x = B.
Proof.
  intros Hn HB Hi Hlt.
  destruct (batch_sizes_lookup n B i x Hn HB Hi) as [-> _].
  pose proof (batch_sizes_length n B Hn HB) as Hlen.
  rewrite <- ceil_div_eq in Hlen by lia.
  pose proof (Z.mul_succ_div_gt (n + B - 1) B ltac:(lia)).
  pose proof (Z.mul_div_le (n + B - 1) B ltac:(lia)). nia.
Qed.

Lemma batch_sizes_last n B x :
  0 <= n -> 1 <= B ->
  last (batch_sizes n B) = Some x -> x = if n mod B =? 0 then B else n mod B.
Proof.
  intros Hn HB. unfold batch_sizes.
  destruct (n mod B =? 0) eqn:Hr0.
  - rewrite app_nil_r, last_lookup, length_replicate. intros H.
    apply lookup_replicate in H. apply H.
  - rewrite last_snoc. congruence.
Qed.

Lemma batch_sizes_bounds n B :
  0 <= n -> 1 <= B -> Forall (fun x => 1 <= x <= B) (batch_sizes n B).
Proof.
  intros Hn HB. apply Forall_lookup. intros i x Hi.
  destruct (batch_sizes_lookup n B i x Hn HB Hi) as [-> Hlt]. lia.
Qed.

(** ** Draining the generator *)

Lemma outcome_collect_batches_locals E (B : option Z) :
  let Bv := default (cfg_batch_size cfg) B in
  let n := cfg_num_rows cfg in
  (generable n /\ Bv <> 0) \/ (forall e, E e) ->
  outcome E
    (fun '(device_ids, profiles, batches) =>
       length device_ids = Z.to_nat (unique_devices n) /\
       dom profiles = list_to_set device_ids /\
       population_ok device_ids profiles /\
       map df_len batches
       = map (fun k => Z.of_nat (Z.to_nat (Z.min Bv (n - Z.of_nat k * Bv))))
             (seq 0 (Z.to_nat ((n + Bv - 1) / Bv))) /\
       Forall (fun df => Forall (within_device_bounds profiles) (df_records df)) batches)
    (collect_batches_locals B).
Proof.
  intros Bv n Hpre. unfold collect_batches_locals.
  pose proof (outcome_generate_data_batches_locals E B
    (fun acc df => ret (acc ++ [df])) []
    (fun _ profiles k acc =>
       map df_len acc
       = map (fun k => Z.of_nat (Z.to_nat (Z.min Bv (n - Z.of_nat k * Bv)))) (seq 0 k) /\
       Forall (fun df => Forall (within_device_bounds profiles) (df_records df)) acc)) as Hgen.
  cbv zeta in Hgen. fold Bv n in Hgen.
  eapply outcome_weaken; [apply Hgen; clear Hgen | auto |].
  - exact Hpre.
  - intros ? ?. split; [reflexivity | constructor].
  - intros ids profiles k acc data _ _ [Hsizes Hall] Hlen Hdata.
    apply outcome_ret. split.
    + rewrite map_app, seq_S, map_app, Hsizes. simpl.
      now rewrite df_len_pd_DataFrame, Hlen.
    + apply Forall_app. split; [exact Hall|].
      constructor; [|constructor]. now rewrite df_records_pd_DataFrame.
  - intros [[ids profiles] batches] (H1 & H2 & H3 & H4 & H5). auto.
Qed.

Lemma collect_batches_sizes B :
  generable (cfg_num_rows cfg) -> 0 <= cfg_num_rows cfg -> 1 <= B ->
  outcome no_exn
    (fun '(device_ids, profiles, batches) =>
       length device_ids = Z.to_nat (unique_devices (cfg_num_rows cfg)) /\
       dom profiles = list_to_set device_ids /\
       map df_len batches = batch_sizes (cfg_num_rows cfg) B)
    (collect_batches_locals (Some B)).
Proof.
  intros Hwf Hn HB.
  eapply outcome_weaken;
    [apply (outcome_collect_batches_locals no_exn (Some B)); left; simpl; split; [exact Hwf | lia]
    | auto |].
  intros [[ids profiles] batches] (H1 & H2 & _ & H4 & _). simpl in H4.
  split; [exact H1|]. split; [exact H2|].
  rewrite H4, <- batch_lengths by lia.
  apply map_ext_in. intros k Hk. apply in_seq in Hk.
  pose proof (Z.mul_succ_div_gt (cfg_num_rows cfg + B - 1) B ltac:(lia)).
  pose proof (Z.mul_div_le (cfg_num_rows cfg + B - 1) B ltac:(lia)).
  rewrite Z2Nat.id; [reflexivity | nia].
Qed.

Lemma collect_batches_of_locals B w w' ids profiles batches :
  collect_batches_locals B w = (w', Ok (ids, profiles, batches)) ->
  collect_batches B w = (w', Ok batches).
Proof.
  intros H. unfold collect_batches, generate_data_batches, bind.
  unfold collect_batches_locals in H. now rewrite H.
Qed.

Lemma population_size (ids : list uuid) (profiles : gmap uuid Profile) :
  dom profiles = list_to_set ids -> NoDup ids -> size profiles = length ids.
Proof.
  intros Hdom Hnodup. rewrite <- size_dom, Hdom. now apply size_list_to_set.
Qed.

(** ** Claims on generation *)

(** C3 (as amended): for a target row count [1 <= n < 2 ^ 52] the number
    of devices generated is [max(1000, floor(0.10 * n))], in the
    whole-dataset path and, when [n] is the configured [num_rows], in the
    streamed path; the devices are that many distinct ones whenever the
    identifiers drawn are pairwise distinct.  The configuration is well
    formed and its dates lie in the years 1000 to 9999. *)
Theorem device_count_is_truncated_tenth (n : Z) :
  well_formed -> four_digit_years -> 1 <= n < 2 ^ 52 ->
  (forall w, exists w' ids profiles df,
      generate_dataframe_locals (Some n) w = (w', Ok (ids, profiles, df)) /\
      Z.of_nat (length ids) = Z.max 1000 (floor_tenth n) /\
      (NoDup ids -> size profiles = length ids)) /\
  (cfg_num_rows cfg = n ->
   forall B w, 1 <= B -> exists w' ids profiles batches,
      collect_batches_locals (Some B) w = (w', Ok (ids, profiles, batches)) /\
      Z.of_nat (length ids) = Z.max 1000 (floor_tenth n) /\
      (NoDup ids -> size profiles = length ids)).
Proof.
  intros Hwf Hyears Hn.
  pose proof float_overflow_bound_large as Hbound.
  assert (Hgen : generable n) by (apply generable_below; auto; lia).
  split.
  - intros w.
    destruct (outcome_returns _ _ w
      (outcome_generate_dataframe_locals no_exn (Some n) (or_introl (conj Hgen (proj1 Hn)))))
      as (w' & [[ids profiles] df] & Hrun & Hlen & Hdom & _).
    exists w', ids, profiles, df. split; [exact Hrun|]. split.
    + simpl in Hlen. rewrite Hlen, unique_devices_floor by lia. lia.
    + now apply population_size.
  - intros Hcfg B w HB. rewrite <- Hcfg in Hgen.
    destruct (outcome_returns _ _ w (collect_batches_sizes B Hgen ltac:(lia) HB))
      as (w' & [[ids profiles] batches] & Hrun & Hlen & Hdom & _).
    exists w', ids, profiles, batches. split; [exact Hrun|]. split.
    + rewrite Hlen, Hcfg, unique_devices_floor by lia. lia.
    + now apply population_size.
Qed.

(** C4 (as amended): with [1 <= n < 2 ^ 1024 - 2 ^ 970] rows configured
    and a batch size [B >= 1], the streamed generator yields
    [ceil(n / B)] batches; all but the last hold [B] records, the last
    holds [n mod B] (or [B] when [B] divides [n]), and the batches hold
    [n] records in all.  The configuration is well formed and its dates
    lie in the years 1000 to 9999. *)
Theorem streamed_batch_sizes (B : Z) :
  well_formed -> four_digit_years ->
  1 <= cfg_num_rows cfg < float_overflow_bound -> 1 <= B ->
  forall w, exists w' batches,
    collect_batches (Some B) w = (w', Ok batches) /\
    map df_len batches = batch_sizes (cfg_num_rows cfg) B /\
    Z.of_nat (length batches) = ceil_div (cfg_num_rows cfg) B /\
    (forall i df, batches !! i = Some df -> (S i < length batches)%nat -> df_len df = B) /\
    (forall df, last batches = Some df ->
                df_len df = if cfg_num_rows cfg mod B =? 0 then B else cfg_num_rows cfg mod B) /\
    sum_list (map df_len batches) = cfg_num_rows cfg.
Proof.
  intros Hwf Hyears Hn HB w.
  assert (Hgen : generable (cfg_num_rows cfg)) by (apply generable_below; auto; lia).
  destruct (outcome_returns _ _ w (collect_batches_sizes B Hgen ltac:(lia) HB))
    as (w' & [[ids profiles] batches] & Hrun & _ & _ & Hsizes).
  exists w', batches. split; [eapply collect_batches_of_locals; exact Hrun|].
  split; [exact Hsizes|]. repeat split.
  - rewrite <- (length_map df_len), Hsizes. apply batch_sizes_length; lia.
  - intros i df Hi Hlt.
    apply (batch_sizes_full (cfg_num_rows cfg) B i); [lia | lia | |].
    + rewrite <- Hsizes, list_lookup_fmap, Hi. reflexivity.
    + now rewrite <- Hsizes, length_map.
  - intros df Hlast. apply batch_sizes_last; [lia | lia |].
    rewrite <- Hsizes, fmap_last, Hlast. reflexivity.
  - rewrite Hsizes. apply batch_sizes_sum; lia.
Qed.

(** C5: in both generation modes, every record generated carries a date
    between the creation date of its device and the configured end date. *)
Theorem event_dates_within_device_bounds w w' ids profiles (records : list EventRecord) :
  (exists num_rows df,
      generate_dataframe_locals num_rows w = (w', Ok (ids, profiles, df)) /\
      records = df_records df) \/
  (exists B batches,
      collect_batches_locals B w = (w', Ok (ids, profiles, batches)) /\
      records = concat (map df_records batches)) ->
  Forall (within_device_bounds profiles) records.
Proof.
  intros [(num_rows & df & Hrun & ->)|(B & batches & Hrun & ->)].
  - pose proof (outcome_Ok _ _ _ _ _ _
      (outcome_generate_dataframe_locals any_exn num_rows (or_intror (fun _ => I))) Hrun) as H.
    simpl in H. apply H.
  - pose proof (outcome_Ok _ _ _ _ _ _
      (outcome_collect_batches_locals any_exn B (or_intror (fun _ => I))) Hrun) as H.
    simpl in H. destruct H as (_ & _ & _ & _ & Hall).
    apply Forall_concat, Forall_fmap. exact Hall.
Qed.

(** From one row on, [generate_dataframe] returns exactly [n] records, in
    non-decreasing order of event time. *)
Lemma generate_dataframe_sorted (n : Z) :
  generable n -> 1 <= n ->
  forall w, exists w' df,
    generate_dataframe (Some n) w = (w', Ok df) /\
    Z.of_nat (length (df_records df)) = n /\
    Sorted by_time (df_records df).
Proof.
  intros Hwf Hn w.
  destruct (outcome_returns _ _ w
    (outcome_generate_dataframe_locals no_exn (Some n) (or_introl (conj Hwf Hn))))
    as (w' & [[ids profiles] df] & Hrun & _ & _ & _ & Hlen & Hsorted & _).
  exists w', df. unfold generate_dataframe, bind. rewrite Hrun.
  split; [reflexivity|]. split; [simpl in Hlen; lia | exact Hsorted].
Qed.

Lemma well_formed_dec : well_formed \/ ~ well_formed.
Proof.
  destruct (Z_le_dec (cfg_start_date cfg) (cfg_end_date cfg)) as [Hd|Hd];
    [|right; intros [H _ _ _]; contradiction].
  destruct (CITIES cfg) as [|c cs] eqn:Hc; [right; intros [_ H _ _]; contradiction|].
  destruct (DEVICE_OS cfg) as [|o os] eqn:Ho; [right; intros [_ _ H _]; contradiction|].
  destruct (Nat.eq_dec (length (EVENTS cfg)) 3) as [He|He];
    [|right; intros [_ _ _ H]; contradiction].
  left. split; [exact Hd | rewrite Hc; discriminate | rewrite Ho; discriminate | exact He].
Qed.

(** C6 at [n = 0]: the row list is empty, the frame built from it has no
    column, and sorting it by [event_time] raises [KeyError] (an
    ill-formed configuration raises even earlier); no frame of zero
    records is returned. *)
Theorem generate_dataframe_zero_rows_raises :
  forall w, exists w' e,
    generate_dataframe (Some 0) w = (w', Raise e) /\ (e = KeyError \/ ~ well_formed).
Proof.
  intros w.
  set (E := fun e : exn => e = KeyError \/ ~ well_formed).
  assert (H : outcome E (fun _ : DataFrame => False) (generate_dataframe (Some 0))).
  { unfold generate_dataframe, generate_dataframe_locals. simpl.
    apply (outcome_bind E (fun _ => False)); [|intros a []].
    eapply outcome_bind.
    { apply (outcome_device_population E 0).
      destruct well_formed_dec as [Hwf|Hwf];
        [left; split; [exact Hwf | reflexivity] | right; intros e; right; exact Hwf]. }
    intros [ids profiles] _. simpl.
    eapply outcome_bind;
      [apply (outcome_ret E (fun d : list EventRecord => d = [])); reflexivity|].
    intros ? ->. simpl.
    apply (outcome_bind E (fun _ => False)); [|intros a []].
    intros w0. left. reflexivity. }
  specialize (H w). destruct (generate_dataframe (Some 0) w) as [w' [df|e]]; simpl in H.
  - destruct H.
  - eauto.
Qed.

(** ** Slicing a collection into batches *)

Lemma concat_chunks {A} (b : nat) c : forall data : list A,
  (length data <= c * b)%nat ->
  concat (map (fun k => take b (drop (k * b) data)) (seq 0 c)) = data.
Proof.
  induction c as [|c IH]; intros data Hlen; simpl.
  - destruct data; [reflexivity | simpl in Hlen; lia].
  - rewrite <- seq_shift, map_map.
    rewrite (map_ext _ (fun k => take b (drop (k * b) (drop b data)))).
    + rewrite IH by (rewrite length_drop; lia). apply take_drop.
    + intros k. rewrite drop_drop. reflexivity.
Qed.

Lemma slice_chunk {A} (data : list A) (k : nat) (B : Z) :
  0 <= B ->
  slice data (Z.of_nat k * B) (Z.of_nat k * B + B)
  = take (Z.to_nat B) (drop (k * Z.to_nat B) data).
Proof.
  intros HB. unfold slice. f_equal; [f_equal; lia | f_equal; nia].
Qed.

Lemma load_batches_partition data B :
  1 <= B ->
  concat (load_batches data B) = data /\
  Forall (fun b => (1 <= length b)%nat /\ Z.of_nat (length b) <= B) (load_batches data B).
Proof.
  intros HB. unfold load_batches.
  set (len := Z.of_nat (length data)).
  pose proof (Z.mul_succ_div_gt (len + B - 1) B ltac:(lia)) as Hhi.
  pose proof (Z.mul_div_le (len + B - 1) B ltac:(lia)) as Hlo.
  assert (Hc : 0 <= (len + B - 1) / B) by (apply Z.div_pos; lia).
  split.
  - rewrite (map_ext _ (fun k => take (Z.to_nat B) (drop (k * Z.to_nat B) data)))
      by (intros k; apply slice_chunk; lia).
    apply concat_chunks. unfold len in *. nia.
  - apply Forall_forall. intros b Hb. apply list_elem_of_In, in_map_iff in Hb.
    destruct Hb as (k & <- & Hk). apply in_seq in Hk.
    rewrite slice_chunk by lia. rewrite length_take, length_drop.
    unfold len in *. nia.
Qed.

(** ** The store client *)

Lemma world_eta w : mkWorld (rng_pos w) (calls w) (errors_logged w) = w.
Proof. destruct w; reflexivity. Qed.

Lemma first_failing_spec i db tbl batches k :
  first_failing i db tbl batches = Some k <->
  (k < length batches)%nat /\
  raises (i + k) (insert_call db tbl (nth k batches [])) = true /\
  (forall j, (j < k)%nat -> raises (i + j) (insert_call db tbl (nth j batches [])) = false).
Proof.
  revert i k. induction batches as [|b rest IH]; intros i k; simpl.
  - split; [discriminate | intros [H _]; lia].
  - destruct (raises i (insert_call db tbl b)) eqn:Hb.
    + split.
      * intros [= <-]. rewrite Nat.add_0_r. repeat split; [lia | exact Hb | intros; lia].
      * intros (_ & _ & Hall). destruct k as [|k]; [reflexivity|].
        specialize (Hall 0%nat ltac:(lia)). rewrite Nat.add_0_r in Hall. simpl in Hall. congruence.
    + destruct (first_failing (S i) db tbl rest) as [k'|] eqn:Hrest; simpl.
      * apply IH in Hrest as (Hlt & Hk' & Hall). split.
        -- intros [= <-]. replace (i + S k')%nat with (S i + k')%nat by lia.
           repeat split; [lia | exact Hk' |].
           intros [|j] Hj; [now rewrite Nat.add_0_r|].
           replace (i + S j)%nat with (S i + j)%nat by lia. apply Hall. lia.
        -- intros (Hk & Hkr & Hkall). destruct k as [|k].
           { rewrite Nat.add_0_r in Hkr. simpl in Hkr. congruence. }
           assert (Heq : k = k'); [|now rewrite Heq].
           destruct (Nat.lt_trichotomy k k') as [Hc|[Hc|Hc]]; [exfalso|exact Hc|exfalso].
           ++ specialize (Hall k Hc). replace (S i + k)%nat with (i + S k)%nat in Hall by lia.
              cbn [nth] in Hkr. congruence.
           ++ specialize (Hkall (S k') ltac:(lia)).
              replace (S i + k')%nat with (i + S k')%nat in Hk' by lia.
              cbn [nth] in Hkall. congruence.
      * split; [discriminate|]. intros (Hk & Hkr & Hkall). destruct k as [|k].
        { rewrite Nat.add_0_r in Hkr. simpl in Hkr. congruence. }
        assert (Hsome : first_failing (S i) db tbl rest = Some k); [|congruence].
        apply IH. simpl in Hk. repeat split; [lia | |].
        -- replace (S i + k)%nat with (i + S k)%nat by lia. exact Hkr.
        -- intros j Hj. replace (S i + j)%nat with (i + S j)%nat by lia.
           apply (Hkall (S j)). lia.
Qed.

Lemma for_each_ext {A} (f g : A -> M unit) xs w :
  (forall x w', f x w' = g x w') -> for_each xs f w = for_each xs g w.
Proof.
  intros Hfg. revert w. induction xs as [|x xs IH]; intros w; simpl; [reflexivity|].
  unfold bind. rewrite Hfg. destruct (g x w) as [w' [[]|e]]; [apply IH | reflexivity].
Qed.

Lemma for_each_map {A B} (f : A -> B) (body : B -> M unit) xs :
  for_each (map f xs) body = for_each xs (fun x => body (f x)).
Proof. induction xs as [|x xs IH]; simpl; [reflexivity | now rewrite IH]. Qed.

(** The insert loop of [load_data]: batches go out in order, each in one
    call, until the first rejected one; that failure is logged and
    raised, and nothing is sent after it. *)
Lemma insert_loop db tbl batches : forall w,
  for_each batches (insert_batch "load_data" db tbl) w =
  match first_failing (length (calls w)) db tbl batches with
  | None =>
      (mkWorld (rng_pos w)
               (calls w ++ map (fun b => (insert_call db tbl b, true)) batches)
               (errors_logged w),
       Ok tt)
  | Some k =>
      (mkWorld (rng_pos w)
               (calls w ++ map (fun b => (insert_call db tbl b, true)) (take k batches)
                        ++ [(insert_call db tbl (nth k batches []), false)])
               (errors_logged w ++ ["load_data"%string]),
       Raise (StoreError (length (calls w) + k)))
  end.
Proof.
  induction batches as [|b rest IH]; intros w; simpl.
  - unfold ret. now rewrite app_nil_r, world_eta.
  - unfold bind at 1. unfold insert_batch at 1. unfold try_except, client_call.
    fold (insert_call db tbl b).
    destruct (raises (length (calls w)) (insert_call db tbl b)) eqn:Hb; simpl.
    + now rewrite Nat.add_0_r.
    + rewrite IH. simpl. rewrite length_app. simpl.
      replace (length (calls w) + 1)%nat with (S (length (calls w))) by lia.
      destruct (first_failing (S (length (calls w))) db tbl rest) as [k|]; simpl.
      * rewrite <- !app_assoc. simpl. do 2 f_equal. f_equal. lia.
      * now rewrite <- app_assoc.
Qed.

Lemma verify_data_count_spec self tbl dbopt w :
  exists tail errs,
    verify_data_count self tbl dbopt w
    = (mkWorld (rng_pos w) (calls w ++ tail) (errors_logged w ++ errs), Ok tt) /\
    Forall (fun c => reporting_query c.1 = true) tail /\
    (Forall (fun c => c.2 = true) tail /\ errs = [] \/
     Exists (fun c => c.2 = false) tail /\ errs = ["verify_data_count"%string]).
Proof.
  unfold verify_data_count, try_except, bind, client_call. simpl.
  destruct (raises (length (calls w)) _) eqn:H1; simpl.
  - eexists [_], [_]. split; [reflexivity|]. split; [repeat constructor|].
    right. split; [|reflexivity]. constructor. reflexivity.
  - destruct (raises (length (calls w ++ _)) _) eqn:H2; simpl.
    + eexists [_; _], [_]. rewrite <- !app_assoc. split; [reflexivity|].
      split; [repeat constructor|]. right. split; [|reflexivity].
      apply Exists_cons_tl. constructor. reflexivity.
    + eexists [_; _], []. rewrite <- !app_assoc, app_nil_r. split; [reflexivity|].
      split; [repeat constructor|]. left. split; [repeat constructor | reflexivity].
Qed.

Lemma committed_rows_app db tbl rng cs cs' errs :
  committed_rows db tbl (mkWorld rng (cs ++ cs') errs)
  = concat (map (rows_of_call db tbl) cs) ++ concat (map (rows_of_call db tbl) cs').
Proof. unfold committed_rows. simpl. now rewrite map_app, concat_app. Qed.

Lemma committed_rows_inserts db tbl (batches : list (list EventRecord)) :
  concat (map (rows_of_call db tbl) (map (fun b => (insert_call db tbl b, true)) batches))
  = map to_row (concat batches).
Proof.
  induction batches as [|b rest IH]; simpl; [reflexivity|].
  rewrite bool_decide_eq_true_2 by auto. now rewrite IH, map_app.
Qed.

Lemma committed_rows_reporting db tbl (tail : list (Call * bool)) :
  Forall (fun c => reporting_query c.1 = true) tail ->
  concat (map (rows_of_call db tbl) tail) = [].
Proof.
  induction 1 as [|[c ok] tail Hc _ IH]; simpl; [reflexivity|].
  rewrite IH, app_nil_r. destruct c as [|q rows|]; try reflexivity.
  destruct q; try reflexivity. discriminate.
Qed.

Lemma load_data_unfold self r data tbl dbopt B w :
  1 <= B ->
  load_data self (pd_DataFrame (r :: data)) tbl dbopt B w
  = (let* _ := for_each (load_batches (r :: data) B)
                 (insert_batch "load_data" (database_or_default dbopt) tbl) in
     verify_data_count self tbl (Some (database_or_default dbopt))) w.
Proof.
  intros HB. unfold load_data.
  cbn [pd_DataFrame df_empty df_columns df_records event_columns].
  unfold floordiv, range3.
  replace (B =? 0) with false by (symmetry; apply Z.eqb_neq; lia).
  replace (0 <? B) with true by (symmetry; apply Z.ltb_lt; lia).
  unfold bind at 1 2. unfold ret at 1 2.
  unfold load_batches. rewrite !for_each_map, Z.sub_0_r.
  unfold bind.
  erewrite for_each_ext; [reflexivity|].
  intros k w0. cbv beta. now rewrite Z.add_0_l.
Qed.

(** C7 (as amended): for a batch size [B >= 1], [load_data] cuts the
    collection into contiguous slices of at most [B] records and sends
    one bulk insert per slice, in order.  When an insert is rejected the
    failure is raised at once: the batches before it stay committed, the
    rejected batch is sent exactly once, and no later batch is sent. *)
Theorem load_data_in_order_until_failure self data tbl dbopt B w :
  1 <= B ->
  let db := database_or_default dbopt in
  let batches := load_batches data B in
  let sent b := (insert_call db tbl b, true) in
  let run := load_data self (pd_DataFrame data) tbl dbopt B w in
  concat batches = data /\
  Forall (fun b => (1 <= length b)%nat /\ Z.of_nat (length b) <= B) batches /\
  match first_failing (length (calls w)) db tbl batches with
  | None =>
      run.2 = Ok tt /\
      exists tail,
        calls run.1 = calls w ++ map sent batches ++ tail /\
        Forall (fun c => reporting_query c.1 = true) tail /\
        committed_rows db tbl run.1 = committed_rows db tbl w ++ map to_row data
  | Some k =>
      run.2 = Raise (StoreError (length (calls w) + k)) /\
      calls run.1 = calls w ++ map sent (take k batches)
                            ++ [(insert_call db tbl (nth k batches []), false)] /\
      committed_rows db tbl run.1
      = committed_rows db tbl w ++ map to_row (concat (take k batches))
  end.
Proof.
  intros HB db batches sent run.
  destruct (load_batches_partition data B HB) as [Hconcat Hsizes].
  split; [exact Hconcat|]. split; [exact Hsizes|].
  destruct data as [|r data'].
  - (* nothing to load *)
    assert (Hb : batches = []).
    { unfold batches, load_batches. simpl length. change (Z.of_nat 0) with 0.
      rewrite Z.div_small by lia. reflexivity. }
    rewrite Hb. simpl. split; [reflexivity|]. exists []. simpl.
    rewrite !app_nil_r. repeat split. constructor.
  - assert (Hrun : run =
      (let* _ := for_each batches (insert_batch "load_data" db tbl) in
       verify_data_count self tbl (Some db)) w).
    { unfold run, batches, db. apply load_data_unfold. exact HB. }
    rewrite Hrun. unfold bind. rewrite insert_loop.
    destruct (first_failing (length (calls w)) db tbl batches) as [k|].
    + simpl. split; [reflexivity|]. split; [reflexivity|].
      rewrite app_assoc, committed_rows_app, map_app, concat_app, committed_rows_inserts.
      simpl. now rewrite app_nil_r.
    + destruct (verify_data_count_spec self tbl (Some db)
        (mkWorld (rng_pos w) (calls w ++ map sent batches) (errors_logged w)))
        as (tail & errs & Hv & Htail & _).
      simpl in Hv. fold sent. rewrite Hv. simpl. split; [reflexivity|].
      exists tail. split; [now rewrite <- app_assoc|]. split; [exact Htail|].
      rewrite <- app_assoc, committed_rows_app, map_app, concat_app.
      unfold sent. rewrite committed_rows_inserts.
      rewrite (committed_rows_reporting _ _ _ Htail).
      unfold batches. now rewrite app_nil_r, Hconcat.
Qed.

(** ** Propagation of store failures *)

Lemma no_lost_failure_refl w : no_lost_failure w w.
Proof. exists []. split; [now rewrite app_nil_r | constructor]. Qed.

Lemma no_lost_failure_trans w1 w2 w3 :
  no_lost_failure w1 w2 -> no_lost_failure w2 w3 -> no_lost_failure w1 w3.
Proof.
  intros (t1 & H1 & F1) (t2 & H2 & F2). exists (t1 ++ t2). split.
  - now rewrite H2, H1, app_assoc.
  - apply Forall_app. auto.
Qed.

Lemma no_lost_failure_log w w' rng errs :
  no_lost_failure w w' -> no_lost_failure w (mkWorld rng (calls w') errs).
Proof. intros (t & H & F). exists t. auto. Qed.

Lemma handled_ret {A} (a : A) : handled (ret a).
Proof. intros w. apply no_lost_failure_refl. Qed.

Lemma handled_raise {A} e : handled (@raise A e).
Proof. intros w. right. apply no_lost_failure_refl. Qed.

Lemma handled_bind {A B} (m : M A) (f : A -> M B) :
  handled m -> (forall a, handled (f a)) -> handled (bind m f).
Proof.
  intros Hm Hf w. unfold bind. specialize (Hm w).
  destruct (m w) as [w1 [a|e]]; [|exact Hm].
  specialize (Hf a w1). destruct (f a w1) as [w2 [b|e]].
  - eapply no_lost_failure_trans; eassumption.
  - destruct Hf as [Hs|Hn]; [left; exact Hs | right].
    eapply no_lost_failure_trans; eassumption.
Qed.

Lemma handled_client_call c : handled (client_call c).
Proof.
  intros w. unfold client_call. destruct (raises (length (calls w)) c).
  - left. eauto.
  - exists [(c, true)]. split; [reflexivity|]. constructor; [discriminate | constructor].
Qed.

Lemma handled_logger_error routine : handled (logger_error routine).
Proof. intros w. apply no_lost_failure_log, no_lost_failure_refl. Qed.

(** [try: m except Exception as e: logger.error(...); raise] *)
Lemma handled_try_reraise {A} (m : M A) routine :
  handled m -> handled (try_except m (fun e => logger_error routine;; raise e)).
Proof.
  intros Hm w. unfold try_except. specialize (Hm w).
  destruct (m w) as [w1 [a|e]]; [exact Hm|].
  destruct (is_Exception e); [|exact Hm]. simpl.
  destruct Hm as [Hs|Hn]; [left; exact Hs | right].
  now apply no_lost_failure_log.
Qed.

Lemma handled_for_each {A} (xs : list A) (body : A -> M unit) :
  (forall x, handled (body x)) -> handled (for_each xs body).
Proof.
  intros Hbody. induction xs as [|x xs IH]; simpl.
  - apply handled_ret.
  - apply handled_bind; [apply Hbody | intros _; exact IH].
Qed.

Lemma show_table_structure_spec self tbl dbopt w :
  exists ok,
    show_table_structure self tbl dbopt w
    = (mkWorld (rng_pos w)
               (calls w ++ [(Execute (DescribeTable (database_or_default dbopt) tbl) None, ok)])
               (errors_logged w ++ (if ok then [] else ["show_table_structure"%string])),
       Ok tt).
Proof.
  unfold show_table_structure, try_except, client_call.
  destruct (raises (length (calls w)) _); simpl.
  - exists false. reflexivity.
  - exists true. now rewrite app_nil_r.
Qed.

Lemma handled_show_table_structure self tbl dbopt :
  handled (show_table_structure self tbl dbopt).
Proof.
  intros w. destruct (show_table_structure_spec self tbl dbopt w) as [ok ->].
  eexists. split; [reflexivity|]. constructor; [reflexivity | constructor].
Qed.

Lemma handled_verify_data_count self tbl dbopt :
  handled (verify_data_count self tbl dbopt).
Proof.
  intros w. destruct (verify_data_count_spec self tbl dbopt w) as (tail & errs & -> & Ht & _).
  exists tail. split; [reflexivity|].
  eapply Forall_impl; [exact Ht|]. auto.
Qed.

Lemma handled_run_op self op : handled (run_op self op).
Proof.
  destruct op; simpl.
  - apply handled_bind; [|intros; apply handled_ret].
    unfold connect. apply handled_try_reraise.
    intros w. apply (handled_bind (client_call NewClient)); [apply handled_client_call|].
    intros _. apply handled_bind; [apply handled_client_call | intros; apply handled_ret].
  - apply handled_client_call.
  - apply handled_try_reraise, handled_client_call.
  - unfold create_table. apply handled_bind.
    + apply handled_try_reraise, handled_client_call.
    + intros _. apply handled_try_reraise, handled_bind; [apply handled_client_call|].
      intros _. apply handled_show_table_structure.
  - apply handled_show_table_structure.
  - unfold load_data. destruct (df_empty df); [apply handled_ret|].
    apply handled_bind.
    { unfold floordiv. destruct (_ =? 0); [apply handled_raise | apply handled_ret]. }
    intros _. apply handled_bind.
    { unfold range3. destruct (_ =? 0); [apply handled_raise | apply handled_ret]. }
    intros starts. apply handled_bind; [|intros; apply handled_verify_data_count].
    apply handled_for_each. intros i. apply handled_try_reraise, handled_client_call.
  - unfold load_data_batch. destruct (df_empty df); [apply handled_ret|].
    apply handled_try_reraise, handled_client_call.
  - apply handled_verify_data_count.
  - apply handled_try_reraise, handled_client_call.
Qed.

Lemma calls_since_app w w' tail :
  calls w' = calls w ++ tail -> calls_since w w' = tail.
Proof. intros H. unfold calls_since. now rewrite H, drop_app_length. Qed.

(** C8 (as amended): a failed call inside any loader operation is raised
    to the caller, except a failed reporting query ([DESCRIBE] in
    [show_table_structure], the two [SELECT]s of [verify_data_count]):
    these two operations always return normally and log the failure. *)
Theorem store_failures_surface self op w :
  let run := run_op self op w in
  (forall c, (c, false) ∈ calls_since w run.1 -> reporting_query c = false ->
             exists i, run.2 = Raise (StoreError i)) /\
  (is_reporting_op op = true ->
   run.2 = Ok tt /\
   (Exists (fun c => c.2 = false) (calls_since w run.1) ->
    exists routine, errors_logged run.1 = errors_logged w ++ [routine])).
Proof.
  intros run. split.
  - intros c Hc Hrep. pose proof (handled_run_op self op w) as H. fold run in H.
    assert (Hno : ~ no_lost_failure w run.1).
    { intros (tail & Htail & Hall). rewrite (calls_since_app _ _ _ Htail) in Hc.
      rewrite Forall_forall in Hall. specialize (Hall _ Hc eq_refl). simpl in Hall. congruence. }
    destruct run as [w' [a|e]]; simpl in *; [contradiction|].
    destruct H as [[i ->]|H]; [eauto | contradiction].
  - intros Hop. destruct op; try discriminate; simpl in run.
    + destruct (show_table_structure_spec self table_name database_name w) as [ok Hrun].
      unfold run. rewrite Hrun. simpl. split; [reflexivity|].
      unfold calls_since. simpl. rewrite drop_app_length. intros Hex.
      destruct ok; [|eauto]. apply Exists_cons in Hex as [Hex|Hex]; [discriminate|].
      inversion Hex.
    + destruct (verify_data_count_spec self table_name database_name w)
        as (tail & errs & Hrun & _ & Herrs).
      unfold run. rewrite Hrun. simpl. split; [reflexivity|].
      unfold calls_since. simpl. rewrite drop_app_length. intros Hex.
      destruct Herrs as [[Hall ->]|[_ ->]]; [|eauto].
      exfalso. apply Exists_exists in Hex as (c & Hc & Hfalse).
      rewrite Forall_forall in Hall. specialize (Hall c Hc). congruence.
Qed.

(** ** The orchestrator *)

(** C2 (as amended): the whole-dataset mode is selected exactly when the
    requested row count is at most 1,000,000, the streamed mode exactly
    when it is above; the [try] block of [main] runs the selected mode. *)
Theorem mode_threshold args loader :
  (rows args <= 1000000 /\ select_mode (rows args) = WholeDataset /\
   main_body args loader = whole_dataset_mode args loader) \/
  (1000000 < rows args /\ select_mode (rows args) = Streamed /\
   main_body args loader = (streamed_mode args loader;; ret tt)).
Proof.
  unfold main_body, select_mode.
  destruct (rows args <=? 1000000) eqn:H; [left | right].
  - apply Z.leb_le in H. auto.
  - apply Z.leb_gt in H. auto.
Qed.

Lemma new_loader_spec w :
  new_loader w =
  let n := length (calls w) in
  let version := Execute SelectVersion None in
  if raises n NewClient then
    (mkWorld (rng_pos w) (calls w ++ [(NewClient, false)])
             (errors_logged w ++ ["connect"%string]),
     Raise (StoreError n))
  else if raises (S n) version then
    (mkWorld (rng_pos w) (calls w ++ [(NewClient, true); (version, false)])
             (errors_logged w ++ ["connect"%string]),
     Raise (StoreError (S n)))
  else
    (mkWorld (rng_pos w) (calls w ++ [(NewClient, true); (version, true)]) (errors_logged w),
     Ok (mkLoader n)).
Proof.
  unfold new_loader, connect, bind, try_except, client_call. cbv zeta.
  destruct (raises (length (calls w)) NewClient); simpl; [reflexivity|].
  rewrite length_app. simpl. rewrite Nat.add_1_r.
  destruct (raises (S (length (calls w))) (Execute SelectVersion None)); simpl;
    now rewrite <- app_assoc.
Qed.

(** C10: every run, generate-only or not, first builds the loader, which
    creates the client and sends [SELECT version()]; no random draw has
    been made by then.  When either step fails the run ends there with
    the store's exception, outside the [try] block; otherwise the [try]
    block starts from the world the loader left. *)
Theorem main_connects_before_generating args w :
  let n := length (calls w) in
  let version := Execute SelectVersion None in
  let w1 := (new_loader w).1 in
  rng_pos w1 = rng_pos w /\
  calls w1 = calls w ++
    (if raises n NewClient then [(NewClient, false)]
     else [(NewClient, true); (version, negb (raises (S n) version))]) /\
  (if raises n NewClient || raises (S n) version
   then exists i, main args w = (w1, Raise (StoreError i))
   else main args w
        = try_except (main_body args (mkLoader n)) (fun e => raise (SystemExit 1)) w1).
Proof.
  intros n version w1. unfold w1, main, bind. rewrite new_loader_spec. cbv zeta.
  fold n version.
  destruct (raises n NewClient); simpl; [repeat split; eauto|].
  destruct (raises (S n) version); simpl; repeat split; eauto.
Qed.

(** ** The requested row count in the streamed mode *)

Lemma main_streamed_ignores_rows args n w :
  1000000 < rows args -> 1000000 < n -> main (with_rows n args) w = main args w.
Proof.
  intros H1 H2. unfold main, main_body, select_mode. simpl.
  replace (n <=? 1000000) with false by (symmetry; apply Z.leb_gt; lia).
  replace (rows args <=? 1000000) with false by (symmetry; apply Z.leb_gt; lia).
  reflexivity.
Qed.

(** ** Generation leaves the store alone *)

Lemma same_store_refl w : same_store w w.
Proof. split; reflexivity. Qed.

Lemma same_store_trans w1 w2 w3 : same_store w1 w2 -> same_store w2 w3 -> same_store w1 w3.
Proof. intros [H1 H2] [H3 H4]. split; congruence. Qed.

Lemma quiet_ret {A} (a : A) : quiet (ret a).
Proof. intros w. apply same_store_refl. Qed.

Lemma quiet_raise {A} e : quiet (@raise A e).
Proof. intros w. apply same_store_refl. Qed.

Lemma quiet_bind {A B} (m : M A) (f : A -> M B) :
  quiet m -> (forall a, quiet (f a)) -> quiet (bind m f).
Proof.
  intros Hm Hf w. unfold bind. specialize (Hm w).
  destruct (m w) as [w1 [a|e]]; simpl in *; [|exact Hm].
  eapply same_store_trans; [exact Hm | apply Hf].
Qed.

Lemma quiet_draw : quiet draw.
Proof. intros w. split; reflexivity. Qed.

Lemma quiet_repeatM {A} (m : M A) n : quiet m -> quiet (repeatM n m).
Proof.
  intros Hm. induction n as [|n IH]; simpl; [apply quiet_ret|].
  apply quiet_bind; [exact Hm|]. intros x.
  apply quiet_bind; [exact IH|]. intros xs. apply quiet_ret.
Qed.

Lemma quiet_random_randint a b : quiet (random_randint a b).
Proof.
  unfold random_randint. destruct (b <? a); [apply quiet_raise|].
  apply quiet_bind; [apply quiet_draw | intros; apply quiet_ret].
Qed.

Lemma quiet_random_choice {A} (seq : list A) : quiet (random_choice seq).
Proof.
  unfold random_choice. destruct seq; [apply quiet_raise|].
  apply quiet_bind; [apply quiet_draw | intros; apply quiet_ret].
Qed.

Lemma quiet_strptime_ymd text : quiet (strptime_ymd text).
Proof. destruct text; [apply quiet_ret | apply quiet_raise]. Qed.

Lemma quiet_random_date s e : quiet (_random_date s e).
Proof.
  unfold _random_date.
  apply quiet_bind; [apply quiet_strptime_ymd | intros ?].
  apply quiet_bind; [apply quiet_strptime_ymd | intros ?].
  apply quiet_bind; [apply quiet_random_randint | intros; apply quiet_ret].
Qed.

Lemma quiet_assign_profiles ids : forall profiles, quiet (assign_profiles ids profiles).
Proof.
  induction ids as [|id rest IH]; intros profiles; simpl; [apply quiet_ret|].
  repeat (apply quiet_bind; [first [apply quiet_random_choice | apply quiet_random_date]|intros ?]).
  apply IH.
Qed.

Lemma quiet_device_population n : quiet (device_population n).
Proof.
  unfold device_population, int_mul_float.
  apply quiet_bind; [destruct (fits_double n); [apply quiet_ret | apply quiet_raise]|].
  intros tenth. apply quiet_bind.
  { apply quiet_repeatM. unfold uuid4.
    apply quiet_bind; [apply quiet_draw | intros; apply quiet_ret]. }
  intros ids. apply quiet_bind; [apply quiet_assign_profiles | intros; apply quiet_ret].
Qed.

Lemma quiet_generate_record ids profiles : quiet (generate_record ids profiles).
Proof.
  unfold generate_record, _random_datetime, _weighted_random_event.
  apply quiet_bind; [apply quiet_random_choice|]. intros id.
  apply quiet_bind; [destruct (profiles !! id); [apply quiet_ret | apply quiet_raise]|].
  intros p. apply quiet_bind; [apply quiet_random_date|]. intros d.
  apply quiet_bind.
  { repeat (apply quiet_bind; [apply quiet_random_randint | intros ?]). apply quiet_ret. }
  intros t. apply quiet_bind; [|intros; apply quiet_ret].
  case_bool_decide; [|apply quiet_raise].
  apply quiet_bind; [apply quiet_draw | intros; apply quiet_ret].
Qed.

Lemma quiet_column df label : quiet (column df label).
Proof. unfold column. destruct (has_column df label); [apply quiet_ret | apply quiet_raise]. Qed.

Lemma quiet_generate_dataframe num_rows : quiet (generate_dataframe num_rows).
Proof.
  unfold generate_dataframe, generate_dataframe_locals, sort_values_event_time.
  apply quiet_bind; [|intros [[? ?] ?]; apply quiet_ret].
  apply quiet_bind; [apply quiet_device_population|]. intros [ids profiles].
  apply quiet_bind; [apply quiet_repeatM, quiet_generate_record|]. intros data.
  apply quiet_bind.
  { apply quiet_bind; [apply quiet_column | intros; apply quiet_ret]. }
  intros df. repeat (apply quiet_bind; [apply quiet_column | intros ?]).
  apply quiet_ret.
Qed.

(** With [generate_only] set, the whole-dataset branch issues no call to
    the store and logs nothing. *)
Lemma whole_dataset_generate_only_quiet args loader w :
  generate_only args = true ->
  same_store w (whole_dataset_mode args loader w).1.
Proof.
  intros Hgo. unfold whole_dataset_mode. rewrite Hgo. simpl.
  apply (quiet_bind (generate_dataframe (Some (rows args))) (fun _ => ret tt)).
  - apply quiet_generate_dataframe.
  - intros _. apply quiet_ret.
Qed.

(** ** What every generated record satisfies *)

Lemma outcome_assign_profiles_ok device_ids : forall profiles0,
  outcome any_exn
    (fun profiles => map_Forall (fun _ => profile_ok) profiles0 ->
                     map_Forall (fun _ => profile_ok) profiles)
    (assign_profiles device_ids profiles0).
Proof.
  assert (Hany : forall e, any_exn e) by (intros; exact I).
  induction device_ids as [|id rest IH]; intros profiles0; simpl.
  - now apply outcome_ret.
  - eapply outcome_bind.
    { apply (outcome_choice any_exn (fun c => c ∈ CITIES cfg)); auto. }
    intros c Hc. eapply outcome_bind.
    { apply (outcome_choice any_exn (fun o => o ∈ DEVICE_OS cfg)); auto. }
    intros os Hos. eapply outcome_bind.
    { apply (outcome_random_date any_exn
               (fun d => cfg_start_date cfg <= d <= cfg_end_date cfg)); [auto|].
      unfold config_start_date, config_end_date. intros ds de d [= <-] [= <-] Hd. exact Hd. }
    intros d Hd. eapply outcome_weaken; [apply IH | auto |].
    intros profiles Hall H0. apply Hall.
    apply map_Forall_insert_2; [|exact H0].
    split; [exact Hc | split; [exact Hos | exact Hd]].
Qed.

Lemma outcome_device_population_ok n :
  outcome any_exn
    (fun '(device_ids, profiles) => map_Forall (fun _ => profile_ok) profiles)
    (device_population n).
Proof.
  unfold device_population.
  eapply outcome_bind.
  { apply (outcome_int_mul_float any_exn (fun _ => True)); [right; intros; exact I | exact I]. }
  intros tenth _. eapply outcome_bind.
  { apply (outcome_repeatM any_exn (fun _ => True)). apply outcome_uuid4. auto. }
  intros ids _. eapply outcome_bind; [apply (outcome_assign_profiles_ok ids ∅)|].
  intros profiles Hall. apply outcome_ret. apply Hall, map_Forall_empty.
Qed.

Lemma weighted_event_in_events (x : Z) :
  length (EVENTS cfg) = 3%nat -> nth (weighted_index x) (EVENTS cfg) EmptyString ∈ EVENTS cfg.
Proof.
  intros H3. apply list_elem_of_In, nth_In. rewrite H3. unfold weighted_index.
  destruct (x <? 7); [lia|]. destruct (x <? 9); lia.
Qed.

Lemma outcome_weighted_random_event_in :
  outcome any_exn (fun ev => ev ∈ EVENTS cfg) _weighted_random_event.
Proof.
  unfold _weighted_random_event. case_bool_decide as H3; [|now apply outcome_raise].
  eapply outcome_bind; [apply (outcome_draw any_exn (fun _ => True)); auto|].
  intros n _. apply outcome_ret. now apply weighted_event_in_events.
Qed.

Lemma outcome_generate_record_ok device_ids profiles :
  outcome any_exn (well_generated device_ids profiles) (generate_record device_ids profiles).
Proof.
  assert (Hany : forall e, any_exn e) by (intros; exact I).
  unfold generate_record.
  eapply outcome_bind.
  { apply (outcome_choice any_exn (fun id => id ∈ device_ids)); auto. }
  intros id Hid. destruct (profiles !! id) as [p|] eqn:Hp.
  - eapply outcome_bind; [apply (outcome_ret any_exn (fun q => q = p)); reflexivity|].
    intros ? ->. eapply outcome_bind.
    { apply (outcome_random_date any_exn
               (fun d => created_date p <= d <= cfg_end_date cfg)); [auto|].
      unfold config_end_date. intros ds de d Hs [= <-] Hd.
      apply strftime_ymd_Reads in Hs. subst ds. exact Hd. }
    intros d Hd. eapply outcome_bind.
    { apply (outcome_random_datetime any_exn
               (fun t => dt_date t = d /\ 0 <= dt_hour t <= 23 /\
                         0 <= dt_minute t <= 59 /\ 0 <= dt_second t <= 59)). auto. }
    intros t Ht. cbv beta in *.
    eapply outcome_bind; [apply outcome_weighted_random_event_in|].
    intros ev Hev. apply outcome_ret. unfold well_generated. simpl.
    split; [exact Hid|]. split; [exists p; repeat split; [exact Hp | lia]|].
    split; [lia|]. split; [exact Hev|]. exact Ht.
  - apply (outcome_bind any_exn (fun _ : Profile => False)); [|intros a []].
    now apply outcome_raise.
Qed.

Lemma outcome_generate_dataframe_records num_rows :
  outcome any_exn
    (fun '(device_ids, profiles, df) =>
       map_Forall (fun _ => profile_ok) profiles /\
       Forall (well_generated device_ids profiles) (df_records df))
    (generate_dataframe_locals num_rows).
Proof.
  unfold generate_dataframe_locals.
  eapply outcome_bind; [apply outcome_device_population_ok|].
  intros [ids profiles] Hpop. eapply outcome_bind.
  { apply outcome_repeatM, outcome_generate_record_ok. }
  intros data [_ Hall]. unfold sort_values_event_time.
  eapply outcome_bind.
  { eapply outcome_bind; [apply (outcome_column any_exn); right; intros; exact I|].
    intros _ _.
    apply (outcome_ret any_exn
             (fun df => df_records df = sort_by_time (df_records (pd_DataFrame data)))).
    reflexivity. }
  intros df Hdf.
  do 4 (eapply outcome_bind;
        [apply (outcome_column any_exn); right; intros; exact I | intros _ _]).
  apply outcome_ret. split; [exact Hpop|].
  rewrite Hdf, df_records_pd_DataFrame. now apply sort_by_time_Forall.
Qed.

Lemma outcome_collect_batches_records B :
  outcome any_exn
    (fun '(device_ids, profiles, batches) =>
       map_Forall (fun _ => profile_ok) profiles /\
       Forall (fun df => Forall (well_generated device_ids profiles) (df_records df)) batches)
    (collect_batches_locals B).
Proof.
  unfold collect_batches_locals, generate_data_batches_locals.
  eapply outcome_bind.
  { unfold floordiv. destruct (_ =? 0);
      [now apply outcome_raise | apply (outcome_ret any_exn (fun _ => True)); exact I]. }
  intros nb _. eapply outcome_bind; [apply outcome_device_population_ok|].
  intros [ids profiles] Hpop. eapply outcome_bind.
  { pose proof (outcome_fold_each any_exn
      (fun (_ : nat) acc =>
         Forall (fun df => Forall (well_generated ids profiles) (df_records df)) acc)
      (fun acc batch_num =>
         let* batch_data :=
           repeatM (Z.to_nat (Z.min (default (cfg_batch_size cfg) B)
                                (cfg_num_rows cfg - batch_num * default (cfg_batch_size cfg) B)))
             (generate_record ids profiles) in
         ret (acc ++ [pd_DataFrame batch_data]))
      (range nb) 0%nat []) as Hloop.
    apply Hloop; [|constructor].
    intros i x acc _ Hacc. eapply outcome_bind.
    { apply outcome_repeatM, outcome_generate_record_ok. }
    intros data [_ Hdata]. apply outcome_ret. apply Forall_app. split; [exact Hacc|].
    constructor; [|constructor]. now rewrite df_records_pd_DataFrame. }
  intros batches Hall. apply outcome_ret. auto.
Qed.

Lemma generation_run_well_generated w w' ids profiles records :
  generation_run w w' ids profiles records ->
  map_Forall (fun _ => profile_ok) profiles /\
  Forall (well_generated ids profiles) records.
Proof.
  intros [(num_rows & df & Hrun & ->)|(B & batches & Hrun & ->)].
  - exact (outcome_Ok _ _ _ _ _ _ (outcome_generate_dataframe_records num_rows) Hrun).
  - destruct (outcome_Ok _ _ _ _ _ _ (outcome_collect_batches_records B) Hrun) as [Hpop Hall].
    split; [exact Hpop|]. apply Forall_concat, Forall_fmap. exact Hall.
Qed.

(** X1: the timestamp of every generated record lies on the record's own
    date, with a time of day between 00:00:00 and 23:59:59. *)
Theorem event_time_on_event_date w w' ids profiles records :
  generation_run w w' ids profiles records ->
  Forall (fun r => dt_date (event_time r) = date r /\
                   0 <= dt_hour (event_time r) <= 23 /\
                   0 <= dt_minute (event_time r) <= 59 /\
                   0 <= dt_second (event_time r) <= 59 /\
                   within_day (date r) (event_time r)) records.
Proof.
  intros Hrun. destruct (generation_run_well_generated _ _ _ _ _ Hrun) as [_ Hall].
  eapply Forall_impl; [exact Hall|].
  intros r (_ & _ & _ & _ & Hd & Hh & Hm & Hs).
  repeat split; try tauto; unfold timestamp; rewrite Hd; lia.
Qed.

(** X2: every generated record carries the city and the operating system
    of its device's profile, and its device belongs to the population; so
    two records of one run with the same device agree on both. *)
Theorem records_share_device_attributes w w' ids profiles records :
  generation_run w w' ids profiles records ->
  Forall (fun r => device_id r ∈ ids /\
                   exists p, profiles !! device_id r = Some p /\
                             city r = p_city p /\ device_os r = p_device_os p) records /\
  (forall r1 r2, r1 ∈ records -> r2 ∈ records -> device_id r1 = device_id r2 ->
                 city r1 = city r2 /\ device_os r1 = device_os r2).
Proof.
  intros Hrun. destruct (generation_run_well_generated _ _ _ _ _ Hrun) as [_ Hall].
  split.
  - eapply Forall_impl; [exact Hall|].
    intros r (Hid & (p & Hp & Hc & Ho & _) & _). split; [exact Hid | eauto].
  - intros r1 r2 H1 H2 Heq. rewrite Forall_forall in Hall.
    destruct (Hall r1 H1) as (_ & (p1 & Hp1 & Hc1 & Ho1 & _) & _).
    destruct (Hall r2 H2) as (_ & (p2 & Hp2 & Hc2 & Ho2 & _) & _).
    rewrite Heq in Hp1. rewrite Hp1 in Hp2. injection Hp2 as <-.
    split; congruence.
Qed.

(** X3: every generated record takes its event from [EVENTS], its city
    from [CITIES], its system from [DEVICE_OS] and its date from the
    configured range of dates. *)
Theorem records_within_configuration w w' ids profiles records :
  generation_run w w' ids profiles records ->
  Forall (fun r => event r ∈ EVENTS cfg /\ city r ∈ CITIES cfg /\
                   device_os r ∈ DEVICE_OS cfg /\
                   cfg_start_date cfg <= date r <= cfg_end_date cfg) records.
Proof.
  intros Hrun. destruct (generation_run_well_generated _ _ _ _ _ Hrun) as [Hpop Hall].
  eapply Forall_impl; [exact Hall|].
  intros r (_ & (p & Hp & Hc & Ho & Hcreated) & Hend & Hev & _).
  destruct (Hpop _ _ Hp) as (Hcity & Hos & Hrange). unfold created_in_range in Hrange.
  rewrite Hc, Ho. repeat split; try assumption; lia.
Qed.

(** ** Edge cases of generation and loading *)

Lemma range_nonpositive n : n <= 0 -> range n = [].
Proof. intros H. unfold range. replace (Z.to_nat n) with 0%nat by lia. reflexivity. Qed.

(** X4: when the configured [num_rows] is zero or negative, and not so
    large in magnitude that its product with [0.1] overflows, the
    streamed generator builds its device population and ends without
    yielding: the consumer is never run, its state comes back unchanged
    and the store is not touched. *)
Theorem streamed_generation_without_rows {T} (B : Z) (yield : T -> DataFrame -> M T) (s0 : T) :
  well_formed -> - float_overflow_bound < cfg_num_rows cfg <= 0 -> 1 <= B ->
  forall w, exists w',
    generate_data_batches (Some B) yield s0 w = (w', Ok s0) /\ same_store w w'.
Proof.
  intros Hwf [Hbound Hn] HB w.
  assert (Hfits : fits_double (cfg_num_rows cfg) = true) by (apply fits_double_iff; lia).
  unfold generate_data_batches, generate_data_batches_locals, floordiv. simpl default.
  replace (B =? 0) with false by (symmetry; apply Z.eqb_neq; lia).
  assert (Hnb : (cfg_num_rows cfg + B - 1) / B <= 0).
  { assert ((cfg_num_rows cfg + B - 1) / B < 1); [|lia].
    apply Z.div_lt_upper_bound; lia. }
  destruct (outcome_returns _ _ w
    (outcome_device_population no_exn (cfg_num_rows cfg) (or_introl (conj Hwf Hfits))))
    as (w' & [ids profiles] & Hrun & _).
  pose proof (quiet_device_population (cfg_num_rows cfg) w) as Hquiet.
  rewrite Hrun in Hquiet. simpl in Hquiet.
  exists w'. unfold bind at 1 2. unfold ret at 1. unfold bind at 1 2. rewrite Hrun.
  rewrite range_nonpositive by exact Hnb. simpl. unfold bind, ret. simpl.
  split; [reflexivity | exact Hquiet].
Qed.

(** X5: [load_data] with a batch size that is not positive never inserts
    a row of a non-empty frame.  With 0 it raises [ZeroDivisionError]
    before any call; with a negative size its loop is empty, it runs the
    verification queries and returns normally. *)
Theorem load_data_nonpositive_batch_size self r data tbl dbopt B w :
  B <= 0 ->
  let db := database_or_default dbopt in
  let run := load_data self (pd_DataFrame (r :: data)) tbl dbopt B w in
  (B = 0 /\ run = (w, Raise ZeroDivisionError)) \/
  (B < 0 /\ run.2 = Ok tt /\
   Forall (fun c => reporting_query c.1 = true) (calls_since w run.1) /\
   committed_rows db tbl run.1 = committed_rows db tbl w).
Proof.
  intros HB db run.
  destruct (Z.eq_dec B 0) as [->|Hne]; [left; split; reflexivity|].
  right. split; [lia|].
  assert (Hrun : run = verify_data_count self tbl (Some db) w).
  { unfold run, load_data.
    cbn [pd_DataFrame df_empty df_columns df_records event_columns]. fold db.
    unfold floordiv, range3.
    replace (B =? 0) with false by (symmetry; apply Z.eqb_neq; lia).
    replace (0 <? B) with false by (symmetry; apply Z.ltb_ge; lia).
    set (len := Z.of_nat (length (r :: data))).
    assert (Hlen : 1 <= len) by (unfold len; simpl length; lia).
    assert (Hcount : (0 - len - B - 1) / - B <= 0).
    { assert ((0 - len - B - 1) / - B < 1); [|lia].
      apply Z.div_lt_upper_bound; lia. }
    replace (Z.to_nat ((0 - len - B - 1) / - B)) with 0%nat by lia.
    unfold bind, ret. simpl. now destruct (verify_data_count self tbl (Some db) w) as [? []]. }
  rewrite Hrun.
  destruct (verify_data_count_spec self tbl (Some db) w) as (tail & errs & Hv & Htail & _).
  rewrite Hv. simpl. split; [reflexivity|]. split.
  - unfold calls_since. simpl. now rewrite drop_app_length.
  - rewrite committed_rows_app, (committed_rows_reporting _ _ _ Htail).
    now rewrite app_nil_r.
Qed.

(** ** Schema creation and verification *)

(** X6: [create_table] sends [CREATE DATABASE], then [CREATE TABLE], then
    [DESCRIBE].  A rejected [CREATE] is logged and raised and nothing more
    is sent; a rejected [DESCRIBE] is only logged, and [create_table]
    still returns normally. *)
Theorem create_table_protocol self tbl dbopt w :
  let db := database_or_default dbopt in
  let n := length (calls w) in
  let run := create_table self tbl dbopt w in
  rng_pos run.1 = rng_pos w /\
  if raises n (create_database_call db) then
    run.2 = Raise (StoreError n) /\
    calls run.1 = calls w ++ [(create_database_call db, false)] /\
    errors_logged run.1 = errors_logged w ++ ["create_database"%string]
  else if raises (S n) (create_table_call db tbl) then
    run.2 = Raise (StoreError (S n)) /\
    calls run.1 = calls w ++ [(create_database_call db, true);
                              (create_table_call db tbl, false)] /\
    errors_logged run.1 = errors_logged w ++ ["create_table"%string]
  else
    run.2 = Ok tt /\
    calls run.1 = calls w ++ [(create_database_call db, true);
                              (create_table_call db tbl, true);
                              (describe_call db tbl,
                               negb (raises (S (S n)) (describe_call db tbl)))] /\
    errors_logged run.1
    = errors_logged w ++ (if raises (S (S n)) (describe_call db tbl)
                          then ["show_table_structure"%string] else []).
Proof.
  intros db n run. unfold run, create_table, create_database, show_table_structure.
  fold db. unfold bind, try_except, client_call, logger_error, raise.
  unfold create_database_call, create_table_call, describe_call. fold n.
  destruct (raises n _) eqn:H1; simpl; [repeat split|].
  rewrite !length_app. simpl. fold n. rewrite Nat.add_1_r.
  destruct (raises (S n) _) eqn:H2; simpl.
  { rewrite <- app_assoc. repeat split. }
  rewrite !length_app. simpl. fold n. rewrite !Nat.add_1_r.
  destruct (raises (S (S n)) _) eqn:H3; simpl; rewrite <- !app_assoc; simpl;
    repeat split; now rewrite ?app_nil_r.
Qed.

(** X7: [verify_data_count] only reads.  It sends the row count query
    and, if that one succeeded, the per-event query; it never raises, and
    the rows held by any table are the same before and after. *)
Theorem verify_data_count_protocol self tbl dbopt w :
  let db := database_or_default dbopt in
  let n := length (calls w) in
  let run := verify_data_count self tbl dbopt w in
  run.2 = Ok tt /\
  rng_pos run.1 = rng_pos w /\
  calls run.1 = calls w ++
    (if raises n (count_call db tbl) then [(count_call db tbl, false)]
     else [(count_call db tbl, true);
           (event_counts_call db tbl, negb (raises (S n) (event_counts_call db tbl)))]) /\
  forall db' tbl', committed_rows db' tbl' run.1 = committed_rows db' tbl' w.
Proof.
  intros db n run. unfold run, verify_data_count. fold db.
  unfold bind, try_except, client_call, logger_error, count_call, event_counts_call.
  fold n. destruct (raises n _) eqn:H1; simpl.
  - repeat split. intros db' tbl'. rewrite committed_rows_app. simpl. now rewrite app_nil_r.
  - rewrite length_app. simpl. fold n. rewrite Nat.add_1_r.
    destruct (raises (S n) _) eqn:H2; simpl; rewrite <- app_assoc; simpl;
      (repeat split; intros db' tbl'; rewrite committed_rows_app; simpl; now rewrite app_nil_r).
Qed.

(** ** Only [Exception]s are raised *)

Lemma exc_ret {A} (a : A) : exceptional (ret a).
Proof. now apply outcome_ret. Qed.

Lemma exc_raise {A} e : is_Exception e = true -> exceptional (@raise A e).
Proof. intros H. now apply outcome_raise. Qed.

Lemma exc_bind {A B} (m : M A) (f : A -> M B) :
  exceptional m -> (forall a, exceptional (f a)) -> exceptional (bind m f).
Proof. intros Hm Hf. eapply outcome_bind; [exact Hm | intros a _; apply Hf]. Qed.

Lemma exc_try_except {A} (m : M A) h :
  exceptional m -> (forall e, exceptional (h e)) -> exceptional (try_except m h).
Proof.
  intros Hm Hh w. unfold try_except. specialize (Hm w).
  destruct (m w) as [w' [a|e]]; simpl in *; [exact I|].
  rewrite Hm. apply Hh.
Qed.

Lemma exc_for_each {A} (xs : list A) body :
  (forall x, exceptional (body x)) -> exceptional (for_each xs body).
Proof.
  intros Hb. induction xs as [|x xs IH]; simpl; [apply exc_ret|].
  apply exc_bind; [apply Hb | intros _; exact IH].
Qed.

Lemma exc_fold_each {A T} (xs : list A) (body : T -> A -> M T) :
  (forall s x, exceptional (body s x)) -> forall s, exceptional (fold_each xs body s).
Proof.
  intros Hb. induction xs as [|x xs IH]; intros s; simpl; [apply exc_ret|].
  apply exc_bind; [apply Hb | intros s'; apply IH].
Qed.

Lemma exc_repeatM {A} (m : M A) n : exceptional m -> exceptional (repeatM n m).
Proof.
  intros Hm. induction n as [|n IH]; simpl; [apply exc_ret|].
  apply exc_bind; [exact Hm | intros x].
  apply exc_bind; [exact IH | intros xs; apply exc_ret].
Qed.

Lemma exc_draw : exceptional draw.
Proof. intros w. exact I. Qed.

Lemma exc_client_call c : exceptional (client_call c).
Proof. intros w. unfold client_call. destruct (raises _ c); simpl; [reflexivity | exact I]. Qed.

Lemma exc_logger_error routine : exceptional (logger_error routine).
Proof. intros w. exact I. Qed.

Create HintDb exc discriminated.

#[local] Hint Resolve exc_draw exc_client_call exc_logger_error : exc.

(** One structural step on a goal [exceptional m]. *)
Ltac exc_step :=
  cbv zeta;
  first
    [ solve [auto with exc nocore]
    | lazymatch goal with
      | |- exceptional (ret _) => apply exc_ret
      | |- exceptional (raise _) => apply exc_raise; reflexivity
      | |- exceptional (bind _ _) => apply exc_bind; [|intros ?]
      | |- exceptional (try_except _ _) => apply exc_try_except; [|intros ?]
      | |- exceptional (for_each _ _) => apply exc_for_each; intros ?
      | |- exceptional (fold_each _ _ _) => apply exc_fold_each; intros ? ?
      | |- exceptional (repeatM _ _) => apply exc_repeatM
      | |- exceptional (if ?b then _ else _) => destruct b
      | |- exceptional (match ?x with _ => _ end) => destruct x
      end ].

Lemma exc_random_randint a b : exceptional (random_randint a b).
Proof. unfold random_randint. repeat exc_step. Qed.

Lemma exc_random_choice {A} (seq : list A) : exceptional (random_choice seq).
Proof. unfold random_choice. repeat exc_step. Qed.

Lemma exc_strptime_ymd text : exceptional (strptime_ymd text).
Proof. unfold strptime_ymd. repeat exc_step. Qed.

Lemma exc_int_mul_float n f : exceptional (int_mul_float n f).
Proof. unfold int_mul_float. repeat exc_step. Qed.

#[local] Hint Resolve exc_random_randint exc_random_choice exc_strptime_ymd
  exc_int_mul_float : exc.

Lemma exc_assign_profiles ids : forall profiles, exceptional (assign_profiles ids profiles).
Proof.
  induction ids as [|id rest IH]; intros profiles; simpl; [apply exc_ret|].
  unfold _random_date. repeat exc_step.
Qed.

#[local] Hint Resolve exc_assign_profiles : exc.

Lemma exc_device_population n : exceptional (device_population n).
Proof. unfold device_population, uuid4. repeat exc_step. Qed.

Lemma exc_generate_record ids profiles : exceptional (generate_record ids profiles).
Proof.
  unfold generate_record, _random_date, _random_datetime, _weighted_random_event.
  repeat exc_step.
Qed.

#[local] Hint Resolve exc_device_population exc_generate_record : exc.

Lemma exc_generate_dataframe num_rows : exceptional (generate_dataframe num_rows).
Proof.
  unfold generate_dataframe, generate_dataframe_locals, sort_values_event_time, column.
  repeat exc_step.
Qed.

Lemma exc_generate_data_batches {T} B (yield : T -> DataFrame -> M T) s0 :
  (forall s df, exceptional (yield s df)) ->
  exceptional (generate_data_batches B yield s0).
Proof.
  intros Hy. unfold generate_data_batches, generate_data_batches_locals, floordiv.
  repeat exc_step.
Qed.

Lemma exc_reraise {A} (m : M A) routine :
  exceptional m -> exceptional (try_except m (fun e => logger_error routine;; raise e)).
Proof.
  intros Hm w. unfold try_except. specialize (Hm w).
  destruct (m w) as [w' [a|e]]; simpl in *; [exact I|].
  rewrite Hm. simpl. exact Hm.
Qed.

Lemma exc_new_loader : exceptional new_loader.
Proof.
  unfold new_loader, connect. apply exc_bind; [|intros; apply exc_ret].
  apply exc_reraise. intros w.
  apply (exc_bind (client_call NewClient)); [apply exc_client_call|].
  intros _. repeat exc_step.
Qed.

Lemma exc_create_table self tbl dbopt : exceptional (create_table self tbl dbopt).
Proof.
  unfold create_table, create_database, show_table_structure.
  apply exc_bind; [apply exc_reraise, exc_client_call|]. intros _.
  apply exc_reraise. repeat exc_step.
Qed.

Lemma exc_verify_data_count self tbl dbopt : exceptional (verify_data_count self tbl dbopt).
Proof. unfold verify_data_count. repeat exc_step. Qed.

Lemma exc_insert_batch routine db tbl batch : exceptional (insert_batch routine db tbl batch).
Proof. unfold insert_batch. apply exc_reraise, exc_client_call. Qed.

#[local] Hint Resolve exc_new_loader exc_create_table exc_verify_data_count
  exc_insert_batch exc_generate_dataframe : exc.

Lemma exc_load_data self df tbl dbopt B : exceptional (load_data self df tbl dbopt B).
Proof. unfold load_data, floordiv, range3. repeat exc_step. Qed.

Lemma exc_load_data_batch self df tbl dbopt : exceptional (load_data_batch self df tbl dbopt).
Proof. unfold load_data_batch. repeat exc_step. Qed.

#[local] Hint Resolve exc_load_data exc_load_data_batch : exc.

Lemma exc_main_body args loader : exceptional (main_body args loader).
Proof.
  unfold main_body, whole_dataset_mode, streamed_mode, disconnect.
  destruct (select_mode (rows args)).
  - repeat exc_step.
  - apply exc_bind; [|intros; apply exc_ret].
    apply exc_bind; [repeat exc_step|]. intros l.
    apply exc_bind; [|intros; repeat exc_step].
    apply exc_generate_data_batches. intros s df. repeat exc_step.
Qed.

(** X9: a run of [main] ends in one of three ways: with the store's
    exception when the loader cannot be built, normally, or through
    [sys.exit(1)]; no other exception leaves the [try] block. *)
Theorem main_exit_status args w :
  let n := length (calls w) in
  let run := main args w in
  if raises n NewClient then run.2 = Raise (StoreError n)
  else if raises (S n) version_call then run.2 = Raise (StoreError (S n))
  else run.2 = Ok tt \/ run.2 = Raise (SystemExit 1).
Proof.
  intros n run. unfold run, main, bind. rewrite new_loader_spec. cbv zeta.
  fold n. unfold version_call.
  destruct (raises n NewClient); [reflexivity|].
  destruct (raises (S n) (Execute SelectVersion None)); [reflexivity|].
  unfold try_except.
  pose proof (exc_main_body args (mkLoader n)
    (mkWorld (rng_pos w)
       (calls w ++ [(NewClient, true); (Execute SelectVersion None, true)])
       (errors_logged w))) as Hexc.
  destruct (main_body args (mkLoader n) _) as [w' [[]|e]]; simpl in *.
  - left. reflexivity.
  - rewrite Hexc. right. reflexivity.
Qed.

(** ** Which calls a routine can issue *)

Lemma appends_refl P w : appends P w w.
Proof. exists []. split; [now rewrite app_nil_r | constructor]. Qed.

Lemma appends_trans P w1 w2 w3 : appends P w1 w2 -> appends P w2 w3 -> appends P w1 w3.
Proof.
  intros (t1 & H1 & F1) (t2 & H2 & F2). exists (t1 ++ t2). split.
  - now rewrite H2, H1, app_assoc.
  - apply Forall_app. auto.
Qed.

Lemma appends_same_calls P w w' : calls w' = calls w -> appends P w w'.
Proof. intros H. exists []. split; [now rewrite app_nil_r | constructor]. Qed.

Lemma appends_calls_since P w w' : appends P w w' -> Forall P (calls_since w w').
Proof. intros (tail & H & F). now rewrite (calls_since_app _ _ _ H). Qed.

Section Footprint.

Context (P : Call * bool -> Prop).

Lemma fp_ret {A} (a : A) : footprint P (ret a).
Proof. intros w. apply appends_refl. Qed.

Lemma fp_raise {A} e : footprint P (@raise A e).
Proof. intros w. apply appends_refl. Qed.

Lemma fp_bind {A B} (m : M A) (f : A -> M B) :
  footprint P m -> (forall a, footprint P (f a)) -> footprint P (bind m f).
Proof.
  intros Hm Hf w. unfold bind. specialize (Hm w).
  destruct (m w) as [w1 [a|e]]; simpl in *; [|exact Hm].
  eapply appends_trans; [exact Hm | apply Hf].
Qed.

Lemma fp_try_except {A} (m : M A) h :
  footprint P m -> (forall e, footprint P (h e)) -> footprint P (try_except m h).
Proof.
  intros Hm Hh w. unfold try_except. specialize (Hm w).
  destruct (m w) as [w1 [a|e]]; simpl in *; [exact Hm|].
  destruct (is_Exception e); [|exact Hm].
  eapply appends_trans; [exact Hm | apply Hh].
Qed.

Lemma fp_for_each {A} (xs : list A) body :
  (forall x, footprint P (body x)) -> footprint P (for_each xs body).
Proof.
  intros Hb. induction xs as [|x xs IH]; simpl; [apply fp_ret|].
  apply fp_bind; [apply Hb | intros _; exact IH].
Qed.

Lemma fp_fold_each {A T} (xs : list A) (body : T -> A -> M T) :
  (forall s x, footprint P (body s x)) -> forall s, footprint P (fold_each xs body s).
Proof.
  intros Hb. induction xs as [|x xs IH]; intros s; simpl; [apply fp_ret|].
  apply fp_bind; [apply Hb | intros s'; apply IH].
Qed.

Lemma fp_quiet {A} (m : M A) : quiet m -> footprint P m.
Proof. intros Hq w. apply appends_same_calls, Hq. Qed.

Lemma fp_client_call c : P (c, true) -> P (c, false) -> footprint P (client_call c).
Proof.
  intros Ht Hf w. unfold client_call.
  destruct (raises _ c); eexists [_]; (split; [reflexivity|]); repeat constructor; assumption.
Qed.

Lemma fp_logger_error routine : footprint P (logger_error routine).
Proof. intros w. now apply appends_same_calls. Qed.

End Footprint.

(** One structural step on a goal [footprint P m]; calls are checked
    against [P] by computation. *)
Ltac fp_step :=
  cbv zeta;
  lazymatch goal with
  | |- footprint _ (ret _) => apply fp_ret
  | |- footprint _ (raise _) => apply fp_raise
  | |- footprint _ (bind _ _) => apply fp_bind; [|intros ?]
  | |- footprint _ (try_except _ _) => apply fp_try_except; [|intros ?]
  | |- footprint _ (for_each _ _) => apply fp_for_each; intros ?
  | |- footprint _ (fold_each _ _ _) => apply fp_fold_each; intros ? ?
  | |- footprint _ (logger_error _) => apply fp_logger_error
  | |- footprint _ (client_call _) =>
      apply fp_client_call; cbv; first [reflexivity | discriminate | intros; congruence]
  | |- footprint _ (repeatM _ (generate_record _ _)) =>
      apply fp_quiet, quiet_repeatM, quiet_generate_record
  | |- footprint _ (device_population _) => apply fp_quiet, quiet_device_population
  | |- footprint _ (generate_dataframe _) => apply fp_quiet, quiet_generate_dataframe
  | |- footprint _ (if ?b then _ else _) => destruct b
  | |- footprint _ (match ?x with _ => _ end) => destruct x
  end.

Lemma fp_load_data_no_schema self df tbl dbopt B :
  footprint no_failed_schema_creation (load_data self df tbl dbopt B).
Proof.
  unfold load_data, floordiv, range3, insert_batch, verify_data_count. repeat fp_step.
Qed.

Lemma fp_streamed_loop_no_schema args loader :
  footprint no_failed_schema_creation
    (let* total_rows :=
       generate_data_batches (Some (batch_size args))
         (fun total_rows df_batch =>
            let total_rows := total_rows + df_len df_batch in
            load_data_batch loader df_batch (table args) (Some (database args));;
            ret total_rows)
         0 in
     verify_data_count loader (table args) (Some (database args));;
     disconnect loader;;
     ret total_rows).
Proof.
  unfold generate_data_batches, generate_data_batches_locals, floordiv, load_data_batch,
    insert_batch, verify_data_count, disconnect.
  repeat fp_step.
Qed.

Lemma create_table_spec self tbl dbopt w :
  create_table self tbl dbopt w =
  let db := database_or_default dbopt in
  let n := length (calls w) in
  if raises n (create_database_call db) then
    (mkWorld (rng_pos w) (calls w ++ [(create_database_call db, false)])
             (errors_logged w ++ ["create_database"%string]),
     Raise (StoreError n))
  else if raises (S n) (create_table_call db tbl) then
    (mkWorld (rng_pos w)
             (calls w ++ [(create_database_call db, true); (create_table_call db tbl, false)])
             (errors_logged w ++ ["create_table"%string]),
     Raise (StoreError (S n)))
  else
    (mkWorld (rng_pos w)
             (calls w ++ [(create_database_call db, true); (create_table_call db tbl, true);
                          (describe_call db tbl, negb (raises (S (S n)) (describe_call db tbl)))])
             (errors_logged w ++ (if raises (S (S n)) (describe_call db tbl)
                                  then ["show_table_structure"%string] else [])),
     Ok tt).
Proof.
  cbv zeta. unfold create_table, create_database, show_table_structure.
  unfold bind, try_except, client_call, logger_error, raise.
  unfold create_database_call, create_table_call, describe_call.
  set (db := database_or_default dbopt). set (n := length (calls w)).
  destruct (raises n _) eqn:H1; simpl; [reflexivity|].
  rewrite !length_app. simpl. fold n. rewrite Nat.add_1_r.
  destruct (raises (S n) _) eqn:H2; simpl.
  { now rewrite <- app_assoc. }
  rewrite !length_app. simpl. fold n. rewrite !Nat.add_1_r.
  destruct (raises (S (S n)) _) eqn:H3; simpl; rewrite <- !app_assoc; simpl;
    now rewrite ?app_nil_r.
Qed.

Lemma bind_run {A B} (m : M A) (f : A -> M B) w :
  bind m f w = match m w with
               | (w', Ok a) => f a w'
               | (w', Raise e) => (w', Raise e)
               end.
Proof. reflexivity. Qed.

(** The [try] block of [main] either sends no rejected [CREATE], or
    raises without having sent any insert. *)
Lemma main_body_schema args loader w :
  generate_only args = false ->
  let run := main_body args loader w in
  appends no_failed_schema_creation w run.1 \/
  (exists e, run.2 = Raise e /\ appends not_insert w run.1).
Proof.
  intros Hgo run. unfold run, main_body.
  destruct (select_mode (rows args)).
  - (* whole dataset *)
    unfold whole_dataset_mode. rewrite Hgo. simpl negb. cbv iota.
    rewrite bind_run.
    pose proof (quiet_generate_dataframe (Some (rows args)) w) as [Hq _].
    destruct (generate_dataframe (Some (rows args)) w) as [w2 [df|e]]; simpl in Hq.
    2:{ left. now apply appends_same_calls. }
    rewrite bind_run, create_table_spec. cbv zeta. rewrite Hq.
    destruct (raises _ (create_database_call _)).
    { right. eexists. split; [reflexivity|]. eexists [_]. simpl. rewrite ?Hq.
      split; [reflexivity|]. repeat constructor. }
    destruct (raises _ (create_table_call _ _)).
    { right. eexists. split; [reflexivity|]. eexists [_; _]. simpl. rewrite ?Hq.
      split; [reflexivity|]. repeat constructor. }
    left. eapply appends_trans.
    2:{ apply (fp_bind no_failed_schema_creation
                 (load_data loader df (table args) (Some (database args)) (batch_size args))
                 (fun _ => disconnect loader)).
        - apply fp_load_data_no_schema.
        - intros _. unfold disconnect. fp_step. }
    eexists [_; _; _]. simpl. rewrite ?Hq. split; [reflexivity|].
    repeat constructor; cbv; intros; congruence.
  - (* streamed *)
    unfold streamed_mode. rewrite Hgo. simpl negb. cbv iota.
    rewrite (bind_run _ (fun _ => ret tt)).
    rewrite (bind_run (let* l := new_loader in _)).
    rewrite (bind_run new_loader), new_loader_spec. cbv zeta.
    destruct (raises _ NewClient).
    { left. eexists [_]. simpl. split; [reflexivity|]. repeat constructor. cbv. discriminate. }
    destruct (raises _ (Execute SelectVersion None)).
    { left. eexists [_; _]. simpl. split; [reflexivity|].
      repeat constructor; cbv; discriminate. }
    rewrite bind_run, create_table_spec. cbv zeta. simpl calls. simpl rng_pos.
    simpl errors_logged.
    destruct (raises _ (create_database_call _)).
    { right. eexists. split; [reflexivity|]. eexists [_; _; _]. simpl.
      rewrite <- app_assoc. split; [reflexivity|]. repeat constructor. }
    destruct (raises _ (create_table_call _ _)).
    { right. eexists. split; [reflexivity|]. eexists [_; _; _; _]. simpl.
      rewrite <- app_assoc. split; [reflexivity|]. repeat constructor. }
    left. unfold ret at 1. eapply appends_trans.
    2:{ apply (fp_bind no_failed_schema_creation _ (fun _ => ret tt));
          [apply fp_streamed_loop_no_schema | intros; apply fp_ret]. }
    eexists [_; _; _; _; _]. simpl. rewrite <- app_assoc. split; [reflexivity|].
    repeat constructor; cbv; intros; congruence.
Qed.

(** X10: with loading enabled, a rejected [CREATE DATABASE] or [CREATE
    TABLE] ends [main] through [sys.exit(1)] and no insert has been sent,
    in the whole-dataset and in the streamed mode alike. *)
Theorem schema_failure_aborts_before_insert args w :
  generate_only args = false ->
  let run := main args w in
  Exists failed_schema_creation (calls_since w run.1) ->
  run.2 = Raise (SystemExit 1) /\ Forall not_insert (calls_since w run.1).
Proof.
  intros Hgo run Hfailed.
  assert (Hno : forall w', appends no_failed_schema_creation w w' ->
                           ~ Exists failed_schema_creation (calls_since w w')).
  { intros w' Happ Hex. apply appends_calls_since in Happ.
    apply Exists_exists in Hex as (c & Hc & Hs & Hf).
    rewrite Forall_forall in Happ. specialize (Happ c Hc Hs). congruence. }
  revert Hfailed. unfold run, main, bind. rewrite new_loader_spec. cbv zeta.
  destruct (raises _ NewClient).
  { intros Hex. exfalso. revert Hex. apply Hno. eexists [_]. simpl.
    split; [reflexivity|]. repeat constructor. cbv. discriminate. }
  destruct (raises _ (Execute SelectVersion None)).
  { intros Hex. exfalso. revert Hex. apply Hno. eexists [_; _]. simpl.
    split; [reflexivity|]. repeat constructor; cbv; discriminate. }
  set (w1 := mkWorld _ _ _). set (l := mkLoader _).
  assert (Hw1 : forall Q, (Q (NewClient, true) /\ Q (Execute SelectVersion None, true)) ->
                          appends Q w w1).
  { intros Q [H1 H2]. eexists [_; _]. split; [reflexivity|]. repeat constructor; assumption. }
  pose proof (main_body_schema args l w1 Hgo) as Hbody. cbv zeta in Hbody.
  pose proof (exc_main_body args l w1) as Hexc.
  unfold try_except.
  destruct (main_body args l w1) as [w' [[]|e]]; simpl in *.
  - intros Hex. exfalso. revert Hex. apply Hno.
    destruct Hbody as [Happ|(e & He & _)]; [|discriminate].
    eapply appends_trans; [|exact Happ]. apply Hw1. split; cbv; discriminate.
  - rewrite Hexc. simpl. intros Hex.
    destruct Hbody as [Happ|(e' & _ & Happ)].
    + exfalso. revert Hex. apply Hno.
      eapply appends_trans; [|exact Happ]. apply Hw1. split; cbv; discriminate.
    + split; [reflexivity|]. apply appends_calls_since.
      eapply appends_trans; [|exact Happ]. apply Hw1. split; reflexivity.
Qed.

(** X8: below the threshold a generate-only run calls the store only to
    build the loader: it creates the client and asks for its version, and
    sends nothing else, whatever the generation does. *)
Theorem generate_only_whole_dataset_store_calls args w :
  rows args <= 1000000 -> generate_only args = true ->
  let n := length (calls w) in
  let run := main args w in
  calls run.1 = calls w ++
    (if raises n NewClient then [(NewClient, false)]
     else [(NewClient, true); (version_call, negb (raises (S n) version_call))]).
Proof.
  intros Hrows Hgo n run. unfold run, main, bind. rewrite new_loader_spec. cbv zeta.
  fold n. unfold version_call.
  destruct (raises n NewClient); [reflexivity|].
  destruct (raises (S n) (Execute SelectVersion None)); [reflexivity|].
  set (w1 := mkWorld _ _ _).
  pose proof (whole_dataset_generate_only_quiet args (mkLoader n) w1 Hgo) as [Hq _].
  unfold try_except, main_body, select_mode.
  replace (rows args <=? 1000000) with true by (symmetry; apply Z.leb_le; lia).
  destruct (whole_dataset_mode args (mkLoader n) w1) as [w' [[]|e]]; simpl in *.
  - exact Hq.
  - destruct (is_Exception e); simpl; exact Hq.
Qed.

(** ** Runs that follow the world *)

Lemma sat_ret {A} E (Q : A -> World -> Prop) a w : Q a w -> sat E Q (ret a) w.
Proof. intros H. exact H. Qed.

Lemma sat_eq {A} E (Q : A -> World -> Prop) (m : M A) w w' a :
  m w = (w', Ok a) -> Q a w' -> sat E Q m w.
Proof. intros Hrun HQ. unfold sat. now rewrite Hrun. Qed.

Lemma sat_bind {A B} E (P : A -> World -> Prop) (Q : B -> World -> Prop)
    (m : M A) (f : A -> M B) w :
  sat E P m w -> (forall a w', P a w' -> sat E Q (f a) w') -> sat E Q (bind m f) w.
Proof.
  unfold sat, bind. intros Hm Hf.
  destruct (m w) as [w' [a|e]]; [apply (Hf a w' Hm) | exact Hm].
Qed.

Lemma sat_returns {A} (Q : A -> World -> Prop) (m : M A) w :
  sat never_raised Q m w -> exists w' a, m w = (w', Ok a) /\ Q a w'.
Proof.
  unfold sat. destruct (m w) as [w' [a|e]]; [eauto | intros []].
Qed.

(** A routine that leaves the store alone and always returns. *)
Lemma sat_quiet_outcome {A} (Q : A -> Prop) (m : M A) w :
  quiet m -> outcome no_exn Q m ->
  sat never_raised (fun a w' => Q a /\ same_store w w') m w.
Proof.
  intros Hq Ho. unfold sat. specialize (Hq w). specialize (Ho w).
  destruct (m w) as [w' [a|e]]; simpl in *; [split; assumption | destruct Ho].
Qed.

Lemma sat_fold_each {A T} E (Inv : nat -> T -> World -> Prop) (body : T -> A -> M T) xs :
  forall k s w,
    (forall i x s w, xs !! i = Some x -> Inv (k + i)%nat s w ->
                     sat E (Inv (S (k + i))) (body s x) w) ->
    Inv k s w ->
    sat E (Inv (k + length xs)%nat) (fold_each xs body s) w.
Proof.
  induction xs as [|x xs IH]; intros k s w Hbody Hs; simpl.
  - apply sat_ret. rewrite Nat.add_0_r. exact Hs.
  - eapply sat_bind.
    + specialize (Hbody 0%nat x s w eq_refl). rewrite Nat.add_0_r in Hbody. exact (Hbody Hs).
    + intros s' w' Hs'. replace (k + S (length xs))%nat with (S k + length xs)%nat by lia.
      apply IH; [|exact Hs'].
      intros i y t w0 Hi Ht. replace (S k + i)%nat with (k + S i)%nat in * by lia.
      apply (Hbody (S i) y t w0 Hi Ht).
Qed.

(** ** Complete runs against a store that accepts every call *)

Section HealthyRuns.

Hypothesis healthy : forall i c, raises i c = false.

Lemma client_call_healthy c w : client_call c w = (after_call w c true, Ok tt).
Proof. unfold client_call. now rewrite healthy. Qed.

Lemma new_loader_healthy w :
  new_loader w
  = (mkWorld (rng_pos w) (calls w ++ [accepted NewClient; accepted version_call])
             (errors_logged w),
     Ok (mkLoader (length (calls w)))).
Proof. rewrite new_loader_spec. cbv zeta. now rewrite !healthy. Qed.

Lemma create_table_healthy self tbl dbopt w :
  create_table self tbl dbopt w
  = (mkWorld (rng_pos w)
       (calls w ++ map accepted [create_database_call (database_or_default dbopt);
                                 create_table_call (database_or_default dbopt) tbl;
                                 describe_call (database_or_default dbopt) tbl])
       (errors_logged w),
     Ok tt).
Proof. rewrite create_table_spec. cbv zeta. rewrite !healthy. simpl. now rewrite app_nil_r. Qed.

Lemma verify_data_count_healthy self tbl dbopt w :
  verify_data_count self tbl dbopt w
  = (mkWorld (rng_pos w)
       (calls w ++ map accepted [count_call (database_or_default dbopt) tbl;
                                 event_counts_call (database_or_default dbopt) tbl])
       (errors_logged w),
     Ok tt).
Proof.
  unfold verify_data_count, try_except, bind, client_call. rewrite !healthy. simpl.
  now rewrite <- app_assoc.
Qed.

Lemma first_failing_healthy i db tbl batches : first_failing i db tbl batches = None.
Proof.
  revert i. induction batches as [|b rest IH]; intros i; simpl; [reflexivity|].
  now rewrite healthy, IH.
Qed.

Lemma load_data_healthy self r data tbl dbopt B w :
  1 <= B ->
  load_data self (pd_DataFrame (r :: data)) tbl dbopt B w
  = (mkWorld (rng_pos w)
       (calls w ++ map accepted
          (map (insert_call (database_or_default dbopt) tbl) (load_batches (r :: data) B)
           ++ [count_call (database_or_default dbopt) tbl;
               event_counts_call (database_or_default dbopt) tbl]))
       (errors_logged w),
     Ok tt).
Proof.
  intros HB. rewrite load_data_unfold by exact HB. rewrite bind_run, insert_loop.
  rewrite first_failing_healthy, verify_data_count_healthy. simpl.
  rewrite map_app, map_map, app_assoc. reflexivity.
Qed.

Lemma load_data_batch_healthy self r data tbl dbopt w :
  load_data_batch self (pd_DataFrame (r :: data)) tbl dbopt w
  = (after_call w (insert_call (database_or_default dbopt) tbl (r :: data)) true, Ok tt).
Proof.
  unfold load_data_batch, insert_batch, try_except.
  cbn [pd_DataFrame df_empty df_columns df_records event_columns].
  fold (insert_call (database_or_default dbopt) tbl (r :: data)).
  now rewrite client_call_healthy.
Qed.

Lemma committed_rows_accepted db tbl (batches : list (list EventRecord)) :
  concat (map (rows_of_call db tbl) (map accepted (map (insert_call db tbl) batches)))
  = map to_row (concat batches).
Proof. rewrite (map_map (insert_call db tbl) accepted). apply committed_rows_inserts. Qed.

Lemma outcome_generate_dataframe_frame num_rows :
  outcome any_exn
    (fun df => exists r rest, df = pd_DataFrame (r :: rest))
    (generate_dataframe num_rows).
Proof.
  unfold generate_dataframe, generate_dataframe_locals.
  apply (outcome_bind any_exn
           (fun '(_, _, df) => exists r rest, df = pd_DataFrame (r :: rest)));
    [|intros [[ids profiles] df] H; apply outcome_ret; exact H].
  eapply outcome_bind; [apply (outcome_device_population any_exn); right; intros; exact I|].
  intros [ids profiles] _. eapply outcome_bind.
  { apply (outcome_repeatM any_exn (fun _ => True)). intros w. now destruct (_ w).2. }
  intros data _. destruct data as [|r data].
  - apply (outcome_bind any_exn (fun _ : DataFrame => False)); [|intros a []].
    intros w. exact I.
  - unfold sort_values_event_time. eapply outcome_bind.
    { eapply outcome_bind; [apply (outcome_column any_exn); left; reflexivity|].
      intros _ _.
      apply (outcome_ret any_exn (fun df => exists r' rest, df = pd_DataFrame (r' :: rest))).
      cbn [pd_DataFrame df_columns df_records].
      destruct (sort_by_time (r :: data)) as [|r' rest] eqn:Hs.
      - pose proof (sort_by_time_length (r :: data)) as Hl. rewrite Hs in Hl. discriminate.
      - exists r', rest. reflexivity. }
    intros df Hdf.
    do 4 (eapply outcome_bind;
          [apply (outcome_column any_exn); right; intros; exact I | intros _ _]).
    apply outcome_ret. exact Hdf.
Qed.

(** X11: with loading enabled, a well-formed configuration whose dates
    lie in the years 1000 to 9999 and a store that accepts every call, a
    whole-dataset run for [n] rows returns normally; it connects, creates
    the schema, sends the [n] generated records in order of event time,
    slice after slice, verifies and disconnects, and the table holds
    these [n] rows more than before. *)
Theorem whole_dataset_run_loads_every_row args w :
  well_formed -> four_digit_years ->
  1 <= rows args <= 1000000 -> 1 <= batch_size args ->
  generate_only args = false ->
  let db := database args in
  let tbl := table args in
  let run := main args w in
  run.2 = Ok tt /\
  exists records,
    Z.of_nat (length records) = rows args /\
    Sorted by_time records /\
    calls run.1 = calls w ++ map accepted
      ([NewClient; version_call; create_database_call db; create_table_call db tbl;
        describe_call db tbl]
       ++ map (insert_call db tbl) (load_batches records (batch_size args))
       ++ [count_call db tbl; event_counts_call db tbl; ClientDisconnect]) /\
    committed_rows db tbl run.1 = committed_rows db tbl w ++ map to_row records.
Proof.
  intros Hwf Hyears Hrows HB Hgo db tbl run.
  pose proof float_overflow_bound_large as Hbound.
  assert (Hready : generable (rows args)) by (apply generable_below; auto; lia).
  assert (Hrun : exists records rng,
    Z.of_nat (length records) = rows args /\ Sorted by_time records /\
    run = (mkWorld rng
             (calls w ++ map accepted
                ([NewClient; version_call; create_database_call db; create_table_call db tbl;
                  describe_call db tbl]
                 ++ map (insert_call db tbl) (load_batches records (batch_size args))
                 ++ [count_call db tbl; event_counts_call db tbl; ClientDisconnect]))
             (errors_logged w),
           Ok tt)).
  { unfold run, main. rewrite bind_run, new_loader_healthy.
    unfold try_except, main_body, select_mode.
    replace (rows args <=? 1000000) with true by (symmetry; apply Z.leb_le; lia).
    unfold whole_dataset_mode. rewrite Hgo. simpl negb. cbv iota.
    rewrite bind_run.
    set (w1 := mkWorld _ _ _). set (l := mkLoader _).
    destruct (generate_dataframe_sorted (rows args) Hready (proj1 Hrows) w1)
      as (w2 & df & Hgen & Hlen & Hsorted).
    pose proof (quiet_generate_dataframe (Some (rows args)) w1) as [Hq1 Hq2].
    destruct (outcome_Ok _ _ _ _ _ _ (outcome_generate_dataframe_frame (Some (rows args))) Hgen)
      as (r & rest & Hdf).
    rewrite Hgen in *. simpl in Hq1, Hq2.
    rewrite Hdf in Hlen, Hsorted. rewrite df_records_pd_DataFrame in Hlen, Hsorted.
    exists (r :: rest), (rng_pos w2). split; [exact Hlen|]. split; [exact Hsorted|].
    rewrite bind_run, create_table_healthy, bind_run, Hdf.
    rewrite load_data_healthy by exact HB.
    unfold disconnect. rewrite client_call_healthy. unfold after_call. simpl.
    rewrite Hq1, Hq2. unfold w1. simpl. fold db tbl.
    rewrite <- !app_assoc. simpl. rewrite !map_app. simpl.
    rewrite <- !app_assoc. reflexivity. }
  destruct Hrun as (records & rng & Hlen & Hsorted & ->). simpl.
  split; [reflexivity|]. exists records. split; [exact Hlen|]. split; [exact Hsorted|].
  split; [reflexivity|].
  rewrite committed_rows_app. unfold committed_rows. f_equal.
  destruct (load_batches_partition records (batch_size args) HB) as [Hconcat _].
  cbn [map concat]. unfold accepted at 1 2 3 4 5. cbn [rows_of_call version_call
    create_database_call create_table_call describe_call app].
  rewrite !map_app, !concat_app, committed_rows_accepted, Hconcat.
  simpl. now rewrite app_nil_r.
Qed.

Lemma streamed_loop_healthy loader tbl db B w :
  generable (cfg_num_rows cfg) -> 0 <= cfg_num_rows cfg -> 1 <= B ->
  sat never_raised
    (fun total w' =>
       total = cfg_num_rows cfg /\
       exists batches : list (list EventRecord),
         map (fun b => Z.of_nat (length b)) batches = batch_sizes (cfg_num_rows cfg) B /\
         calls w' = calls w ++ map accepted (map (insert_call db tbl) batches) /\
         errors_logged w' = errors_logged w)
    (generate_data_batches (Some B)
       (fun total_rows df_batch =>
          let total_rows := total_rows + df_len df_batch in
          load_data_batch loader df_batch tbl (Some db);;
          ret total_rows)
       0)
    w.
Proof.
  intros (Hwf & Hyears & Hfits) Hn HB. set (n := cfg_num_rows cfg) in *.
  pose proof (Z.mul_succ_div_gt (n + B - 1) B ltac:(lia)) as Hhi.
  pose proof (Z.mul_div_le (n + B - 1) B ltac:(lia)) as Hlo.
  assert (Hnb : 0 <= (n + B - 1) / B) by (apply Z.div_pos; lia).
  set (Inv := fun (k : nat) (total : Z) (w' : World) =>
    total = Z.min n (Z.of_nat k * B) /\
    exists batches : list (list EventRecord),
      map (fun b => Z.of_nat (length b)) batches
      = map (fun j => Z.min B (n - Z.of_nat j * B)) (seq 0 k) /\
      calls w' = calls w ++ map accepted (map (insert_call db tbl) batches) /\
      errors_logged w' = errors_logged w).
  unfold generate_data_batches, generate_data_batches_locals. simpl default. fold n.
  apply (sat_bind never_raised
           (fun '(_, _, total) w' => Inv (Z.to_nat ((n + B - 1) / B)) total w')).
  2:{ intros [[ids profiles] total] w' (Htotal & batches & Hsizes & Hcalls & Herrs).
      apply sat_ret. split; [rewrite Htotal; nia|].
      exists batches. rewrite Hsizes, batch_lengths by lia. auto. }
  apply (sat_bind never_raised (fun nb w' => nb = (n + B - 1) / B /\ w' = w)).
  { unfold floordiv. replace (B =? 0) with false by (symmetry; apply Z.eqb_neq; lia).
    apply sat_ret. auto. }
  intros ? ? [-> ->].
  eapply sat_bind.
  { apply sat_quiet_outcome;
      [apply quiet_device_population
      | apply (outcome_device_population no_exn n (or_introl (conj Hwf Hfits)))]. }
  intros [ids profiles] w1 [(Hlen & _ & Hpop) [Hc1 He1]].
  eapply sat_bind.
  { pose proof (sat_fold_each never_raised Inv
      (fun s batch_num =>
         let* batch_data :=
           repeatM (Z.to_nat (Z.min B (n - batch_num * B))) (generate_record ids profiles) in
         let total_rows := s + df_len (pd_DataFrame batch_data) in
         load_data_batch loader (pd_DataFrame batch_data) tbl (Some db);;
         ret total_rows)
      (range ((n + B - 1) / B)) 0%nat 0 w1) as Hloop.
    simpl in Hloop. apply Hloop; clear Hloop.
    - intros i x s w2 Hi (Hs & batches & Hsizes & Hcalls & Herrs).
      apply range_lookup in Hi as [-> Hi].
      eapply sat_bind.
      { apply sat_quiet_outcome.
        - apply quiet_repeatM, quiet_generate_record.
        - apply outcome_repeatM. apply (outcome_generate_record no_exn ids profiles).
          left. split; [|split; [exact Hpop | split; [apply Hwf | apply Hyears]]].
          intros ->. pose proof (unique_devices_ge n). simpl in Hlen. lia. }
      intros data w3 [[Hdata _] [Hc3 He3]]. cbv beta zeta.
      assert (Hrem : Z.of_nat i * B < n) by nia.
      destruct data as [|r rest]; [simpl in Hdata; lia|].
      unfold sat. rewrite bind_run, load_data_batch_healthy. simpl database_or_default.
      unfold ret, Inv, after_call. simpl calls. simpl errors_logged.
      split.
      + rewrite df_len_pd_DataFrame, Hdata, Hs. nia.
      + exists (batches ++ [r :: rest]). split; [|split].
        * rewrite map_app, seq_S, map_app, Hsizes. cbn [map]. do 2 f_equal.
          rewrite Hdata. simpl Nat.add. lia.
        * rewrite Hc3, Hcalls, !map_app, <- app_assoc. reflexivity.
        * now rewrite He3.
    - unfold Inv. split; [lia|]. exists []. simpl. rewrite app_nil_r. auto. }
  intros total w4 Hinv. apply sat_ret. rewrite range_length in Hinv. exact Hinv.
Qed.

Lemma length_committed_accepted db tbl (batches : list (list EventRecord)) :
  Z.of_nat (length (concat (map (rows_of_call db tbl)
                              (map accepted (map (insert_call db tbl) batches)))))
  = sum_list (map (fun b => Z.of_nat (length b)) batches).
Proof.
  rewrite committed_rows_accepted, length_map.
  induction batches as [|b rest IH]; simpl; [reflexivity|].
  rewrite length_app, Nat2Z.inj_add, IH. reflexivity.
Qed.

(** X12: with loading enabled, a well-formed configuration whose dates
    lie in the years 1000 to 9999, [0 <= n < 2 ^ 1024 - 2 ^ 970] rows
    configured and a store that accepts every call, a streamed run
    returns normally.  It builds a second loader before creating the
    schema, sends one insert per generated batch, of the sizes
    [B, ..., B, n mod B], verifies and disconnects once; the table then
    holds [n] rows more than before. *)
Theorem streamed_run_loads_configured_rows args w :
  well_formed -> four_digit_years -> 0 <= cfg_num_rows cfg < float_overflow_bound ->
  1000000 < rows args -> 1 <= batch_size args ->
  generate_only args = false ->
  let db := database args in
  let tbl := table args in
  let run := main args w in
  run.2 = Ok tt /\
  exists batches : list (list EventRecord),
    map (fun b => Z.of_nat (length b)) batches
    = batch_sizes (cfg_num_rows cfg) (batch_size args) /\
    calls run.1 = calls w ++ map accepted
      ([NewClient; version_call; NewClient; version_call;
        create_database_call db; create_table_call db tbl; describe_call db tbl]
       ++ map (insert_call db tbl) batches
       ++ [count_call db tbl; event_counts_call db tbl; ClientDisconnect]) /\
    Z.of_nat (length (committed_rows db tbl run.1))
    = Z.of_nat (length (committed_rows db tbl w)) + cfg_num_rows cfg.
Proof.
  intros Hwf Hyears [Hn Hbound] Hrows HB Hgo db tbl run.
  assert (Hgen : generable (cfg_num_rows cfg)) by (apply generable_below; auto; lia).
  assert (Hrun : exists (batches : list (list EventRecord)) rng,
    map (fun b => Z.of_nat (length b)) batches
    = batch_sizes (cfg_num_rows cfg) (batch_size args) /\
    run = (mkWorld rng
             (calls w ++ map accepted
                ([NewClient; version_call; NewClient; version_call;
                  create_database_call db; create_table_call db tbl; describe_call db tbl]
                 ++ map (insert_call db tbl) batches
                 ++ [count_call db tbl; event_counts_call db tbl; ClientDisconnect]))
             (errors_logged w),
           Ok tt)).
  { unfold run, main. rewrite bind_run, new_loader_healthy.
    unfold try_except, main_body, select_mode.
    replace (rows args <=? 1000000) with false by (symmetry; apply Z.leb_gt; lia).
    unfold streamed_mode. rewrite Hgo. simpl negb. cbv iota.
    rewrite (bind_run _ (fun _ => ret tt)).
    rewrite (bind_run (let* l := new_loader in _)).
    rewrite (bind_run new_loader), new_loader_healthy.
    rewrite bind_run, create_table_healthy. unfold ret at 1.
    cbn [rng_pos calls errors_logged]. simpl database_or_default. fold db tbl.
    rewrite bind_run.
    match goal with
    | |- context [generate_data_batches _ _ _ ?w0] =>
        destruct (sat_returns _ _ _
          (streamed_loop_healthy (mkLoader (length (calls w ++
              [accepted NewClient; accepted version_call]))) tbl db (batch_size args) w0
             Hgen Hn HB))
          as (w4 & total & Hloop & _ & batches & Hsizes & Hcalls & Herrs)
    end.
    cbv zeta in Hloop. rewrite Hloop.
    rewrite bind_run, verify_data_count_healthy.
    unfold disconnect. rewrite bind_run, client_call_healthy. unfold ret, after_call.
    cbn [rng_pos calls errors_logged fst snd]. simpl database_or_default. fold db tbl.
    exists batches, (rng_pos w4). split; [exact Hsizes|].
    rewrite Hcalls, Herrs. cbn [rng_pos calls errors_logged].
    rewrite <- !app_assoc. simpl. rewrite !map_app. simpl.
    rewrite <- ?app_assoc. reflexivity. }
  destruct Hrun as (batches & rng & Hsizes & ->). simpl.
  split; [reflexivity|]. exists batches. split; [exact Hsizes|]. split; [reflexivity|].
  rewrite committed_rows_app. unfold committed_rows.
  cbn [map concat]. unfold accepted at 1 2 3 4 5 6 7. cbn [rows_of_call version_call
    create_database_call create_table_call describe_call app].
  rewrite !map_app, !concat_app, !length_app, !Nat2Z.inj_add.
  rewrite length_committed_accepted, Hsizes, batch_sizes_sum by lia.
  simpl. lia.
Qed.




End HealthyRuns.

(** ** A rejected insert ends the run *)

Lemma stopped_after_appends w w1 w2 :
  appends no_rejected_insert w w1 -> stopped_at_insert w1 w2 -> stopped_at_insert w w2.
Proof.
  intros (t & Ht & Ft) (pre & c & Hc & Fpre & Hrej).
  exists (t ++ pre), c. split; [|split; [apply Forall_app; auto | exact Hrej]].
  now rewrite Hc, Ht, <- !app_assoc.
Qed.

Lemma ff_ret {A} (a : A) : fail_fast (ret a).
Proof. intros w. apply appends_refl. Qed.

Lemma ff_raise {A} e : fail_fast (@raise A e).
Proof. intros w. left. apply appends_refl. Qed.

Lemma ff_bind {A B} (m : M A) (f : A -> M B) :
  fail_fast m -> (forall a, fail_fast (f a)) -> fail_fast (bind m f).
Proof.
  intros Hm Hf w. unfold bind. specialize (Hm w).
  destruct (m w) as [w1 [a|e]]; [|exact Hm].
  specialize (Hf a w1). destruct (f a w1) as [w2 [b|e]].
  - eapply appends_trans; eassumption.
  - destruct Hf as [Happ|Hstop].
    + left. eapply appends_trans; eassumption.
    + right. eapply stopped_after_appends; eassumption.
Qed.

Lemma ff_footprint {A} (m : M A) : footprint no_rejected_insert m -> fail_fast m.
Proof.
  intros Hfp w. specialize (Hfp w). destruct (m w) as [w' [a|e]]; simpl in Hfp; auto.
Qed.

Lemma ff_reraise {A} (m : M A) routine :
  fail_fast m -> fail_fast (try_except m (fun e => logger_error routine;; raise e)).
Proof.
  intros Hm w. unfold try_except. specialize (Hm w).
  destruct (m w) as [w1 [a|e]]; [exact Hm|].
  destruct (is_Exception e); [|exact Hm]. simpl.
  destruct Hm as [(t & Ht & Ft)|(pre & c & Hc & Fpre & Hrej)].
  - left. exists t. auto.
  - right. exists pre, c. auto.
Qed.

Lemma ff_for_each {A} (xs : list A) body :
  (forall x, fail_fast (body x)) -> fail_fast (for_each xs body).
Proof.
  intros Hb. induction xs as [|x xs IH]; simpl; [apply ff_ret|].
  apply ff_bind; [apply Hb | intros _; exact IH].
Qed.

Lemma ff_fold_each {A T} (xs : list A) (body : T -> A -> M T) :
  (forall s x, fail_fast (body s x)) -> forall s, fail_fast (fold_each xs body s).
Proof.
  intros Hb. induction xs as [|x xs IH]; intros s; simpl; [apply ff_ret|].
  apply ff_bind; [apply Hb | intros s'; apply IH].
Qed.

Lemma ff_insert_batch routine db tbl batch : fail_fast (insert_batch routine db tbl batch).
Proof.
  unfold insert_batch. apply ff_reraise. intros w. unfold client_call.
  destruct (raises _ _).
  - right. exists [], (Execute (InsertInto db tbl) (Some (map to_row batch)), false).
    split; [reflexivity|]. split; [constructor | split; reflexivity].
  - eexists [_]. split; [reflexivity|]. constructor; [|constructor]. intros _. reflexivity.
Qed.

Lemma fp_verify_data_count P self tbl dbopt :
  (forall c ok, reporting_query c = true -> P (c, ok)) ->
  footprint P (verify_data_count self tbl dbopt).
Proof.
  intros HP. unfold verify_data_count.
  apply fp_try_except; [|intros e; apply fp_logger_error].
  apply fp_bind; [|intros _]; apply fp_client_call; apply HP; reflexivity.
Qed.

Lemma ff_verify_data_count self tbl dbopt : fail_fast (verify_data_count self tbl dbopt).
Proof.
  apply ff_footprint, fp_verify_data_count. intros c ok Hc Hins.
  destruct c as [|[] rows|]; discriminate.
Qed.

Lemma ff_load_data self df tbl dbopt B : fail_fast (load_data self df tbl dbopt B).
Proof.
  unfold load_data, floordiv, range3.
  destruct (df_empty df); [apply ff_ret|].
  apply ff_bind; [destruct (_ =? 0); [apply ff_raise | apply ff_ret]|]. intros _.
  apply ff_bind; [destruct (_ =? 0); [apply ff_raise | apply ff_ret]|]. intros starts.
  apply ff_bind; [|intros _; apply ff_verify_data_count].
  apply ff_for_each. intros i. apply ff_insert_batch.
Qed.

Lemma ff_load_data_batch self df tbl dbopt : fail_fast (load_data_batch self df tbl dbopt).
Proof.
  unfold load_data_batch. destruct (df_empty df); [apply ff_ret | apply ff_insert_batch].
Qed.

Lemma fp_new_loader_no_insert : footprint no_rejected_insert new_loader.
Proof.
  intros w. rewrite new_loader_spec. cbv zeta.
  destruct (raises _ NewClient); [|destruct (raises _ _)]; simpl;
    [eexists [_] | eexists [_; _] | eexists [_; _]];
    (split; [reflexivity|]); repeat constructor; cbv; discriminate.
Qed.

Lemma fp_create_table_no_insert self tbl dbopt :
  footprint no_rejected_insert (create_table self tbl dbopt).
Proof.
  intros w. rewrite create_table_spec. cbv zeta.
  destruct (raises _ (create_database_call _));
    [|destruct (raises _ (create_table_call _ _))]; simpl;
    [eexists [_] | eexists [_; _] | eexists [_; _; _]];
    (split; [reflexivity|]); repeat constructor; cbv; discriminate.
Qed.

Lemma ff_main_body args loader : fail_fast (main_body args loader).
Proof.
  unfold main_body. destruct (select_mode (rows args)).
  - unfold whole_dataset_mode.
    apply ff_bind; [apply ff_footprint, fp_quiet, quiet_generate_dataframe|]. intros df.
    destruct (negb (generate_only args)); [|apply ff_ret].
    apply ff_bind; [apply ff_footprint, fp_create_table_no_insert|]. intros _.
    apply ff_bind; [apply ff_load_data|]. intros _.
    unfold disconnect. apply ff_footprint, fp_client_call; cbv; discriminate.
  - apply ff_bind; [|intros; apply ff_ret]. unfold streamed_mode.
    apply ff_bind.
    { destruct (negb (generate_only args)); [|apply ff_ret].
      apply ff_bind; [apply ff_footprint, fp_new_loader_no_insert|]. intros l.
      apply ff_bind; [apply ff_footprint, fp_create_table_no_insert|]. intros _.
      apply ff_ret. }
    intros l. apply ff_bind.
    { unfold generate_data_batches, generate_data_batches_locals, floordiv.
      apply ff_bind; [|intros [[? ?] ?]; apply ff_ret].
      apply ff_bind; [destruct (_ =? 0); [apply ff_raise | apply ff_ret]|]. intros nb.
      apply ff_bind; [apply ff_footprint, fp_quiet, quiet_device_population|].
      intros [ids profiles].
      apply ff_bind; [|intros; apply ff_ret].
      apply ff_fold_each. intros s x.
      apply ff_bind;
        [apply ff_footprint, fp_quiet, quiet_repeatM, quiet_generate_record|].
      intros data. cbv zeta.
      apply ff_bind; [apply ff_load_data_batch | intros; apply ff_ret]. }
    intros total. apply ff_bind; [apply ff_verify_data_count|]. intros _.
    apply ff_bind; [|intros; apply ff_ret].
    unfold disconnect. apply ff_footprint, fp_client_call; cbv; discriminate.
Qed.

(** X14: whenever the store rejects an insert, [main] ends through
    [sys.exit(1)] and the rejected insert is the last call of the run: it
    is not sent again, no later batch is sent, and neither verification
    nor disconnection follows. *)
Theorem rejected_insert_ends_the_run args w :
  let run := main args w in
  Exists rejected_insert (calls_since w run.1) ->
  run.2 = Raise (SystemExit 1) /\
  exists pre c, calls_since w run.1 = pre ++ [c] /\
                Forall no_rejected_insert pre /\ rejected_insert c.
Proof.
  intros run Hrej.
  assert (Hno : forall w', appends no_rejected_insert w w' ->
                           ~ Exists rejected_insert (calls_since w w')).
  { intros w' Happ Hex. apply appends_calls_since in Happ.
    apply Exists_exists in Hex as (c & Hc & Hi & Hf).
    rewrite Forall_forall in Happ. specialize (Happ c Hc Hi). congruence. }
  revert Hrej. unfold run, main. rewrite bind_run.
  pose proof (fp_new_loader_no_insert w) as Hloader.
  destruct (new_loader w) as [w1 [l|e]]; simpl in Hloader.
  2:{ intros Hex. exfalso. revert Hex. now apply Hno. }
  pose proof (ff_main_body args l w1) as Hbody.
  pose proof (exc_main_body args l w1) as Hexc.
  unfold try_except.
  destruct (main_body args l w1) as [w' [[]|e]]; simpl in *.
  - intros Hex. exfalso. revert Hex. apply Hno. eapply appends_trans; eassumption.
  - rewrite Hexc. simpl. intros Hex. destruct Hbody as [Happ|Hstop].
    + exfalso. revert Hex. apply Hno. eapply appends_trans; eassumption.
    + split; [reflexivity|].
      destruct (stopped_after_appends _ _ _ Hloader Hstop) as (pre & c & Hc & Fpre & Hc').
      exists pre, c. split; [|auto]. now apply calls_since_app.
Qed.

End Pipeline.

(** * Runs on the sample inputs *)

(** Above [2 ^ 52] the product with [0.1] can round up to the next
    integer: the bound of [unique_devices_floor] is not an artefact. *)
Example tenth_rounds_up_near_2_53 :
  unique_devices 9007199254740989 = 900719925474099 /\
  floor_tenth 9007199254740989 = 900719925474098.
Proof. split; vm_compute; reflexivity. Qed.

(** C1 at a failing input: a generate-only run above the threshold
    creates no schema but sends every batch to the store, three bulk
    inserts of 4, 4 and 2 rows here, and then queries the table. *)
Theorem generate_only_streamed_run_inserts :
  let run := main sample_config sample_entropy never_raises
                  (sample_args 1000001 true) initial_world in
  run.2 = Ok tt /\
  inserted_batch_sizes run.1 = [4; 4; 2]%nat /\
  filter (fun c => is_schema_creation c.1 = true) (calls run.1) = [] /\
  map (fun c => reporting_query c.1) (calls run.1)
  = [false; false; false; false; false; true; true; false].
Proof. vm_compute. repeat split. Qed.

(** C2, as first stated, fails at the threshold itself: a request for
    exactly 1,000,000 rows runs the whole-dataset mode. *)
Lemma mode_at_threshold_is_whole_dataset :
  select_mode 1000000 = WholeDataset /\ select_mode 1000000 <> Streamed.
Proof. split; [reflexivity | discriminate]. Qed.

(** C3, as first stated, fails at 10,001 rows: the ceiling of 1000.1 is
    1001, but 1000 devices are generated. *)
Lemma device_count_not_ceiling :
  Z.max 1000 (ceil_tenth 10001) = 1001 /\
  unique_devices 10001 = 1000 /\
  generated_devices (device_population sample_config sample_entropy 10001 initial_world)
  = Some 1000%nat.
Proof. repeat split; vm_compute; reflexivity. Qed.

(** C4, as first stated, fails for a row count that no double holds:
    with [2 ^ 1024] rows configured the generator raises [OverflowError]
    when it sizes its device population, before any batch. *)
Lemma streamed_generation_overflows :
  1 <= cfg_num_rows sample_config_too_many_rows /\
  collect_batches sample_config_too_many_rows sample_entropy (Some 4) initial_world
  = (initial_world, Raise OverflowError).
Proof. split; [now vm_compute | vm_compute; reflexivity]. Qed.

(** C7, as first stated, fails for a batch size that is not positive,
    though the store rejects nothing: with 0 the load raises
    [ZeroDivisionError] before any insert, and with -2 it returns
    normally without having inserted any of the seven records. *)
Lemma load_data_nonpositive_batch_loads_nothing :
  let load B := load_data sample_config never_raises (mkLoader 0)
                  (pd_DataFrame sample_records) "user_events" None B initial_world in
  (load 0).2 = Raise ZeroDivisionError /\
  calls (load 0).1 = [] /\
  (load (-2)).2 = Ok tt /\
  inserted_batch_sizes (load (-2)).1 = [] /\
  committed_rows "default" "user_events" (load (-2)).1 = [].
Proof. vm_compute. repeat split. Qed.

(** C8, as first stated, fails for [show_table_structure]: the store
    rejects its [DESCRIBE], the failure is logged and the operation
    returns normally. *)
Lemma show_table_structure_swallows_failure :
  let run := show_table_structure sample_config (raises_at 0) (mkLoader 0)
               "user_events" None initial_world in
  run.2 = Ok tt /\
  calls run.1 = [(Execute (DescribeTable "default" "user_events") None, false)] /\
  errors_logged run.1 = ["show_table_structure"%string].
Proof. vm_compute. repeat split. Qed.

(** ** Instances of the theorems *)

Lemma device_count_is_truncated_tenth_witness :
  exists w' ids profiles df,
    generate_dataframe_locals sample_config sample_entropy (Some 10) initial_world
    = (w', Ok (ids, profiles, df)) /\
    Z.of_nat (length ids) = 1000.
Proof.
  assert (Hwf : well_formed sample_config)
    by (split; simpl; [lia | discriminate | discriminate | reflexivity]).
  assert (Hyears : four_digit_years sample_config) by (split; [reflexivity | now vm_compute]).
  assert (Hn : 1 <= 10 < 2 ^ 52) by (split; [lia | reflexivity]).
  destruct (device_count_is_truncated_tenth sample_config sample_entropy 10 Hwf Hyears Hn)
    as [H _].
  destruct (H initial_world) as (w' & ids & profiles & df & Hrun & Hlen & _).
  exists w', ids, profiles, df. split; [exact Hrun | exact Hlen].
Defined.

Lemma streamed_batch_sizes_witness :
  exists w' batches,
    collect_batches sample_config sample_entropy (Some 4) initial_world = (w', Ok batches) /\
    map df_len batches = [4; 4; 2].
Proof.
  assert (Hwf : well_formed sample_config)
    by (split; simpl; [lia | discriminate | discriminate | reflexivity]).
  assert (Hyears : four_digit_years sample_config) by (split; [reflexivity | now vm_compute]).
  assert (Hn : 1 <= cfg_num_rows sample_config < float_overflow_bound)
    by (split; [simpl; lia | reflexivity]).
  assert (HB : 1 <= 4) by lia.
  destruct (streamed_batch_sizes sample_config sample_entropy 4 Hwf Hyears Hn HB
              initial_world)
    as (w' & batches & Hrun & Hsizes & _).
  exists w', batches. split; [exact Hrun | exact Hsizes].
Defined.

Lemma event_dates_within_device_bounds_witness :
  exists w' ids profiles df,
    generate_dataframe_locals sample_config sample_entropy (Some 3) initial_world
    = (w', Ok (ids, profiles, df)) /\
    Forall (within_device_bounds sample_config profiles) (df_records df).
Proof.
  assert (Hok : returned (generate_dataframe_locals sample_config sample_entropy (Some 3)
                            initial_world) = true) by (vm_compute; reflexivity).
  destruct (generate_dataframe_locals sample_config sample_entropy (Some 3) initial_world)
    as [w' [[[ids profiles] df]|e]] eqn:Hrun; [|discriminate Hok].
  exists w', ids, profiles, df. split; [reflexivity|].
  apply (event_dates_within_device_bounds sample_config sample_entropy
           initial_world w' ids profiles).
  left. exists (Some 3), df. split; [exact Hrun | reflexivity].
Defined.

(** The second of three batches is rejected: the load raises, the first
    batch stays committed and the third is never sent. *)
Lemma load_data_in_order_until_failure_witness :
  let run := load_data sample_config (raises_at 1) (mkLoader 0)
               (pd_DataFrame sample_records) "user_events" None 3 initial_world in
  run.2 = Raise (StoreError 1) /\
  map (fun c => c.2) (calls run.1) = [true; false] /\
  committed_rows "default" "user_events" run.1 = map to_row (take 3 sample_records).
Proof.
  assert (HB : 1 <= 3) by lia.
  pose proof (load_data_in_order_until_failure sample_config (raises_at 1) (mkLoader 0)
                sample_records "user_events" None 3 initial_world HB) as H.
  cbv zeta in H. destruct H as (_ & _ & H).
  change (first_failing (raises_at 1) (length (calls initial_world))
            (database_or_default sample_config None) "user_events"
            (load_batches sample_records 3)) with (Some 1%nat) in H.
  destruct H as (Hr & Hc & Hrows).
  cbv zeta. split; [exact Hr|]. split; [rewrite Hc; reflexivity | exact Hrows].
Defined.

Lemma store_failures_surface_witness :
  (run_op sample_config (raises_at 0) (mkLoader 0)
     (OpVerifyDataCount "user_events" None) initial_world).2 = Ok tt /\
  exists i,
    (run_op sample_config (raises_at 0) (mkLoader 0)
       (OpExecuteQuery "SELECT 1") initial_world).2 = Raise (StoreError i).
Proof.
  split.
  - apply (store_failures_surface sample_config (raises_at 0) (mkLoader 0)
             (OpVerifyDataCount "user_events" None) initial_world).
    reflexivity.
  - apply (store_failures_surface sample_config (raises_at 0) (mkLoader 0)
             (OpExecuteQuery "SELECT 1") initial_world)
      with (c := Execute (RawQuery "SELECT 1") None).
    + apply list_elem_of_here.
    + reflexivity.
Defined.


Lemma event_time_on_event_date_witness :
  exists w' ids profiles batches,
    collect_batches_locals sample_config sample_entropy (Some 4) initial_world
    = (w', Ok (ids, profiles, batches)) /\
    Forall (fun r => dt_date (event_time r) = date r /\
                     0 <= dt_hour (event_time r) <= 23 /\
                     0 <= dt_minute (event_time r) <= 59 /\
                     0 <= dt_second (event_time r) <= 59 /\
                     within_day (date r) (event_time r))
           (concat (map df_records batches)).
Proof.
  assert (Hok : returned (collect_batches_locals sample_config sample_entropy (Some 4)
                            initial_world) = true) by (vm_compute; reflexivity).
  destruct (collect_batches_locals sample_config sample_entropy (Some 4) initial_world)
    as [w' [[[ids profiles] batches]|e]] eqn:Hrun; [|discriminate Hok].
  exists w', ids, profiles, batches. split; [reflexivity|].
  apply (event_time_on_event_date sample_config sample_entropy
           initial_world w' ids profiles).
  right. exists (Some 4), batches. split; [exact Hrun | reflexivity].
Defined.

Lemma records_share_device_attributes_witness :
  exists w' ids profiles df,
    generate_dataframe_locals sample_config sample_entropy (Some 5) initial_world
    = (w', Ok (ids, profiles, df)) /\
    forall r1 r2, r1 ∈ df_records df -> r2 ∈ df_records df ->
                  device_id r1 = device_id r2 ->
                  city r1 = city r2 /\ device_os r1 = device_os r2.
Proof.
  assert (Hok : returned (generate_dataframe_locals sample_config sample_entropy (Some 5)
                            initial_world) = true) by (vm_compute; reflexivity).
  destruct (generate_dataframe_locals sample_config sample_entropy (Some 5) initial_world)
    as [w' [[[ids profiles] df]|e]] eqn:Hrun; [|discriminate Hok].
  exists w', ids, profiles, df. split; [reflexivity|].
  apply (records_share_device_attributes sample_config sample_entropy
           initial_world w' ids profiles).
  left. exists (Some 5), df. split; [exact Hrun | reflexivity].
Defined.

Lemma records_within_configuration_witness :
  exists w' ids profiles df,
    generate_dataframe_locals sample_config sample_entropy (Some 2) initial_world
    = (w', Ok (ids, profiles, df)) /\
    Forall (fun r => event r ∈ EVENTS sample_config /\ city r ∈ CITIES sample_config /\
                     device_os r ∈ DEVICE_OS sample_config /\
                     739252 <= date r <= 739254) (df_records df).
Proof.
  assert (Hok : returned (generate_dataframe_locals sample_config sample_entropy (Some 2)
                            initial_world) = true) by (vm_compute; reflexivity).
  destruct (generate_dataframe_locals sample_config sample_entropy (Some 2) initial_world)
    as [w' [[[ids profiles] df]|e]] eqn:Hrun; [|discriminate Hok].
  exists w', ids, profiles, df. split; [reflexivity|].
  apply (records_within_configuration sample_config sample_entropy
           initial_world w' ids profiles).
  left. exists (Some 2), df. split; [exact Hrun | reflexivity].
Defined.

(** No row is configured: the consumer's count stays at its start. *)
Lemma streamed_generation_without_rows_witness :
  exists w',
    generate_data_batches sample_config_without_rows sample_entropy (Some 4)
      (fun total df => ret (total + df_len df)) 7 initial_world = (w', Ok 7) /\
    same_store initial_world w'.
Proof.
  assert (Hwf : well_formed sample_config_without_rows)
    by (split; simpl; [lia | discriminate | discriminate | reflexivity]).
  assert (Hn : - float_overflow_bound < cfg_num_rows sample_config_without_rows <= 0)
    by (split; [reflexivity | simpl; lia]).
  assert (HB : 1 <= 4) by lia.
  exact (streamed_generation_without_rows sample_config_without_rows sample_entropy 4
           (fun total df => ret (total + df_len df)) 7 Hwf Hn HB initial_world).
Defined.

(** Seven records and a batch size of -2: nothing is inserted. *)
Lemma load_data_nonpositive_batch_size_witness :
  let run := load_data sample_config never_raises (mkLoader 0)
               (pd_DataFrame sample_records) "user_events" None (-2) initial_world in
  run.2 = Ok tt /\
  Forall (fun c => reporting_query c.1 = true) (calls_since initial_world run.1) /\
  committed_rows "default" "user_events" run.1 = [].
Proof.
  assert (HB : -2 <= 0) by lia.
  pose proof (load_data_nonpositive_batch_size sample_config never_raises (mkLoader 0)
                (sample_event 739252 5) (map (sample_event 739252) [3; 9; 1; 7; 2; 8])
                "user_events" None (-2) initial_world HB) as H.
  cbv zeta in H. destruct H as [[H0 _]|(_ & Hr & Hc & Hrows)]; [discriminate H0|].
  cbv zeta. split; [exact Hr|]. split; [exact Hc | exact Hrows].
Defined.

(** Three rows, generate-only, and a store that rejects nothing. *)
Lemma generate_only_whole_dataset_store_calls_witness :
  calls (main sample_config sample_entropy never_raises (sample_args 3 true)
           initial_world).1
  = [(NewClient, true); (version_call, true)].
Proof.
  assert (Hrows : rows (sample_args 3 true) <= 1000000) by (simpl; lia).
  assert (Honly : generate_only (sample_args 3 true) = true) by reflexivity.
  exact (generate_only_whole_dataset_store_calls sample_config sample_entropy never_raises
           (sample_args 3 true) initial_world Hrows Honly).
Defined.

(** A streamed run whose [CREATE DATABASE], the fifth call, is rejected. *)
Lemma schema_failure_aborts_before_insert_witness :
  let run := main sample_config sample_entropy (raises_at 4) (sample_args 5000000 false)
               initial_world in
  run.2 = Raise (SystemExit 1) /\ Forall not_insert (calls_since initial_world run.1).
Proof.
  assert (Hload : generate_only (sample_args 5000000 false) = false) by reflexivity.
  assert (Hcalls : calls_since initial_world
                     (main sample_config sample_entropy (raises_at 4)
                        (sample_args 5000000 false) initial_world).1
                   = [(NewClient, true); (version_call, true);
                      (NewClient, true); (version_call, true);
                      (create_database_call "default", false)])
    by (vm_compute; reflexivity).
  apply (schema_failure_aborts_before_insert sample_config sample_entropy (raises_at 4)
           (sample_args 5000000 false) initial_world Hload).
  rewrite Hcalls. do 4 apply Exists_cons_tl. apply Exists_cons_hd. split; reflexivity.
Defined.

Lemma whole_dataset_run_loads_every_row_witness :
  let run := main sample_config sample_entropy never_raises (sample_args 5 false)
               initial_world in
  run.2 = Ok tt /\
  Z.of_nat (length (committed_rows "default" "user_events" run.1)) = 5.
Proof.
  assert (Hwf : well_formed sample_config)
    by (split; simpl; [lia | discriminate | discriminate | reflexivity]).
  assert (Hh : forall i c, never_raises i c = false) by reflexivity.
  assert (Hyears : four_digit_years sample_config) by (split; [reflexivity | now vm_compute]).
  assert (Hrows : 1 <= rows (sample_args 5 false) <= 1000000) by (simpl; lia).
  assert (HB : 1 <= batch_size (sample_args 5 false)) by (simpl; lia).
  assert (Hload : generate_only (sample_args 5 false) = false) by reflexivity.
  destruct (whole_dataset_run_loads_every_row sample_config sample_entropy never_raises Hh
              (sample_args 5 false) initial_world Hwf Hyears Hrows HB Hload)
    as (Hr & records & Hlen & _ & _ & Hrecords).
  cbv zeta. split; [exact Hr|].
  change (database (sample_args 5 false)) with "default"%string in Hrecords.
  change (table (sample_args 5 false)) with "user_events"%string in Hrecords.
  rewrite Hrecords, length_app, length_map. simpl length at 1. exact Hlen.
Defined.

Lemma streamed_run_loads_configured_rows_witness :
  let run := main sample_config sample_entropy never_raises (sample_args 5000000 false)
               initial_world in
  run.2 = Ok tt /\
  Z.of_nat (length (committed_rows "default" "user_events" run.1)) = 10.
Proof.
  assert (Hwf : well_formed sample_config)
    by (split; simpl; [lia | discriminate | discriminate | reflexivity]).
  assert (Hh : forall i c, never_raises i c = false) by reflexivity.
  assert (Hyears : four_digit_years sample_config) by (split; [reflexivity | now vm_compute]).
  assert (Hn : 0 <= cfg_num_rows sample_config < float_overflow_bound)
    by (split; [simpl; lia | reflexivity]).
  assert (Hrows : 1000000 < rows (sample_args 5000000 false)) by (simpl; lia).
  assert (HB : 1 <= batch_size (sample_args 5000000 false)) by (simpl; lia).
  assert (Hload : generate_only (sample_args 5000000 false) = false) by reflexivity.
  destruct (streamed_run_loads_configured_rows sample_config sample_entropy never_raises Hh
              (sample_args 5000000 false) initial_world Hwf Hyears Hn Hrows HB Hload)
    as (Hr & batches & _ & _ & Hlen).
  cbv zeta. split; [exact Hr | exact Hlen].
Defined.

(** A generate-only streamed run whose second insert, the fourth call,
    is rejected: the run stops there. *)
Lemma rejected_insert_ends_the_run_witness :
  let run := main sample_config sample_entropy (raises_at 3) (sample_args 5000000 true)
               initial_world in
  run.2 = Raise (SystemExit 1) /\
  exists pre c, calls_since initial_world run.1 = pre ++ [c] /\
                Forall no_rejected_insert pre /\ rejected_insert c.
Proof.
  assert (Hok : map (fun c => (is_insert_call c, c.2))
                  (calls_since initial_world
                     (main sample_config sample_entropy (raises_at 3)
                        (sample_args 5000000 true) initial_world).1)
                = [(false, true); (false, true); (true, true); (true, false)])
    by (vm_compute; reflexivity).
  apply (rejected_insert_ends_the_run sample_config sample_entropy (raises_at 3)
           (sample_args 5000000 true) initial_world).
  destruct (calls_since initial_world
              (main sample_config sample_entropy (raises_at 3)
                 (sample_args 5000000 true) initial_world).1)
    as [|c0 [|c1 [|c2 [|c3 rest]]]]; try discriminate Hok.
  do 3 apply Exists_cons_tl. apply Exists_cons_hd.
  simpl in Hok. split; congruence.
Defined.
